(** * WebRTC screen-sharing evaluation: the data-analysis pipeline

    A shallow embedding of [data-analysis/analyze.py] (the pandas
    implementation, class [DataAnalyzer]), of
    [data-analysis/create_visualizations.py] (the plain-Python
    implementation) and of [data-analysis/generate_sample_data.py], which
    writes the sample [results.json] and [results.csv] the two read.

    Numbers.  The measured fields are binary64 floats in the source.  They
    are modelled as exact rationals ([Qc], canonical fractions with Leibniz
    equality), and [Stats.mean] is their exact mean: it says which values
    a mean is taken of, and it is the value the libraries compute where
    no rounding occurs, as for a single value.  What the rounded sum of
    several values comes to is given by [Binary64.np_mean], in the
    binary64 arithmetic of the kernel.  The two non-numbers the libraries
    produce are kept apart: [NaN] (mean, min or max of nothing, standard
    deviation of fewer than two observations) and [Sqrt q], the square root
    that [Series.std] takes of the sample variance [q], left symbolic
    because it is irrational in general.

    Strings.  [upper] and [lower] change the letters a to z and A to Z and
    nothing else.  This is what [str.upper] and [str.lower] do on ASCII
    strings; on other letters Python does more, so statements about case
    are made for ASCII labels ([ascii_only]). *)

From Stdlib Require Import List String Ascii Bool Arith ZArith NArith Lia.
From Stdlib Require Import QArith Qcanon Permutation Sorted DecimalString.
From Stdlib Require Import Lqa PrimFloat.
Import ListNotations.

Set Implicit Arguments.
Open Scope string_scope.
Open Scope list_scope.

(* ================================================================== *)
(** * Keys: what a dict key, a groupby key or a sorted() element needs *)
(* ================================================================== *)

Class Key (K : Type) := {
  keqb : K -> K -> bool;   (* ==  *)
  kleb : K -> K -> bool    (* <=  *)
}.

(** Strings compare by code point, as Python's [str] does. *)
#[export] Instance string_Key : Key string :=
  {| keqb := String.eqb; kleb := String.leb |}.

#[export] Instance Z_Key : Key Z :=
  {| keqb := Z.eqb; kleb := Z.leb |}.

(** Rationals: [==] and [<=] of Python floats, on exact values. *)
Definition Qc_leb (x y : Qc) : bool := Qle_bool x y.

#[export] Instance Qc_Key : Key Qc :=
  {| keqb := Qc_eq_bool; kleb := Qc_leb |}.

(** A two-column key compares column by column, as a tuple does. *)
Definition pair_eqb {A B} `{Key A} `{Key B} (p q : A * B) : bool :=
  keqb (fst p) (fst q) && keqb (snd p) (snd q).

Definition pair_leb {A B} `{Key A} `{Key B} (p q : A * B) : bool :=
  if keqb (fst p) (fst q) then kleb (snd p) (snd q) else kleb (fst p) (fst q).

#[export] Instance pair_Key {A B} `{Key A} `{Key B} : Key (A * B) :=
  {| keqb := pair_eqb; kleb := pair_leb |}.

(** The laws the operations obey; proved for each instance further down. *)
Class KeyLaws (K : Type) `{Key K} := {
  keqb_eq : forall x y : K, keqb x y = true <-> x = y;
  kleb_total : forall x y : K, kleb x y = true \/ kleb y x = true;
  kleb_antisym : forall x y : K, kleb x y = true -> kleb y x = true -> x = y;
  kleb_trans : forall x y z : K,
      kleb x y = true -> kleb y z = true -> kleb x z = true
}.
Arguments KeyLaws K {_}.

(* ================================================================== *)
(** * Values the libraries hand back                                   *)
(* ================================================================== *)

Inductive fval : Type :=
| NaN                 (* not a number *)
| Num (q : Qc)        (* a finite value *)
| Sqrt (q : Qc).      (* the square root of [q] *)

(** [str.upper] and [str.lower], on ASCII letters. *)
Definition upper_ascii (c : ascii) : ascii :=
  let n := nat_of_ascii c in
  if ((97 <=? n) && (n <=? 122))%nat then ascii_of_nat (n - 32) else c.

Definition lower_ascii (c : ascii) : ascii :=
  let n := nat_of_ascii c in
  if ((65 <=? n) && (n <=? 90))%nat then ascii_of_nat (n + 32) else c.

Fixpoint upper (s : string) : string :=
  match s with
  | EmptyString => EmptyString
  | String c t => String (upper_ascii c) (upper t)
  end.

Fixpoint lower (s : string) : string :=
  match s with
  | EmptyString => EmptyString
  | String c t => String (lower_ascii c) (lower t)
  end.

(** Sorting.  [sorted(...)], the sorted group keys of [groupby] and
    [sort_values] are all modelled by one insertion sort.  It is stable;
    pandas' default [sort_values] need not be, and nothing below depends on
    how rows with equal sort keys are ordered. *)
Section Sorting.
Context {A : Type} (le : A -> A -> bool).

Fixpoint insert (x : A) (l : list A) : list A :=
  match l with
  | [] => [x]
  | y :: t => if le x y then x :: l else y :: insert x t
  end.

Fixpoint sort (l : list A) : list A :=
  match l with
  | [] => []
  | x :: t => insert x (sort t)
  end.
End Sorting.

Definition sorted {K} `{Key K} (l : list K) : list K := sort kleb l.

(** [Series.unique()]: the distinct values, in order of first appearance. *)
Fixpoint unique {K} `{Key K} (l : list K) : list K :=
  match l with
  | [] => []
  | x :: t => x :: filter (fun y => negb (keqb x y)) (unique t)
  end.

(** Arithmetic of [np.mean], [Series.mean], [Series.std], [Series.min] and
    [Series.max] on a column of finite values. *)
Module Stats.

Definition total (l : list Qc) : Qc := fold_left Qcplus l 0%Qc.

Definition of_count (n : nat) : Qc := Q2Qc (inject_Z (Z.of_nat n)).

(** The arithmetic mean; [nan] for no values at all. *)
Definition mean (l : list Qc) : fval :=
  match l with
  | [] => NaN
  | _ :: _ => Num (total l / of_count (List.length l))%Qc
  end.

Definition Qc_min (x y : Qc) : Qc := if Qc_leb x y then x else y.
Definition Qc_max (x y : Qc) : Qc := if Qc_leb x y then y else x.

Definition min (l : list Qc) : fval :=
  match l with
  | [] => NaN
  | x :: t => Num (fold_left Qc_min t x)
  end.

Definition max (l : list Qc) : fval :=
  match l with
  | [] => NaN
  | x :: t => Num (fold_left Qc_max t x)
  end.

(** Sample variance, [ddof = 1]. *)
Definition var (l : list Qc) : Qc :=
  let m := (total l / of_count (List.length l))%Qc in
  (total (map (fun x => (x - m) * (x - m))%Qc l)
     / of_count (List.length l - 1))%Qc.

(** [Series.std()]: with fewer than two observations pandas answers
    [nan] without dividing; otherwise the root of the sample variance. *)
Definition std (l : list Qc) : fval :=
  if (List.length l <=? 1)%nat then NaN else Sqrt (var l).

End Stats.

(** [np.mean] of a Python list of floats, in binary64.  A value of the
    model stands for the float nearest to it, as [float()] reads it from
    the text of the CSV file.  numpy adds up fewer than eight values one
    after the other, from the left, and divides the sum by their number;
    longer arrays are summed in blocks, which this definition does not
    follow: it is for short lists. *)
Module Binary64.

Fixpoint of_pos (p : positive) : float :=
  match p with
  | xH => 1%float
  | xO p => (2 * of_pos p)%float
  | xI p => (2 * of_pos p + 1)%float
  end.

Definition of_Z (z : Z) : float :=
  match z with
  | Z0 => 0%float
  | Zpos p => of_pos p
  | Zneg p => (- of_pos p)%float
  end.

(** The float nearest to a fraction whose numerator and denominator are
    below 2^53, by one correctly rounded division. *)
Definition of_Qc (q : Qc) : float :=
  (of_Z (Qnum q) / of_pos (Qden q))%float.

Definition of_count (n : nat) : float :=
  Nat.iter n (fun c => (c + 1)%float) 0%float.

Definition np_mean (l : list Qc) : float :=
  (fold_left (fun s x => (s + of_Qc x)%float) l 0%float
   / of_count (List.length l))%float.

End Binary64.

(** [df.groupby(keys)[col].mean().reset_index()]: one row per key that
    occurs, keys in sorted order, with the mean of the column over the rows
    of that key. *)
Definition groupby_mean {R K} `{Key K} (key : R -> K) (col : R -> Qc)
    (df : list R) : list (K * fval) :=
  map (fun k => (k, Stats.mean (map col (filter (fun r => keqb (key r) k) df))))
      (sorted (unique (map key df))).

(* ================================================================== *)
(** * Data model                                                       *)
(* ================================================================== *)

(** One row of the frame the analyses read: the columns of
    [results.csv], which are also the keys of the records built from
    [results.json]. *)
Record Row : Type := {
  testId : Z;
  architecture : string;
  numViewers : Z;
  packetLoss : Qc;
  bandwidth : string;
  avgLatency : Qc;
  minLatency : Qc;
  maxLatency : Qc;
  avgCpu : Qc;
  maxCpu : Qc;
  avgTls : Qc;
  minTls : Qc
}.

Definition DataFrame : Type := list Row.

(** A line of [results.csv].  Besides the analysed columns the writer in
    [generate_sample_data.py] emits a [success] and a [timestamp] column;
    neither is ever read back. *)
Record CsvRow : Type := {
  csv_fields : Row;
  csv_success : option bool;
  csv_timestamp : option Z
}.

(** The [metrics] object of a JSON result, with the entries that are read. *)
Record Latency : Type := { lat_average : Qc; lat_min : Qc; lat_max : Qc }.
Record Cpu : Type := { cpu_average : Qc; cpu_max : Qc }.
Record Tls : Type := { tls_average : Qc; tls_min : Qc }.
Record Metrics : Type := { latency : Latency; cpu : Cpu; tls : Tls }.

Inductive MetricsField : Type :=
| MetricsAbsent                 (* no [metrics] key, or null *)
| MetricsEmpty                  (* the empty object *)
| MetricsBlock (m : Metrics).

(** An element of the [results] list of [results.json]. *)
Record Result : Type := {
  r_testId : Z;
  r_architecture : string;
  r_numViewers : Z;
  r_packetLoss : Qc;
  r_bandwidth : string;
  r_success : option bool;      (* [None]: the key is missing *)
  r_metrics : MetricsField
}.

(** The results directory, as far as the loaders look at it. *)
Record ResultsDir : Type := {
  results_json : option (list Result);   (* [json_data['results']] *)
  results_csv : option (list CsvRow)
}.

Inductive exn : Type :=
| FileNotFoundError
| KeyError (key : string)
| TypeError                     (* [json.dump]: a value of a type it cannot write *)
| ValueError.                   (* matplotlib: arrays whose shapes do not fit *)

(** What [json.dump] is given: nested dicts (insertion ordered), lists,
    strings and numbers.  The numbers keep the type they have in Python: a
    Python [int], a [numpy.int64] (what [list(Series.unique())] holds for
    a column of integers), or a float ([float] and [numpy.float64], which
    is a subclass of it). *)
Unset Elimination Schemes.
Inductive json : Type :=
| JInt (z : Z)
| JInt64 (z : Z)
| JNum (v : fval)
| JStr (s : string)
| JList (l : list json)
| JDict (kv : list (string * json)).
Set Elimination Schemes.

(** [d.get(k)] and [k in d]. *)
Fixpoint dict_get {V} (d : list (string * V)) (k : string) : option V :=
  match d with
  | [] => None
  | (k', v) :: t => if String.eqb k k' then Some v else dict_get t k
  end.

Definition dict_keys {V} (d : list (string * V)) : list string := map fst d.

Definition jget (j : json) (k : string) : option json :=
  match j with
  | JDict kv => dict_get kv k
  | _ => None
  end.

Definition jkeys (j : json) : list string :=
  match j with
  | JDict kv => dict_keys kv
  | _ => []
  end.

(** [json.dump] with the default encoder writes dicts, lists, strings,
    Python ints and floats ([nan] as [NaN]); for a value of any other
    type, [numpy.int64] included, it raises TypeError. *)
Fixpoint dumpable (j : json) : bool :=
  match j with
  | JInt _ | JNum _ | JStr _ => true
  | JInt64 _ => false
  | JList l => forallb dumpable l
  | JDict kv => forallb (fun e => dumpable (snd e)) kv
  end.

(** The encoder hands the document to the file piece by piece, so what
    precedes the offending value is in the file when the exception is
    raised: of a dict, the entries before the first one that cannot be
    written (and the beginning of that one, which is not kept here). *)
Fixpoint written_entries (kv : list (string * json)) : list (string * json) :=
  match kv with
  | [] => []
  | e :: t => if dumpable (snd e) then e :: written_entries t else []
  end.

(** What is handed to the plotting library. *)
Record Line (X : Type) : Type := {
  label : string;
  xs : list X;
  ys : list fval
}.

Record Figure (X : Type) : Type := {
  path : string;
  lines : list (Line X)
}.

Record BarFigure : Type := {
  bar_path : string;
  bar_positions : nat;                      (* [len(x)] *)
  bars : list (string * list fval);         (* label, heights *)
  bar_ticks : list string
}.

(** The files a run leaves behind.  A [CutOffFile] is a file that was
    opened and written to until [json.dump] raised: it holds the given
    top-level entries and breaks off after them. *)
Inductive artifact : Type :=
| CpuChart (f : Figure Z)
| LatencyChart (f : Figure Qc)
| TlsChart (f : BarFigure)
| SummaryFile (name : string) (doc : json)
| CutOffFile (name : string) (complete : list (string * json)).

Definition file_name (a : artifact) : string :=
  match a with
  | CpuChart f => path f
  | LatencyChart f => path f
  | TlsChart f => bar_path f
  | SummaryFile name _ => name
  | CutOffFile name _ => name
  end.

(** [with open(name, 'w') as f: json.dump(doc, f, indent=2)]: the file
    left behind, and the exception raised, if any. *)
Definition json_dump (name : string) (doc : json) : artifact * option exn :=
  if dumpable doc then (SummaryFile name doc, None)
  else (CutOffFile name
          match doc with
          | JDict kv => written_entries kv
          | _ => []
          end,
        Some TypeError).

(* ================================================================== *)
(** * analyze.py: class DataAnalyzer                                   *)
(* ================================================================== *)

Module Analyze.

(** [pd.read_csv]: one frame row per line, every line kept. *)
Definition read_csv (table : list CsvRow) : DataFrame :=
  map csv_fields table.

(** [result.get('success', False)] and [result.get('metrics')], as
    conditions. *)
Definition get_success (r : Result) : bool :=
  match r_success r with
  | Some b => b
  | None => false
  end.

Definition get_metrics (r : Result) : bool :=
  match r_metrics r with
  | MetricsBlock _ => true
  | MetricsAbsent | MetricsEmpty => false
  end.

(** The body of the loop over [results]: the record appended for one
    result, if any. *)
Definition record_of (r : Result) : option Row :=
  if get_success r then
    match r_metrics r with
    | MetricsBlock m =>
        Some {| testId := r_testId r;
                architecture := upper (r_architecture r);
                numViewers := r_numViewers r;
                packetLoss := r_packetLoss r;
                bandwidth := r_bandwidth r;
                avgLatency := lat_average (latency m);
                minLatency := lat_min (latency m);
                maxLatency := lat_max (latency m);
                avgCpu := cpu_average (cpu m);
                maxCpu := cpu_max (cpu m);
                avgTls := tls_average (tls m);
                minTls := tls_min (tls m) |}
    | MetricsAbsent | MetricsEmpty => None
    end
  else None.

Fixpoint records_of (results : list Result) : list Row :=
  match results with
  | [] => []
  | r :: rest =>
      match record_of r with
      | Some rec => rec :: records_of rest
      | None => records_of rest
      end
  end.

(** [load_data]: the frame left in [self.data] ([None] while it is
    unset) and what the call returns or raises.  The CSV file is looked
    for first.  A frame built from no records has no columns, so the
    report printed after the frame is stored fails on
    [self.data['architecture']]. *)
Definition load_data (dir : ResultsDir)
  : option DataFrame * (exn + DataFrame) :=
  match results_csv dir with
  | Some table =>
      let data := read_csv table in
      (Some data, inr data)
  | None =>
      match results_json dir with
      | Some results =>
          let data := records_of results in
          (Some data,
           match data with
           | [] => inl (KeyError "architecture")
           | _ :: _ => inr data
           end)
      | None => (None, inl FileNotFoundError)
      end
  end.

(** The three aggregations ([cpu_grouped], [latency_grouped] and
    [tls_grouped] in the source). *)
Definition cpu_grouped (cpu_data : DataFrame) : list (string * Z * fval) :=
  groupby_mean (fun r => (architecture r, numViewers r)) avgCpu cpu_data.

Definition latency_grouped (latency_data : DataFrame)
  : list (string * Qc * fval) :=
  groupby_mean (fun r => (architecture r, packetLoss r)) avgLatency
               latency_data.

(** [bandwidth_order], applied with [Series.map]: [nan] off the table. *)
Definition bandwidth_order (b : string) : option Z :=
  if String.eqb b "1mbit" then Some 1%Z
  else if String.eqb b "2mbit" then Some 2%Z
  else if String.eqb b "5mbit" then Some 5%Z
  else None.

(** Order of [sort_values('bandwidthNum')]: ascending, [nan] last. *)
Definition bandwidthNum_leb (a b : option Z) : bool :=
  match a, b with
  | Some x, Some y => (x <=? y)%Z
  | Some _, None => true
  | None, Some _ => false
  | None, None => true
  end.

Definition bandwidthNum (g : string * string * fval) : option Z :=
  bandwidth_order (snd (fst g)).

Definition tls_grouped (tls_data : DataFrame)
  : list (string * string * fval) :=
  sort (fun g1 g2 => bandwidthNum_leb (bandwidthNum g1) (bandwidthNum g2))
       (groupby_mean (fun r => (architecture r, bandwidth r)) avgTls
                     tls_data).

(** The plotting loop: one series per architecture of the grouped frame. *)
Definition arch_rows {X} (grouped : list (string * X * fval)) (arch : string)
  : list (string * X * fval) :=
  filter (fun g => keqb (fst (fst g)) arch) grouped.

Definition series {X} (xcol : X -> X) (grouped : list (string * X * fval))
  : list (Line X) :=
  map (fun arch =>
         let arch_data := arch_rows grouped arch in
         {| label := String.append arch " Architecture";
            xs := map (fun g => xcol (snd (fst g))) arch_data;
            ys := map snd arch_data |})
      (unique (map (fun g => fst (fst g)) grouped)).

Definition generate_cpu_utilization_chart (data : DataFrame)
  : option (Figure Z) :=
  let cpu_data := filter (fun r => keqb (packetLoss r) 0%Qc) data in
  match cpu_data with
  | [] => None                          (* warning, no file *)
  | _ :: _ =>
      Some {| path := "cpu_utilization.png";
              lines := series (fun v => v) (cpu_grouped cpu_data) |}
  end.

Definition hundred : Qc := Q2Qc (inject_Z 100).

Definition generate_latency_vs_loss_chart (data : DataFrame)
  : option (Figure Qc) :=
  let latency_data := filter (fun r => keqb (numViewers r) 5%Z) data in
  match latency_data with
  | [] => None
  | _ :: _ =>
      Some {| path := "latency_vs_loss.png";
              lines := series (fun l => (l * hundred)%Qc)
                              (latency_grouped latency_data) |}
  end.

(** [plt.bar(x + offset, heights, width)] for [n] positions.  The
    heights are broadcast against the positions: as many heights as
    positions are drawn one by one, a single height is drawn at every
    position, and any other number of heights raises ValueError (with a
    single position, every height is drawn there). *)
Definition bar_heights (n : nat) (heights : list fval) : exn + list fval :=
  if (List.length heights =? n)%nat then inr heights
  else
    match heights with
    | [h] => inr (repeat h n)
    | _ => if (n =? 1)%nat then inr heights else inl ValueError
    end.

(** The plotting loop of the bar chart: the first call that raises ends
    it. *)
Fixpoint draw_bars (n : nat) (groups : list (string * list fval))
  : exn + list (string * list fval) :=
  match groups with
  | [] => inr []
  | (name, heights) :: rest =>
      match bar_heights n heights with
      | inl e => inl e
      | inr drawn =>
          match draw_bars n rest with
          | inl e => inl e
          | inr others => inr ((name, drawn) :: others)
          end
      end
  end.

(** [generate_tls_vs_bandwidth_chart]: [inr None] when the chart is
    skipped, [inr (Some fig)] when it is saved, [inl e] when a plotting
    call raises before the file is saved.  [plt.xticks(x, labels)] with
    three labels raises ValueError unless there are three positions. *)
Definition generate_tls_vs_bandwidth_chart (data : DataFrame)
  : exn + option BarFigure :=
  let tls_data :=
    filter (fun r => keqb (numViewers r) 5%Z && keqb (packetLoss r) 0%Qc)
           data in
  match tls_data with
  | [] => inr None
  | _ :: _ =>
      let grouped := tls_grouped tls_data in
      let architectures := unique (map (fun g => fst (fst g)) grouped) in
      let x := List.length (unique (map (fun g => snd (fst g)) grouped)) in
      let ticks := ["1 Mbps"; "2 Mbps"; "5 Mbps"] in
      match draw_bars x
              (map (fun arch =>
                      (String.append arch " Architecture",
                       map snd (arch_rows grouped arch)))
                   architectures) with
      | inl e => inl e
      | inr drawn =>
          if (x =? List.length ticks)%nat
          then inr (Some {| bar_path := "tls_vs_bandwidth.png";
                            bar_positions := x;
                            bars := drawn;
                            bar_ticks := ticks |})
          else inl ValueError
      end
  end.

(** [generate_summary_statistics]: the [summary] dict the function
    builds.  The function then opens the summary file and calls
    [json.dump] on the dict; that call is the [json_dump] of
    [run_analysis] below.  The viewer counts come from
    [Series.unique()], so they are of type numpy.int64. *)
Definition describe (col : list Qc) : json :=
  JDict [("mean", JNum (Stats.mean col));
         ("std", JNum (Stats.std col));
         ("min", JNum (Stats.min col));
         ("max", JNum (Stats.max col))].

Definition arch_entry (data : DataFrame) (arch : string) : string * json :=
  let arch_data := filter (fun r => keqb (architecture r) arch) data in
  (arch,
   JDict [("tests", JInt (Z.of_nat (List.length arch_data)));
          ("avg_cpu", JNum (Stats.mean (map avgCpu arch_data)));
          ("avg_latency", JNum (Stats.mean (map avgLatency arch_data)));
          ("avg_tls", JNum (Stats.mean (map avgTls arch_data)))]).

(** One entry per distinct label, so the assignments
    [arch_comparison[arch] = ...] never overwrite one another. *)
Definition arch_comparison (data : DataFrame) : list (string * json) :=
  map (arch_entry data) (unique (map architecture data)).

Definition generate_summary_statistics (data : DataFrame) : json :=
  JDict
    [("total_tests", JInt (Z.of_nat (List.length data)));
     ("architectures", JList (map JStr (unique (map architecture data))));
     ("viewer_counts",
      JList (map JInt64 (sorted (unique (map numViewers data)))));
     ("packet_loss_rates",
      JList (map (fun q => JNum (Num q))
                 (sorted (unique (map packetLoss data)))));
     ("bandwidth_limits", JList (map JStr (unique (map bandwidth data))));
     ("overall_stats",
      JDict [("cpu_utilization", describe (map avgCpu data));
             ("latency", describe (map avgLatency data));
             ("tls", describe (map avgTls data))]);
     ("architecture_comparison", JDict (arch_comparison data))].

Definition saved {F} (wrap : F -> artifact) (fig : option F)
  : list artifact :=
  match fig with
  | Some f => [wrap f]
  | None => []
  end.

(** [run_analysis]: the files left behind, and the flag returned.  Any
    exception is caught and reported as failure: that of [load_data],
    that of the plotting calls of the legibility chart, and that of
    [json.dump], which [generate_summary_statistics] calls on the dict
    it has built, after opening the file. *)
Definition run_analysis (dir : ResultsDir) : list artifact * bool :=
  match snd (load_data dir) with
  | inl _ => ([], false)
  | inr [] => ([], false)               (* "No valid data loaded" *)
  | inr data =>
      let charts :=
        saved CpuChart (generate_cpu_utilization_chart data)
          ++ saved LatencyChart (generate_latency_vs_loss_chart data) in
      match generate_tls_vs_bandwidth_chart data with
      | inl _ => (charts, false)
      | inr tls_chart =>
          let (file, raised) :=
            json_dump "summary_statistics.json"
                      (generate_summary_statistics data) in
          (charts ++ saved TlsChart tls_chart ++ [file],
           match raised with
           | None => true
           | Some _ => false
           end)
      end
  end.

(** [main]: the files written and the exit status of the process. *)
Definition main (dir : ResultsDir) : list artifact * Z :=
  let (written, success) := run_analysis dir in
  (written, if success then 0%Z else 1%Z).

End Analyze.

(* ================================================================== *)
(** * create_visualizations.py                                         *)
(* ================================================================== *)

(** [defaultdict(list)], insertion ordered. *)
Section DefaultDict.
Context {K V : Type} `{Key K}.

(** [d[k].append(v)] *)
Fixpoint dd_append (d : list (K * list V)) (k : K) (v : V)
  : list (K * list V) :=
  match d with
  | [] => [(k, [v])]
  | (k', vs) :: t =>
      if keqb k k' then (k', vs ++ [v]) :: t
      else (k', vs) :: dd_append t k v
  end.

(** [d[k]]: the empty list for a key never appended to. *)
Fixpoint dd_get (d : list (K * list V)) (k : K) : list V :=
  match d with
  | [] => []
  | (k', vs) :: t => if keqb k k' then vs else dd_get t k
  end.

Definition dd_keys (d : list (K * list V)) : list K := map fst d.
End DefaultDict.

Module Visualize.

(** [load_data]: every line of the CSV file, or nothing when the file
    is not there. *)
Definition load_data (csv_file : option (list CsvRow)) : DataFrame :=
  match csv_file with
  | None => []                          (* "Error: ... not found" *)
  | Some table => map csv_fields table
  end.

(** The grouping loop of the three chart functions: the rows whose
    label lower-cases to [p2p] go to [p2p_data], all others to
    [sfu_data]. *)
Definition is_p2p (item : Row) : bool :=
  String.eqb (lower (architecture item)) "p2p".

Definition group {K} `{Key K} (key : Row -> K) (val : Row -> Qc)
    (filtered_data : DataFrame)
  : list (K * list Qc) * list (K * list Qc) :=
  fold_left
    (fun (acc : list (K * list Qc) * list (K * list Qc)) item =>
       let (p2p_data, sfu_data) := acc in
       if is_p2p item
       then (dd_append p2p_data (key item) (val item), sfu_data)
       else (p2p_data, dd_append sfu_data (key item) (val item)))
    filtered_data ([], []).

(** [[np.mean(d[k]) for k in keys]] *)
Definition averages {K} `{Key K} (d : list (K * list Qc)) (keys : list K)
  : list fval :=
  map (fun k => Stats.mean (dd_get d k)) keys.

(** The same list as numpy computes it in binary64, for keys that hold
    fewer than eight values. *)
Definition averages64 {K} `{Key K} (d : list (K * list Qc)) (keys : list K)
  : list float :=
  map (fun k => Binary64.np_mean (dd_get d k)) keys.

Definition create_cpu_utilization_chart (data : DataFrame) : Figure Z :=
  let filtered_data := filter (fun d => keqb (packetLoss d) 0%Qc) data in
  let (p2p_data, sfu_data) := group numViewers avgCpu filtered_data in
  let p2p_viewers := sorted (dd_keys p2p_data) in
  let p2p_cpu_avg := averages p2p_data p2p_viewers in
  let sfu_viewers := sorted (dd_keys sfu_data) in
  let sfu_cpu_avg := averages sfu_data sfu_viewers in
  {| path := "results/visualizations/cpu_utilization.png";
     lines := [ {| label := "P2P Architecture";
                   xs := p2p_viewers; ys := p2p_cpu_avg |};
                {| label := "SFU Architecture";
                   xs := sfu_viewers; ys := sfu_cpu_avg |} ] |}.

Definition create_latency_vs_loss_chart (data : DataFrame) : Figure Qc :=
  let filtered_data := filter (fun d => keqb (numViewers d) 5%Z) data in
  let (p2p_data, sfu_data) := group packetLoss avgLatency filtered_data in
  let p2p_losses := sorted (dd_keys p2p_data) in
  let p2p_losses_pct := map (fun l => (l * Analyze.hundred)%Qc) p2p_losses in
  let p2p_latency_avg := averages p2p_data p2p_losses in
  let sfu_losses := sorted (dd_keys sfu_data) in
  let sfu_losses_pct := map (fun l => (l * Analyze.hundred)%Qc) sfu_losses in
  let sfu_latency_avg := averages sfu_data sfu_losses in
  {| path := "results/visualizations/latency_vs_loss.png";
     lines := [ {| label := "P2P Architecture";
                   xs := p2p_losses_pct; ys := p2p_latency_avg |};
                {| label := "SFU Architecture";
                   xs := sfu_losses_pct; ys := sfu_latency_avg |} ] |}.

Definition bandwidth_order : list string := ["1mbit"; "2mbit"; "5mbit"].
Definition bandwidth_labels : list string := ["1 Mbps"; "2 Mbps"; "5 Mbps"].

Definition create_tls_vs_bandwidth_chart (data : DataFrame) : BarFigure :=
  let filtered_data :=
    filter (fun d => keqb (numViewers d) 5%Z && keqb (packetLoss d) 0%Qc)
           data in
  let (p2p_data, sfu_data) := group bandwidth avgTls filtered_data in
  let p2p_tls_avg := averages p2p_data bandwidth_order in
  let sfu_tls_avg := averages sfu_data bandwidth_order in
  {| bar_path := "results/visualizations/tls_vs_bandwidth.png";
     bar_positions := List.length bandwidth_labels;
     bars := [ ("P2P Architecture", p2p_tls_avg);
               ("SFU Architecture", sfu_tls_avg) ];
     bar_ticks := bandwidth_labels |}.

(** [create_summary_stats]: the [stats] dict. *)
Definition performance (data : DataFrame) (arch : string) : string * json :=
  let arch_data :=
    filter (fun d => String.eqb (lower (architecture d)) (lower arch))
           data in
  (arch,
   JDict [("avg_cpu", JNum (Stats.mean (map avgCpu arch_data)));
          ("avg_latency", JNum (Stats.mean (map avgLatency arch_data)));
          ("avg_tls", JNum (Stats.mean (map avgTls arch_data)));
          ("test_count", JInt (Z.of_nat (List.length arch_data)))]).

Definition create_summary_stats (data : DataFrame) : json :=
  JDict [("total_tests", JInt (Z.of_nat (List.length data)));
         ("architectures", JList [JStr "P2P"; JStr "SFU"]);
         ("performance_comparison",
          JDict (map (performance data) ["P2P"; "SFU"]))].

(** [main]: the files written and the exit status.  The function only
    ever returns, so the interpreter exits with status 0. *)
Definition main (csv_file : option (list CsvRow)) : list artifact * Z :=
  match load_data csv_file with
  | [] => ([], 0%Z)                     (* "No data found." *)
  | data =>
      ([ CpuChart (create_cpu_utilization_chart data);
         LatencyChart (create_latency_vs_loss_chart data);
         TlsChart (create_tls_vs_bandwidth_chart data);
         SummaryFile "results/visualizations/summary_statistics.json"
                     (create_summary_stats data) ],
       0%Z)
  end.

End Visualize.

(* ================================================================== *)
(** * generate_sample_data.py                                          *)
(* ================================================================== *)

Module Generator.

(** One element of the list [generate_sample_results] returns, with all
    the entries the dict literal gives it. *)
Record Sample : Type := {
  s_testId : Z;
  s_architecture : string;
  s_numViewers : Z;
  s_packetLoss : Qc;
  s_bandwidth : string;
  s_success : bool;
  s_sessionId : string;
  s_timestamp : Z;
  s_completedAt : Z;
  s_latency_average : Qc;
  s_latency_min : Qc;
  s_latency_max : Qc;
  s_latency_median : Qc;
  s_latency_count : Z;
  s_cpu_average : Qc;
  s_cpu_min : Qc;
  s_cpu_max : Qc;
  s_tls_average : Qc;
  s_tls_min : Qc;
  s_tls_max : Qc
}.

(** The module [random]: what its successive calls draw.  The [i]-th
    call takes [unit_draw i] for [random()], a number from 0 to 1, or
    [int_draw i] for the integer behind [randint]. *)
Record Random : Type := {
  unit_draw : nat -> Qc;
  int_draw : nat -> Z
}.

Inductive error : Type :=
| LookupError (key : string)      (* KeyError of a dict display *)
| IndexError.                     (* [csv_data[0]] of an empty list *)

(** Code that draws random numbers and may raise: the number of calls
    made so far is threaded through. *)
Definition M (A : Type) : Type := nat -> (error + A) * nat.

Definition ret {A} (x : A) : M A := fun n => (inr x, n).

Definition raise {A} (e : error) : M A := fun n => (inl e, n).

Definition bind {A B} (c : M A) (k : A -> M B) : M B :=
  fun n =>
    match c n with
    | (inr x, n') => k x n'
    | (inl e, n') => (inl e, n')
    end.

Notation "x <- c ;; k" := (bind c (fun x => k))
  (at level 61, c at next level, right associativity).

(** [random.uniform(a, b)] is [a + (b - a) * random()]. *)
Definition uniform (rng : Random) (a b : Qc) : M Qc :=
  fun n => (inr (a + (b - a) * unit_draw rng n)%Qc, S n).

(** [random.randint(a, b)]: some integer from [a] to [b]. *)
Definition randint (rng : Random) (a b : Z) : M Z :=
  fun n => (inr (a + (int_draw rng n) mod (b - a + 1))%Z, S n).

(** [for x in l: body], on the variables the loop assigns. *)
Fixpoint for_each {A S} (l : list A) (body : A -> S -> M S) (s : S) : M S :=
  match l with
  | [] => ret s
  | x :: t => s' <- body x s ;; for_each t body s'
  end.

Definition frac (n d : Z) : Qc := Q2Qc (Qmake n (Z.to_pos d)).
Definition of_int (z : Z) : Qc := Q2Qc (inject_Z z).

(** The test parameters. *)
Definition architectures : list string := ["P2P"; "SFU"].
Definition num_viewers : list Z := [1; 2; 3; 4; 5; 8; 10; 15]%Z.
Definition packet_loss_rates : list Qc :=
  [of_int 0; frac 1 100; frac 2 100; frac 5 100; frac 10 100].
Definition bandwidth_limits : list string := ["5mbit"; "2mbit"; "1mbit"].

(** The two dict displays indexed by the bandwidth. *)
Definition bandwidth_impact (bandwidth : string) : M Qc :=
  if String.eqb bandwidth "5mbit" then ret (of_int 0)
  else if String.eqb bandwidth "2mbit" then ret (of_int 10)
  else if String.eqb bandwidth "1mbit" then ret (of_int 25)
  else raise (LookupError bandwidth).

Definition base_tls (bandwidth : string) : M Qc :=
  if String.eqb bandwidth "5mbit" then ret (frac 5 100)
  else if String.eqb bandwidth "2mbit" then ret (frac 12 100)
  else if String.eqb bandwidth "1mbit" then ret (frac 25 100)
  else raise (LookupError bandwidth).

(** [f'test-{test_id}-sample'] *)
Definition session_id (test_id : Z) : string :=
  String.append "test-"
    (String.append (NilZero.string_of_int (Z.to_int test_id)) "-sample").

(** The body of the innermost loop, up to the dict it builds. *)
Definition simulate (rng : Random) (architecture : string) (viewers : Z)
    (packet_loss : Qc) (bandwidth : string) (test_id : Z) : M Sample :=
  let p2p := String.eqb architecture "P2P" in
  (* CPU usage *)
  cpu <- (if p2p then
            let base_cpu := (15 + (viewers - 1) * 8)%Z in
            cpu_variation <- uniform rng (frac 8 10) (frac 12 10) ;;
            let avg_cpu := (of_int base_cpu * cpu_variation)%Qc in
            f <- uniform rng (frac 12 10) (frac 15 10) ;;
            ret (avg_cpu, (avg_cpu * f)%Qc)
          else
            let base_cpu := (25 + viewers * 2)%Z in
            cpu_variation <- uniform rng (frac 8 10) (frac 12 10) ;;
            let avg_cpu := (of_int base_cpu * cpu_variation)%Qc in
            f <- uniform rng (frac 11 10) (frac 13 10) ;;
            ret (avg_cpu, (avg_cpu * f)%Qc)) ;;
  let avg_cpu := fst cpu in
  let max_cpu := snd cpu in
  (* latency *)
  let base_latency := if p2p then of_int 50 else of_int 80 in
  let packet_loss_impact := (packet_loss * of_int 200)%Qc in
  bw_impact <- bandwidth_impact bandwidth ;;
  let viewer_impact :=
    if p2p then of_int (viewers * 2) else (of_int viewers * frac 5 10)%Qc in
  let avg_latency :=
    (base_latency + packet_loss_impact + bw_impact + viewer_impact)%Qc in
  f <- uniform rng (frac 8 10) (frac 12 10) ;;
  let avg_latency := (avg_latency * f)%Qc in
  f <- uniform rng (frac 6 10) (frac 8 10) ;;
  let min_latency := (avg_latency * f)%Qc in
  f <- uniform rng (frac 13 10) (frac 18 10) ;;
  let max_latency := (avg_latency * f)%Qc in
  (* legibility *)
  tls0 <- base_tls bandwidth ;;
  let packet_loss_impact := (packet_loss * frac 3 10)%Qc in
  let architecture_impact := if p2p then frac 2 100 else frac 1 100 in
  let avg_tls := (tls0 + packet_loss_impact + architecture_impact)%Qc in
  f <- uniform rng (frac 7 10) (frac 13 10) ;;
  let avg_tls := (avg_tls * f)%Qc in
  f <- uniform rng (frac 5 10) (frac 8 10) ;;
  let min_tls := (avg_tls * f)%Qc in
  (* the result record *)
  f <- uniform rng (frac 9 10) (frac 11 10) ;;
  let median := (avg_latency * f)%Qc in
  count <- randint rng 100 120 ;;
  f <- uniform rng (frac 12 10) (frac 20 10) ;;
  let max_tls := (avg_tls * f)%Qc in
  ret {| s_testId := test_id;
         s_architecture := lower architecture;
         s_numViewers := viewers;
         s_packetLoss := packet_loss;
         s_bandwidth := bandwidth;
         s_success := true;
         s_sessionId := session_id test_id;
         s_timestamp := (1700000000000 + test_id * 60000)%Z;
         s_completedAt := (1700000000000 + test_id * 60000 + 60000)%Z;
         s_latency_average := avg_latency;
         s_latency_min := min_latency;
         s_latency_max := max_latency;
         s_latency_median := median;
         s_latency_count := count;
         s_cpu_average := avg_cpu;
         s_cpu_min := (avg_cpu * frac 3 10)%Qc;
         s_cpu_max := max_cpu;
         s_tls_average := avg_tls;
         s_tls_min := min_tls;
         s_tls_max := max_tls |}.

(** The innermost loop body: [results.append(result)], [test_id += 1]. *)
Definition step (rng : Random) (architecture : string) (viewers : Z)
    (packet_loss : Qc) (bandwidth : string) (s : list Sample * Z)
  : M (list Sample * Z) :=
  let (results, test_id) := s in
  result <- simulate rng architecture viewers packet_loss bandwidth test_id ;;
  ret (results ++ [result], (test_id + 1)%Z).

Definition generate_sample_results (rng : Random) : M (list Sample) :=
  s <- for_each architectures (fun architecture =>
         for_each num_viewers (fun viewers =>
           for_each packet_loss_rates (fun packet_loss =>
             for_each bandwidth_limits (fun bandwidth =>
               step rng architecture viewers packet_loss bandwidth))))
       ([], 1%Z) ;;
  ret (fst s).

(** A result as [analyze.py] reads it back from [results.json]. *)
Definition to_result (s : Sample) : Result :=
  {| r_testId := s_testId s;
     r_architecture := s_architecture s;
     r_numViewers := s_numViewers s;
     r_packetLoss := s_packetLoss s;
     r_bandwidth := s_bandwidth s;
     r_success := Some (s_success s);
     r_metrics :=
       MetricsBlock
         {| latency := {| lat_average := s_latency_average s;
                          lat_min := s_latency_min s;
                          lat_max := s_latency_max s |};
            cpu := {| cpu_average := s_cpu_average s;
                      cpu_max := s_cpu_max s |};
            tls := {| tls_average := s_tls_average s;
                      tls_min := s_tls_min s |} |} |}.

(** [csv_row], the dict written for one result. *)
Definition csv_row (result : Sample) : CsvRow :=
  {| csv_fields :=
       {| testId := s_testId result;
          architecture := upper (s_architecture result);
          numViewers := s_numViewers result;
          packetLoss := s_packetLoss result;
          bandwidth := s_bandwidth result;
          avgLatency := s_latency_average result;
          minLatency := s_latency_min result;
          maxLatency := s_latency_max result;
          avgCpu := s_cpu_average result;
          maxCpu := s_cpu_max result;
          avgTls := s_tls_average result;
          minTls := s_tls_min result |};
     csv_success := Some (s_success result);
     csv_timestamp := Some (s_timestamp result) |}.

(** What [save_sample_data] leaves on disk, and what it returns. *)
Record Saved : Type := {
  meta_timestamp : Z;
  meta_totalTests : Z;
  json_results : list Sample;
  csv_data : list CsvRow;
  returned : list Sample
}.

Definition save_sample_data (rng : Random) : M Saved :=
  results <- generate_sample_results rng ;;
  let rows := map csv_row results in
  match rows with
  | [] => raise IndexError                 (* [csv_data[0].keys()] *)
  | _ :: _ =>
      ret {| meta_timestamp := 1700000000000;
             meta_totalTests := Z.of_nat (List.length results);
             json_results := results;
             csv_data := rows;
             returned := results |}
  end.

(** The results directory after [save_sample_data], as the loaders of
    the two analysis scripts see it.  How a cell is written as text and
    parsed again is not modelled. *)
Definition results_dir (saved : Saved) : ResultsDir :=
  {| results_json := Some (map to_result (json_results saved));
     results_csv := Some (csv_data saved) |}.

End Generator.

(* ================================================================== *)
(** * Notions the statements below are phrased with                    *)
(* ================================================================== *)

(** The relation a sort by [le] establishes. *)
Definition le_rel {A} (le : A -> A -> bool) (x y : A) : Prop := le x y = true.

(** The rows of a frame under one key. *)
Definition rows_with {R K} `{Key K} (key : R -> K) (df : list R) (k : K)
  : list R :=
  filter (fun r => keqb (key r) k) df.

(** Appending a list of (key, value) pairs to a [defaultdict], one after
    the other, and the values such a list holds for one key. *)
Definition dd_extend {K V} `{Key K} (d : list (K * list V)) (l : list (K * V))
  : list (K * list V) :=
  fold_left (fun d kv => dd_append d (fst kv) (snd kv)) l d.

Definition values_of {K V} `{Key K} (l : list (K * V)) (k : K) : list V :=
  map snd (filter (fun kv => keqb (fst kv) k) l).

Definition entry {K} (key : Row -> K) (val : Row -> Qc) (r : Row) : K * Qc :=
  (key r, val r).

Definition p2p_rows (data : DataFrame) : DataFrame :=
  filter Visualize.is_p2p data.

Definition sfu_rows (data : DataFrame) : DataFrame :=
  filter (fun r => negb (Visualize.is_p2p r)) data.

(** A JSON result is usable when its success flag is true and it carries
    a metrics block. *)
Definition usable (r : Result) : bool :=
  Analyze.get_success r && Analyze.get_metrics r.

(** A CSV line is usable unless its success column says false. *)
Definition csv_usable (c : CsvRow) : bool :=
  match csv_success c with
  | Some false => false
  | Some true | None => true
  end.

(** The record count stored in a per-architecture entry, under the key
    the implementation uses. *)
Definition count_under (field : string) (e : json) : Z :=
  match jget e field with
  | Some (JInt n) => n
  | _ => 0%Z
  end.

Definition sum_Z (l : list Z) : Z := fold_right Z.add 0%Z l.

(** The labels and the tiers of the data model; labels up to case. *)
Definition known_label (r : Row) : Prop :=
  lower (architecture r) = "p2p" \/ lower (architecture r) = "sfu".

Definition known_tier (r : Row) : Prop :=
  bandwidth r = "1mbit" \/ bandwidth r = "2mbit" \/ bandwidth r = "5mbit".

Definition tier (g : string * string * fval) : string := snd (fst g).

Definition rate_leb (g1 g2 : string * string * fval) : bool :=
  Analyze.bandwidthNum_leb (Analyze.bandwidthNum g1) (Analyze.bandwidthNum g2).


(** Boolean equality of computed values, to compare results by
    evaluation. *)
Definition fval_eqb (a b : fval) : bool :=
  match a, b with
  | NaN, NaN => true
  | Num x, Num y => Qc_eq_bool x y
  | Sqrt x, Sqrt y => Qc_eq_bool x y
  | _, _ => false
  end.

Definition entry_eqb {K} `{Key K} (a b : K * fval) : bool :=
  keqb (fst a) (fst b) && fval_eqb (snd a) (snd b).

Fixpoint all2 {A} (eqb : A -> A -> bool) (l l' : list A) : bool :=
  match l, l' with
  | [], [] => true
  | x :: t, y :: t' => eqb x y && all2 eqb t t'
  | _, _ => false
  end.

(** A value that is a number. *)
Definition finite (v : fval) : Prop := exists q, v = Num q.

(** Strictly below, for keys. *)
Definition klt {K} `{Key K} (x y : K) : Prop := kleb x y = true /\ x <> y.

(** The number of values a [defaultdict(list)] holds. *)
Definition dd_size {K V} (d : list (K * list V)) : nat :=
  list_sum (map (fun kv => List.length (snd kv)) d).

(** The labels as the CSV file carries them. *)
Definition exact_label (r : Row) : Prop :=
  architecture r = "P2P" \/ architecture r = "SFU".

(** The rows of a frame that carry one label. *)
Definition rows_of_label (rows : DataFrame) (a : string) : DataFrame :=
  filter (fun r => keqb (architecture r) a) rows.

(** The selections of the three charts. *)
Definition loss_free (r : Row) : bool := keqb (packetLoss r) 0%Qc.
Definition five_viewers (r : Row) : bool := keqb (numViewers r) 5%Z.
Definition five_loss_free (r : Row) : bool :=
  keqb (numViewers r) 5%Z && keqb (packetLoss r) 0%Qc.

(** Whether a chart function drew its chart. *)
Definition drawn {F} (fig : option F) : bool :=
  match fig with
  | Some _ => true
  | None => false
  end.

(** The chart files [run_analysis] may write before the summary, by
    which of the three are drawn. *)
Definition chart_names (c l t : bool) : list string :=
  (if c then ["cpu_utilization.png"] else [])
    ++ (if l then ["latency_vs_loss.png"] else [])
    ++ (if t then ["tls_vs_bandwidth.png"] else []).

(** A string of ASCII characters. *)
Definition ascii_only (s : string) : Prop :=
  Forall (fun c => (nat_of_ascii c < 128)%nat) (list_ascii_of_string s).




(** A label that lower-cases to one of the two fixed keys of
    create_visualizations.py. *)
Definition counted (r : Row) : bool :=
  String.eqb (lower (architecture r)) "p2p"
  || String.eqb (lower (architecture r)) "sfu".

(** Label and x values of a line. *)
Definition axis {X} (l : Line X) : string * list X := (label l, xs l).

(** The top-level entries of a summary file that was cut off. *)
Definition cut_off_entries (a : artifact) : option (list (string * json)) :=
  match a with
  | CutOffFile _ kv => Some kv
  | _ => None
  end.

Definition is_complete_summary (a : artifact) : bool :=
  match a with
  | SummaryFile _ _ => true
  | _ => false
  end.

(** The conditions a sample was generated under, and the full factorial
    design over a list of architectures, in the order of the four nested
    loops. *)
Definition settings (s : Generator.Sample) : string * (Z * (Qc * string)) :=
  (Generator.s_architecture s,
   (Generator.s_numViewers s,
    (Generator.s_packetLoss s, Generator.s_bandwidth s))).

Definition design (archs : list string) : list (string * (Z * (Qc * string))) :=
  list_prod archs
    (list_prod Generator.num_viewers
       (list_prod Generator.packet_loss_rates Generator.bandwidth_limits)).

Definition lowered (c : string * (Z * (Qc * string)))
  : string * (Z * (Qc * string)) :=
  (lower (fst c), snd c).

(** The loop body at one point of the design. *)
Definition simulate_at (rng : Generator.Random)
    (c : string * (Z * (Qc * string))) : Z -> Generator.M Generator.Sample :=
  Generator.simulate rng (fst c) (fst (snd c)) (fst (snd (snd c)))
                     (snd (snd (snd c))).

Definition step_at (rng : Generator.Random)
    (c : string * (Z * (Qc * string)))
  : list Generator.Sample * Z -> Generator.M (list Generator.Sample * Z) :=
  Generator.step rng (fst c) (fst (snd c)) (fst (snd (snd c)))
                 (snd (snd (snd c))).

(** The entries of a sample that do not depend on the random numbers,
    and the range of its sample count. *)
Definition stamped (s : Generator.Sample) : Prop :=
  Generator.s_success s = true
  /\ Generator.s_sessionId s = Generator.session_id (Generator.s_testId s)
  /\ Generator.s_timestamp s
     = (1700000000000 + Generator.s_testId s * 60000)%Z
  /\ Generator.s_completedAt s = (Generator.s_timestamp s + 60000)%Z
  /\ (100 <= Generator.s_latency_count s <= 120)%Z.

(** [random()] answers with a number from 0 to 1. *)
Definition in_unit (rng : Generator.Random) : Prop :=
  forall i, (0 <= Generator.unit_draw rng i)%Qc
            /\ (Generator.unit_draw rng i <= 1)%Qc.

(** Minimum, average and maximum in this order, minima positive, the
    latency median between minimum and maximum. *)
Definition plausible (s : Generator.Sample) : Prop :=
  (0 < Generator.s_latency_min s)%Qc
  /\ (Generator.s_latency_min s <= Generator.s_latency_average s)%Qc
  /\ (Generator.s_latency_average s <= Generator.s_latency_max s)%Qc
  /\ (Generator.s_latency_min s <= Generator.s_latency_median s)%Qc
  /\ (Generator.s_latency_median s <= Generator.s_latency_max s)%Qc
  /\ (0 < Generator.s_cpu_min s)%Qc
  /\ (Generator.s_cpu_min s <= Generator.s_cpu_average s)%Qc
  /\ (Generator.s_cpu_average s <= Generator.s_cpu_max s)%Qc
  /\ (0 < Generator.s_tls_min s)%Qc
  /\ (Generator.s_tls_min s <= Generator.s_tls_average s)%Qc
  /\ (Generator.s_tls_average s <= Generator.s_tls_max s)%Qc.

Definition admissible (c : string * (Z * (Qc * string))) : Prop :=
  (0 <= fst (snd c))%Z /\ (0 <= fst (snd (snd c)))%Qc
  /\ In (snd (snd (snd c))) Generator.bandwidth_limits.

(** The conditions of a frame row; the grid of conditions in the frame
    of the sample data; its loss rates in per cent. *)
Definition conditions (r : Row) : string * (Z * (Qc * string)) :=
  (architecture r, (numViewers r, (packetLoss r, bandwidth r))).

Definition sample_grid : list (string * (Z * (Qc * string))) :=
  design ["P2P"; "SFU"].

Definition percentages : list Qc :=
  map (fun l => (l * Analyze.hundred)%Qc) Generator.packet_loss_rates.

(** The results directory with the JSON document only. *)
Definition json_only (saved : Generator.Saved) : ResultsDir :=
  {| results_json := results_json (Generator.results_dir saved);
     results_csv := None |}.

(* ================================================================== *)
(** * Concrete inputs                                                  *)
(* ================================================================== *)

Definition qz (z : Z) : Qc := Q2Qc (inject_Z z).
Definition tenth (n : Z) : Qc := Q2Qc (n # 10).

(** A frame row with the given label, viewer count, loss rate, tier and
    CPU, latency and legibility averages. *)
Definition row (arch : string) (viewers : Z) (loss : Qc) (bw : string)
    (cpu_avg lat_avg tls_avg : Qc) : Row :=
  {| testId := 1; architecture := arch; numViewers := viewers;
     packetLoss := loss; bandwidth := bw;
     avgLatency := lat_avg; minLatency := lat_avg; maxLatency := lat_avg;
     avgCpu := cpu_avg; maxCpu := cpu_avg;
     avgTls := tls_avg; minTls := tls_avg |}.

Definition csv_line (success : option bool) (r : Row) : CsvRow :=
  {| csv_fields := r; csv_success := success; csv_timestamp := None |}.

(** Two lines, one per architecture: five viewers, no loss, CPU 20 and
    30. *)
Definition scenario : list CsvRow :=
  [ csv_line None (row "p2p" 5 (qz 0) "5mbit" (qz 20) (qz 50) (qz 0));
    csv_line None (row "sfu" 5 (qz 0) "5mbit" (qz 30) (qz 50) (qz 0)) ].

(** The same two lines, the other way round. *)
Definition scenario_swapped : list CsvRow :=
  [ csv_line None (row "sfu" 5 (qz 0) "5mbit" (qz 30) (qz 50) (qz 0));
    csv_line None (row "p2p" 5 (qz 0) "5mbit" (qz 20) (qz 50) (qz 0)) ].

(** Two usable JSON results whose labels differ in case only, and one
    that failed. *)
Definition sample_metrics : Metrics :=
  {| latency := {| lat_average := qz 50; lat_min := qz 40; lat_max := qz 60 |};
     cpu := {| cpu_average := qz 20; cpu_max := qz 30 |};
     tls := {| tls_average := tenth 1; tls_min := tenth 1 |} |}.

Definition result_lower_case : Result :=
  {| r_testId := 1; r_architecture := "p2p"; r_numViewers := 5;
     r_packetLoss := qz 0; r_bandwidth := "5mbit";
     r_success := Some true; r_metrics := MetricsBlock sample_metrics |}.

Definition result_upper_case : Result :=
  {| r_testId := 2; r_architecture := "P2P"; r_numViewers := 5;
     r_packetLoss := qz 0; r_bandwidth := "5mbit";
     r_success := Some true; r_metrics := MetricsBlock sample_metrics |}.

Definition result_failed : Result :=
  {| r_testId := 1; r_architecture := "p2p"; r_numViewers := 5;
     r_packetLoss := qz 0; r_bandwidth := "5mbit";
     r_success := Some false; r_metrics := MetricsAbsent |}.

(** A line of a run that failed. *)
Definition failed_line : CsvRow :=
  csv_line (Some false) (row "P2P" 5 (qz 0) "5mbit" (qz 20) (qz 50) (qz 0)).

(** P2P measured at 1mbit only, SFU at all three tiers. *)
Definition sparse : list CsvRow :=
  [ csv_line (Some true) (row "P2P" 5 (qz 0) "1mbit" (qz 20) (qz 50) (tenth 4));
    csv_line (Some true) (row "SFU" 5 (qz 0) "1mbit" (qz 30) (qz 80) (tenth 3));
    csv_line (Some true) (row "SFU" 5 (qz 0) "2mbit" (qz 30) (qz 80) (tenth 2));
    csv_line (Some true) (row "SFU" 5 (qz 0) "5mbit" (qz 30) (qz 80) (tenth 1)) ].


(** Every run under packet loss. *)
Definition lossy : list CsvRow :=
  [ csv_line (Some true) (row "P2P" 5 (tenth 1) "5mbit" (qz 20) (qz 50) (tenth 1));
    csv_line (Some true) (row "SFU" 5 (tenth 1) "5mbit" (qz 30) (qz 80) (tenth 1)) ].

(** Three loss-free P2P runs with five viewers, CPU 0.1, 0.2 and 0.3,
    and the same lines the other way round. *)
Definition drifting : list CsvRow :=
  [ csv_line (Some true) (row "P2P" 5 (qz 0) "5mbit" (tenth 1) (qz 50) (tenth 1));
    csv_line (Some true) (row "P2P" 5 (qz 0) "5mbit" (tenth 2) (qz 50) (tenth 1));
    csv_line (Some true) (row "P2P" 5 (qz 0) "5mbit" (tenth 3) (qz 50) (tenth 1)) ].

Definition drifting_reversed : list CsvRow := rev drifting.

(** A random source that always draws the middle of the range. *)
Definition fair : Generator.Random :=
  {| Generator.unit_draw := fun _ => Generator.frac 1 2;
     Generator.int_draw := fun i => Z.of_nat i |}.

(* ================================================================== *)
(** * The definitions at work                                          *)
(* ================================================================== *)

Example upper_p2p : upper "p2p" = "P2P" /\ lower "SFU" = "sfu".
Proof. split; reflexivity. Qed.

Example sorted_viewers : sorted [5%Z; 1%Z; 10%Z; 2%Z] = [1%Z; 2%Z; 5%Z; 10%Z].
Proof. reflexivity. Qed.

(** Strings sort by code point: upper case before lower case. *)
Example sorted_labels : sorted ["sfu"; "SFU"; "p2p"; "P2P"] = ["P2P"; "SFU"; "p2p"; "sfu"].
Proof. reflexivity. Qed.

Example unique_first_seen :
  unique ["5mbit"; "2mbit"; "5mbit"; "1mbit"; "2mbit"] = ["5mbit"; "2mbit"; "1mbit"].
Proof. reflexivity. Qed.

Example defaultdict_append :
  dd_append (dd_append (dd_append [] 5%Z (qz 20)) 1%Z (qz 10)) 5%Z (qz 30)
  = [(5%Z, [qz 20; qz 30]); (1%Z, [qz 10])].
Proof. reflexivity. Qed.

Example mean_of_two : fval_eqb (Stats.mean [qz 20; qz 30]) (Num (qz 25)) = true.
Proof. reflexivity. Qed.

Example mean_of_none : Stats.mean [] = NaN /\ Stats.std [qz 20] = NaN.
Proof. split; reflexivity. Qed.

Example tls_grouped_sparse :
  map fst (Analyze.tls_grouped (Analyze.read_csv sparse))
  = [("P2P", "1mbit"); ("SFU", "1mbit"); ("SFU", "2mbit"); ("SFU", "5mbit")].
Proof. reflexivity. Qed.

Example summary_keys :
  jkeys (Analyze.generate_summary_statistics (Analyze.read_csv scenario))
  = ["total_tests"; "architectures"; "viewer_counts"; "packet_loss_rates";
     "bandwidth_limits"; "overall_stats"; "architecture_comparison"].
Proof. reflexivity. Qed.

(* ================================================================== *)
(** * Laws of the key types                                            *)
(* ================================================================== *)

Lemma ascii_compare_trans (a b c : ascii) :
  Ascii.compare a b = Lt -> Ascii.compare b c = Lt -> Ascii.compare a c = Lt.
Proof.
  unfold Ascii.compare. rewrite !N.compare_lt_iff. apply N.lt_trans.
Qed.

Lemma string_compare_refl (s : string) : String.compare s s = Eq.
Proof.
  induction s as [|a s IH]; simpl; [reflexivity|].
  unfold Ascii.compare. now rewrite N.compare_refl.
Qed.

Lemma string_compare_lt_trans (s1 : string) :
  forall s2 s3, String.compare s1 s2 = Lt -> String.compare s2 s3 = Lt ->
                String.compare s1 s3 = Lt.
Proof.
  induction s1 as [|a s1 IH]; intros [|b s2] [|c s3]; simpl;
    try discriminate; try reflexivity.
  destruct (Ascii.compare a b) eqn:Hab; try discriminate;
    destruct (Ascii.compare b c) eqn:Hbc; try discriminate; intros H12 H23.
  - apply Ascii.compare_eq_iff in Hab, Hbc. subst.
    unfold Ascii.compare. rewrite N.compare_refl. eauto.
  - apply Ascii.compare_eq_iff in Hab. subst. now rewrite Hbc.
  - apply Ascii.compare_eq_iff in Hbc. subst. now rewrite Hab.
  - now rewrite (ascii_compare_trans _ _ _ Hab Hbc).
Qed.

Lemma string_leb_trans (x y z : string) :
  String.leb x y = true -> String.leb y z = true -> String.leb x z = true.
Proof.
  unfold String.leb.
  destruct (String.compare x y) eqn:Hxy; try discriminate;
    destruct (String.compare y z) eqn:Hyz; try discriminate; intros _ _.
  - apply String.compare_eq_iff in Hxy, Hyz. subst.
    now rewrite string_compare_refl.
  - apply String.compare_eq_iff in Hxy. subst. now rewrite Hyz.
  - apply String.compare_eq_iff in Hyz. subst. now rewrite Hxy.
  - now rewrite (string_compare_lt_trans _ _ _ Hxy Hyz).
Qed.

#[export] Instance string_KeyLaws : KeyLaws string.
Proof.
  constructor; simpl.
  - apply String.eqb_eq.
  - apply String.leb_total.
  - apply String.leb_antisym.
  - apply string_leb_trans.
Qed.

#[export] Instance Z_KeyLaws : KeyLaws Z.
Proof.
  constructor; simpl; intros *.
  - apply Z.eqb_eq.
  - rewrite !Z.leb_le. lia.
  - rewrite !Z.leb_le. lia.
  - rewrite !Z.leb_le. lia.
Qed.

#[export] Instance Qc_KeyLaws : KeyLaws Qc.
Proof.
  constructor; simpl; unfold Qc_leb; intros *.
  - split; [apply Qc_eq_bool_correct|].
    intros ->. unfold Qc_eq_bool. destruct (Qc_eq_dec y y); congruence.
  - rewrite !Qle_bool_iff.
    destruct (Qlt_le_dec x y) as [L|L]; [left; now apply Qlt_le_weak|now right].
  - rewrite !Qle_bool_iff. apply Qcle_antisym.
  - rewrite !Qle_bool_iff. apply Qle_trans.
Qed.

Section KeyFacts.
Context {K : Type} `{KeyLaws K}.

Lemma keqb_refl (x : K) : keqb x x = true.
Proof. now apply keqb_eq. Qed.

Lemma keqb_neq (x y : K) : keqb x y = false <-> x <> y.
Proof. rewrite <- keqb_eq. destruct (keqb x y); split; congruence. Qed.

Lemma keqb_sym (x y : K) : keqb x y = keqb y x.
Proof.
  destruct (keqb x y) eqn:E.
  - apply keqb_eq in E. subst. symmetry. apply keqb_refl.
  - destruct (keqb y x) eqn:E'; [|reflexivity].
    apply keqb_eq in E'. subst. now rewrite keqb_refl in E.
Qed.

Lemma key_eq_dec (x y : K) : {x = y} + {x <> y}.
Proof.
  destruct (keqb x y) eqn:E; [left; now apply keqb_eq|right; now apply keqb_neq].
Qed.
End KeyFacts.

#[export] Instance pair_KeyLaws {A B} `{KeyLaws A} `{KeyLaws B}
  : KeyLaws (A * B).
Proof.
  constructor; simpl; unfold pair_eqb, pair_leb.
  - intros [a b] [a' b']. simpl. rewrite andb_true_iff, !keqb_eq.
    split; [intros [-> ->]; reflexivity | intros [= -> ->]; auto].
  - intros [a b] [a' b']. simpl. rewrite (keqb_sym a' a).
    destruct (keqb a a'); apply kleb_total.
  - intros [a b] [a' b']. simpl. rewrite (keqb_sym a' a).
    destruct (keqb a a') eqn:E.
    + apply keqb_eq in E. subst. intros. f_equal. now apply kleb_antisym.
    + intros L1 L2. apply keqb_neq in E. destruct E. now apply kleb_antisym.
  - intros [a b] [a' b'] [a'' b'']. simpl.
    destruct (key_eq_dec a a') as [->|N1]; destruct (key_eq_dec a' a'') as [->|N2];
      rewrite ?keqb_refl.
    + apply kleb_trans.
    + apply keqb_neq in N2. rewrite N2. auto.
    + apply keqb_neq in N1. rewrite N1. auto.
    + pose proof N1 as N1'. pose proof N2 as N2'.
      apply keqb_neq in N1', N2'. rewrite N1', N2'. intros L1 L2.
      destruct (key_eq_dec a a'') as [->|N3].
      * destruct N1. now apply kleb_antisym.
      * apply keqb_neq in N3. rewrite N3. eapply kleb_trans; eauto.
Qed.

(* ================================================================== *)
(** * Lists: filter, unique and sort                                   *)
(* ================================================================== *)

Lemma filter_Permutation {A} (f : A -> bool) (l l' : list A) :
  Permutation l l' -> Permutation (filter f l) (filter f l').
Proof.
  induction 1 as [|x l l' _ IH|x y l|l l' l'' _ IH1 _ IH2]; simpl.
  - constructor.
  - destruct (f x); auto.
  - destruct (f x), (f y); auto using perm_swap.
  - now transitivity (filter f l').
Qed.

Lemma filter_length_split {A} (f : A -> bool) (l : list A) :
  (List.length (filter f l) + List.length (filter (fun x => negb (f x)) l)
   = List.length l)%nat.
Proof.
  induction l as [|x l IH]; simpl; [reflexivity|].
  destruct (f x); simpl; lia.
Qed.

Lemma filter_filter {A} (f g : A -> bool) (l : list A) :
  filter f (filter g l) = filter (fun x => g x && f x) l.
Proof.
  induction l as [|x l IH]; simpl; [reflexivity|].
  destruct (g x); simpl; [destruct (f x)|]; now rewrite IH.
Qed.

Section UniqueFacts.
Context {K : Type} `{KeyLaws K}.

Lemma unique_In (l : list K) (x : K) : In x (unique l) <-> In x l.
Proof.
  induction l as [|y l IH]; simpl; [tauto|].
  rewrite filter_In, IH, negb_true_iff, keqb_neq.
  destruct (key_eq_dec y x); intuition congruence.
Qed.

Lemma unique_NoDup (l : list K) : NoDup (unique l).
Proof.
  induction l as [|y l IH]; simpl; constructor.
  - rewrite filter_In, negb_true_iff, keqb_neq. tauto.
  - now apply NoDup_filter.
Qed.

Lemma unique_Permutation (l l' : list K) :
  Permutation l l' -> Permutation (unique l) (unique l').
Proof.
  intros P. apply NoDup_Permutation; auto using unique_NoDup.
  intros x. rewrite !unique_In.
  split; apply Permutation_in; [assumption|now symmetry].
Qed.

End UniqueFacts.

Section SortFacts.
Context {A : Type} (le : A -> A -> bool).

Lemma insert_Permutation (x : A) (l : list A) :
  Permutation (insert le x l) (x :: l).
Proof.
  induction l as [|y l IH]; simpl; [reflexivity|].
  destruct (le x y); [reflexivity|].
  rewrite IH. apply perm_swap.
Qed.

Lemma sort_Permutation (l : list A) : Permutation (sort le l) l.
Proof.
  induction l as [|x l IH]; simpl; [reflexivity|].
  rewrite insert_Permutation. now constructor.
Qed.

Lemma sort_In (l : list A) (x : A) : In x (sort le l) <-> In x l.
Proof.
  split; apply Permutation_in;
    [apply sort_Permutation | symmetry; apply sort_Permutation].
Qed.

Hypothesis le_total : forall x y, le x y = true \/ le y x = true.
Hypothesis le_trans :
  forall x y z, le x y = true -> le y z = true -> le x z = true.

Lemma insert_sorted (x : A) (l : list A) :
  StronglySorted (le_rel le) l -> StronglySorted (le_rel le) (insert le x l).
Proof.
  induction 1 as [|y l S IH F]; simpl.
  - repeat constructor.
  - destruct (le x y) eqn:E.
    + constructor; [now constructor|].
      constructor; [exact E|].
      eapply Forall_impl; [|exact F]. intros z Hz. eapply le_trans; eauto.
    + constructor; [exact IH|].
      eapply Permutation_Forall.
      * symmetry. apply insert_Permutation.
      * constructor; [|exact F].
        destruct (le_total x y); [congruence|assumption].
Qed.

Lemma sort_sorted (l : list A) : StronglySorted (le_rel le) (sort le l).
Proof.
  induction l as [|x l IH]; simpl; [constructor|now apply insert_sorted].
Qed.

Hypothesis le_antisym : forall x y, le x y = true -> le y x = true -> x = y.

Lemma sorted_unique (l : list A) :
  forall l', StronglySorted (le_rel le) l -> StronglySorted (le_rel le) l' ->
             Permutation l l' -> l = l'.
Proof.
  induction l as [|x l IH]; intros l' S S' P.
  - apply Permutation_nil in P. now subst.
  - destruct l' as [|y l'].
    { symmetry in P. apply Permutation_nil in P. discriminate. }
    apply StronglySorted_inv in S as [S F], S' as [S' F'].
    assert (x = y) as ->.
    { assert (Ix : In x (y :: l')) by (eapply Permutation_in; [exact P|now left]).
      assert (Iy : In y (x :: l))
        by (eapply Permutation_in; [symmetry; exact P|now left]).
      destruct Ix as [->|Ix]; [reflexivity|].
      destruct Iy as [->|Iy]; [reflexivity|].
      rewrite Forall_forall in F, F'.
      apply le_antisym; [now apply F|now apply F']. }
    f_equal. apply IH; auto. eapply Permutation_cons_inv; eauto.
Qed.

Lemma sort_Permutation_eq (l l' : list A) :
  Permutation l l' -> sort le l = sort le l'.
Proof.
  intros P. apply sorted_unique; auto using sort_sorted.
  rewrite !sort_Permutation. exact P.
Qed.
End SortFacts.

Lemma sorted_Permutation_eq {K} `{KeyLaws K} (l l' : list K) :
  Permutation l l' -> sorted l = sorted l'.
Proof.
  apply sort_Permutation_eq;
    [apply kleb_total | apply kleb_trans | apply kleb_antisym].
Qed.

Lemma sorted_In {K} `{Key K} (l : list K) (x : K) : In x (sorted l) <-> In x l.
Proof. apply sort_In. Qed.

(* ================================================================== *)
(** * The mean, and the grouped mean                                   *)
(* ================================================================== *)

Lemma total_from (l : list Qc) (a : Qc) :
  fold_left Qcplus l a = (a + Stats.total l)%Qc.
Proof.
  unfold Stats.total. revert a.
  induction l as [|x l IH]; intros a; simpl.
  - now rewrite Qcplus_0_r.
  - rewrite (IH (a + x)%Qc), (IH (0 + x)%Qc), Qcplus_0_l.
    now rewrite Qcplus_assoc.
Qed.

Lemma total_cons (x : Qc) (l : list Qc) :
  Stats.total (x :: l) = (x + Stats.total l)%Qc.
Proof.
  unfold Stats.total at 1. simpl. now rewrite total_from, Qcplus_0_l.
Qed.

Lemma of_count_1 : Stats.of_count 1 = 1%Qc.
Proof. apply Qc_is_canon. reflexivity. Qed.

Lemma Qcdiv_1_r (x : Qc) : (x / 1)%Qc = x.
Proof.
  unfold Qcdiv. replace (/ 1)%Qc with 1%Qc by (apply Qc_is_canon; reflexivity).
  apply Qcmult_1_r.
Qed.

Lemma mean_singleton (x : Qc) : Stats.mean [x] = Num x.
Proof.
  unfold Stats.mean. rewrite total_cons. simpl List.length.
  rewrite of_count_1. unfold Stats.total. simpl.
  now rewrite Qcplus_0_r, Qcdiv_1_r.
Qed.

Lemma mean_nonempty (l : list Qc) : l <> [] -> exists q, Stats.mean l = Num q.
Proof. destruct l; [congruence|]. intros _. simpl. eauto. Qed.

Lemma mean_NaN_iff (l : list Qc) : Stats.mean l = NaN <-> l = [].
Proof. destruct l; simpl; split; congruence. Qed.

Section GroupbyFacts.
Context {R K : Type} `{KeyLaws K} (key : R -> K) (col : R -> Qc).

Lemma groupby_mean_keys (df : list R) :
  map fst (groupby_mean key col df) = sorted (unique (map key df)).
Proof.
  unfold groupby_mean. rewrite map_map. simpl. apply map_id.
Qed.

Lemma groupby_mean_In (df : list R) (k : K) (v : fval) :
  In (k, v) (groupby_mean key col df) <->
  In k (map key df) /\ v = Stats.mean (map col (rows_with key df k)).
Proof.
  unfold groupby_mean. rewrite in_map_iff. split.
  - intros (k' & [= -> <-] & I).
    apply -> sorted_In in I. apply -> unique_In in I.
    split; [assumption|reflexivity].
  - intros [I ->]. exists k. split; [reflexivity|].
    apply <- sorted_In. now apply <- unique_In.
Qed.

Lemma rows_with_nonempty (df : list R) (k : K) :
  In k (map key df) -> rows_with key df k <> [].
Proof.
  intros I. apply in_map_iff in I as (r & <- & I). intros E.
  assert (I' : In r (rows_with key df (key r)))
    by (apply filter_In; split; [assumption|apply keqb_refl]).
  rewrite E in I'. destruct I'.
Qed.

(** Only keys that occur are listed, and each carries a finite mean. *)
Lemma groupby_mean_observed (df : list R) (k : K) (v : fval) :
  In (k, v) (groupby_mean key col df) ->
  (exists r, In r df /\ key r = k) /\ (exists q, v = Num q).
Proof.
  intros I. apply groupby_mean_In in I as [I ->]. split.
  - apply in_map_iff in I as (r & <- & I). eauto.
  - apply mean_nonempty. intros E. apply map_eq_nil in E.
    now apply (rows_with_nonempty df k).
Qed.

End GroupbyFacts.

(* ================================================================== *)
(** * defaultdict(list), and the grouping loop built on it             *)
(* ================================================================== *)

Section DefaultDictFacts.
Context {K V : Type} `{KeyLaws K}.

Lemma dd_get_append (d : list (K * list V)) (k k' : K) (v : V) :
  dd_get (dd_append d k v) k' =
  if keqb k k' then dd_get d k' ++ [v] else dd_get d k'.
Proof.
  induction d as [|[k0 vs] d IH]; simpl.
  - rewrite (keqb_sym k' k). now destruct (keqb k k').
  - destruct (key_eq_dec k k0) as [->|N].
    + rewrite keqb_refl. simpl. rewrite (keqb_sym k0 k').
      now destruct (keqb k' k0).
    + pose proof N as N'. apply keqb_neq in N'. rewrite N'. simpl.
      destruct (key_eq_dec k' k0) as [->|N2].
      * rewrite keqb_refl. now rewrite N'.
      * apply keqb_neq in N2. now rewrite N2.
Qed.

Lemma dd_get_extend (l : list (K * V)) :
  forall d k, dd_get (dd_extend d l) k = dd_get d k ++ values_of l k.
Proof.
  unfold dd_extend, values_of.
  induction l as [|[k0 v] l IH]; intros d k; simpl.
  - now rewrite app_nil_r.
  - rewrite IH, dd_get_append.
    destruct (keqb k0 k); simpl; [now rewrite <- app_assoc|reflexivity].
Qed.

Lemma dd_keys_append (d : list (K * list V)) (k : K) (v : V) :
  dd_keys (dd_append d k v) =
  if existsb (keqb k) (dd_keys d) then dd_keys d else dd_keys d ++ [k].
Proof.
  unfold dd_keys. induction d as [|[k0 vs] d IH]; simpl; [reflexivity|].
  destruct (keqb k k0); simpl; [reflexivity|].
  rewrite IH. now destruct (existsb (keqb k) (map fst d)).
Qed.

Lemma existsb_keqb (k : K) (l : list K) : existsb (keqb k) l = true <-> In k l.
Proof.
  rewrite existsb_exists. split.
  - intros (x & I & E). apply keqb_eq in E. now subst.
  - intros I. exists k. split; [assumption|apply keqb_refl].
Qed.

Lemma dd_keys_append_In (d : list (K * list V)) (k k' : K) (v : V) :
  In k' (dd_keys (dd_append d k v)) <-> In k' (dd_keys d) \/ k' = k.
Proof.
  rewrite dd_keys_append.
  destruct (existsb (keqb k) (dd_keys d)) eqn:E.
  - apply existsb_keqb in E. intuition (subst; auto).
  - rewrite in_app_iff. simpl. intuition.
Qed.

Lemma dd_keys_append_NoDup (d : list (K * list V)) (k : K) (v : V) :
  NoDup (dd_keys d) -> NoDup (dd_keys (dd_append d k v)).
Proof.
  intros N. rewrite dd_keys_append.
  destruct (existsb (keqb k) (dd_keys d)) eqn:E; [assumption|].
  assert (~ In k (dd_keys d))
    by (rewrite <- existsb_keqb; congruence).
  apply NoDup_app; [assumption|repeat constructor; simpl; tauto|].
  intros x Ix [<-|[]]. contradiction.
Qed.

Lemma dd_keys_extend_In (l : list (K * V)) :
  forall d k, In k (dd_keys (dd_extend d l)) <->
              In k (dd_keys d) \/ In k (map fst l).
Proof.
  unfold dd_extend.
  induction l as [|[k0 v] l IH]; intros d k; simpl; [tauto|].
  rewrite IH, dd_keys_append_In. intuition.
Qed.

Lemma dd_keys_extend_NoDup (l : list (K * V)) :
  forall d, NoDup (dd_keys d) -> NoDup (dd_keys (dd_extend d l)).
Proof.
  unfold dd_extend.
  induction l as [|[k0 v] l IH]; intros d N; simpl; [assumption|].
  apply IH. now apply dd_keys_append_NoDup.
Qed.

Lemma dd_keys_Permutation (l l' : list (K * V)) :
  Permutation l l' ->
  Permutation (dd_keys (dd_extend [] l)) (dd_keys (dd_extend [] l')).
Proof.
  intros P.
  apply NoDup_Permutation;
    try (apply dd_keys_extend_NoDup; constructor).
  intros k. rewrite !dd_keys_extend_In.
  assert (In k (map fst l) <-> In k (map fst l')); [|tauto].
  split; apply Permutation_in, Permutation_map; [assumption|now symmetry].
Qed.

Lemma dd_get_Permutation (l l' : list (K * V)) (k : K) :
  Permutation l l' ->
  Permutation (dd_get (dd_extend [] l) k) (dd_get (dd_extend [] l') k).
Proof.
  intros P. rewrite !dd_get_extend. simpl. unfold values_of.
  now apply Permutation_map, filter_Permutation.
Qed.
End DefaultDictFacts.

Section GroupLoop.
Context {K : Type} `{KeyLaws K} (key : Row -> K) (val : Row -> Qc).

Lemma group_from (data : DataFrame) :
  forall p s,
    fold_left
      (fun (acc : list (K * list Qc) * list (K * list Qc)) item =>
         let (p2p_data, sfu_data) := acc in
         if Visualize.is_p2p item
         then (dd_append p2p_data (key item) (val item), sfu_data)
         else (p2p_data, dd_append sfu_data (key item) (val item)))
      data (p, s)
    = (dd_extend p (map (entry key val) (p2p_rows data)),
       dd_extend s (map (entry key val) (sfu_rows data))).
Proof.
  unfold p2p_rows, sfu_rows, dd_extend.
  induction data as [|r data IH]; intros p s; simpl; [reflexivity|].
  destruct (Visualize.is_p2p r); simpl; apply IH.
Qed.

Lemma group_spec (data : DataFrame) :
  Visualize.group key val data
  = (dd_extend [] (map (entry key val) (p2p_rows data)),
     dd_extend [] (map (entry key val) (sfu_rows data))).
Proof. apply group_from. Qed.

(** The values collected under one key are those of the rows of that
    key, in input order. *)
Lemma dd_get_rows (rows : DataFrame) (k : K) :
  dd_get (dd_extend [] (map (entry key val) rows)) k
  = map val (filter (fun r => keqb (key r) k) rows).
Proof.
  rewrite dd_get_extend. simpl. unfold values_of.
  induction rows as [|r rows IH]; simpl; [reflexivity|].
  destruct (keqb (key r) k); simpl; now rewrite IH.
Qed.

Lemma sorted_keys_Permutation (rows rows' : DataFrame) :
  Permutation rows rows' ->
  sorted (dd_keys (dd_extend [] (map (entry key val) rows)))
  = sorted (dd_keys (dd_extend [] (map (entry key val) rows'))).
Proof.
  intros P.
  apply sorted_Permutation_eq, dd_keys_Permutation, Permutation_map, P.
Qed.

End GroupLoop.

Lemma fval_eqb_eq (a b : fval) : fval_eqb a b = true -> a = b.
Proof.
  destruct a, b; simpl; try discriminate; try reflexivity;
    intros E; apply Qc_eq_bool_correct in E; now subst.
Qed.

Lemma all2_eq {A} (eqb : A -> A -> bool) :
  (forall x y, eqb x y = true -> x = y) ->
  forall l l', all2 eqb l l' = true -> l = l'.
Proof.
  intros E. induction l as [|x l IH]; intros [|y l']; simpl;
    try discriminate; try reflexivity.
  rewrite andb_true_iff. intros [Exy El]. f_equal; auto.
Qed.

(* ================================================================== *)
(** * The loaders                                                      *)
(* ================================================================== *)

Lemma record_of_usable (r : Result) :
  usable r = true -> exists rec, Analyze.record_of r = Some rec /\ testId rec = r_testId r.
Proof.
  unfold usable, Analyze.record_of, Analyze.get_metrics.
  destruct (Analyze.get_success r); simpl; [|discriminate].
  destruct (r_metrics r); try discriminate. intros _. eauto.
Qed.

Lemma record_of_unusable (r : Result) :
  usable r = false -> Analyze.record_of r = None.
Proof.
  unfold usable, Analyze.record_of, Analyze.get_metrics.
  destruct (Analyze.get_success r); simpl; [|reflexivity].
  destruct (r_metrics r); try reflexivity. discriminate.
Qed.

Lemma records_of_testId (results : list Result) :
  map testId (Analyze.records_of results) = map r_testId (filter usable results).
Proof.
  induction results as [|r results IH]; simpl; [reflexivity|].
  destruct (usable r) eqn:U.
  - destruct (record_of_usable r U) as (rec & -> & E). simpl. congruence.
  - now rewrite (record_of_unusable r U).
Qed.

Lemma records_of_usable (results : list Result) :
  Forall2 (fun r rec => Analyze.record_of r = Some rec)
          (filter usable results) (Analyze.records_of results).
Proof.
  induction results as [|r results IH]; simpl; [constructor|].
  destruct (usable r) eqn:U.
  - destruct (record_of_usable r U) as (rec & E & _). rewrite E.
    constructor; assumption.
  - now rewrite (record_of_unusable r U).
Qed.

Lemma records_of_length (results : list Result) :
  List.length (Analyze.records_of results)
  = List.length (filter usable results).
Proof.
  rewrite <- (length_map testId), records_of_testId. apply length_map.
Qed.

(** C1, as the code has it.  From a JSON document the loader keeps exactly
    the results whose success flag is true and whose metrics block is
    present, in input order, so the frame it stores has as many rows as
    there are usable results (it then raises when there is none); from a
    CSV table both loaders take every line, whatever its success column
    holds. *)
Theorem load_data_counts (results : list Result) (table : list CsvRow)
    (other : option (list Result)) :
  List.length (Analyze.records_of results)
    = List.length (filter usable results)
  /\ Forall2 (fun r rec => Analyze.record_of r = Some rec)
             (filter usable results) (Analyze.records_of results)
  /\ map testId (Analyze.records_of results)
     = map r_testId (filter usable results)
  /\ Analyze.load_data {| results_json := Some results; results_csv := None |}
     = (Some (Analyze.records_of results),
        match Analyze.records_of results with
        | [] => inl (KeyError "architecture")
        | _ :: _ => inr (Analyze.records_of results)
        end)
  /\ Analyze.load_data {| results_json := other; results_csv := Some table |}
     = (Some (map csv_fields table), inr (map csv_fields table))
  /\ Visualize.load_data (Some table) = map csv_fields table
  /\ List.length (map csv_fields table) = List.length table.
Proof.
  repeat split.
  - apply records_of_length.
  - apply records_of_usable.
  - apply records_of_testId.
  - apply length_map.
Qed.

(** C1 fails on a CSV table: a line whose success column is false is
    loaded all the same, by either loader. *)
Lemma load_data_keeps_failed_line :
  Analyze.load_data {| results_json := None; results_csv := Some [failed_line] |}
    = (Some [csv_fields failed_line], inr [csv_fields failed_line])
  /\ Visualize.load_data (Some [failed_line]) = [csv_fields failed_line]
  /\ List.length (filter csv_usable [failed_line]) = 0%nat
  /\ ~ (forall table df,
           snd (Analyze.load_data
                  {| results_json := None; results_csv := Some table |})
             = inr df ->
           List.length df = List.length (filter csv_usable table)).
Proof.
  repeat split. intros C.
  specialize (C [failed_line] [csv_fields failed_line] eq_refl).
  discriminate C.
Qed.

(** C10.  With a CSV file in the directory the loader returns the frame
    made of the lines of that file, one row per line in their order,
    whether or not a JSON file is there and whatever that file holds;
    the JSON document is read only when there is no CSV file. *)
Theorem load_data_csv_precedence (table : list CsvRow)
    (json1 json2 : option (list Result)) (results : list Result) :
  Analyze.load_data {| results_json := json1; results_csv := Some table |}
    = (Some (map csv_fields table), inr (map csv_fields table))
  /\ Analyze.load_data {| results_json := json1; results_csv := Some table |}
     = Analyze.load_data {| results_json := json2; results_csv := Some table |}
  /\ fst (Analyze.load_data {| results_json := Some results;
                               results_csv := None |})
     = Some (Analyze.records_of results).
Proof. repeat split. Qed.

(** C3, on analyze.py.  With neither file in the results directory
    [load_data] raises, nothing is written and the process exits with
    status 1. *)
Lemma analyze_main_missing_input :
  Analyze.load_data {| results_json := None; results_csv := None |}
    = (None, inl FileNotFoundError)
  /\ Analyze.main {| results_json := None; results_csv := None |} = ([], 1%Z).
Proof. split; reflexivity. Qed.

(** C3, on create_visualizations.py.  Without the CSV file nothing is
    written either, but [main] just returns: the exit status is 0. *)
Theorem visualize_main_missing_input :
  Visualize.load_data None = []
  /\ Visualize.main None = ([], 0%Z)
  /\ forall csv_file, snd (Visualize.main csv_file) = 0%Z.
Proof.
  repeat split. intros csv_file. unfold Visualize.main.
  now destruct (Visualize.load_data csv_file).
Qed.

(* ================================================================== *)
(** * Summary statistics                                               *)
(* ================================================================== *)

Lemma list_sum_cons (n : nat) (l : list nat) :
  list_sum (n :: l) = (n + list_sum l)%nat.
Proof. reflexivity. Qed.

Section CountFacts.
Context {R K : Type} `{KeyLaws K} (key : R -> K).

Lemma count_cons_notin (x : R) (df : list R) (ks : list K) :
  ~ In (key x) ks ->
  map (fun k => List.length (rows_with key (x :: df) k)) ks
  = map (fun k => List.length (rows_with key df k)) ks.
Proof.
  intros N. apply map_ext_in. intros k I. unfold rows_with. simpl.
  destruct (keqb (key x) k) eqn:E; [|reflexivity].
  apply keqb_eq in E. subst. contradiction.
Qed.

Lemma rows_with_cons_length (x : R) (df : list R) (k : K) :
  List.length (rows_with key (x :: df) k)
  = ((if keqb (key x) k then 1 else 0) + List.length (rows_with key df k))%nat.
Proof. unfold rows_with. simpl. now destruct (keqb (key x) k). Qed.

Lemma count_cons_in (x : R) (df : list R) (ks : list K) :
  NoDup ks -> In (key x) ks ->
  list_sum (map (fun k => List.length (rows_with key (x :: df) k)) ks)
  = S (list_sum (map (fun k => List.length (rows_with key df k)) ks)).
Proof.
  induction 1 as [|k ks N ND IH]; intros I; [destruct I|].
  cbn [map]. rewrite !list_sum_cons, rows_with_cons_length.
  destruct (key_eq_dec (key x) k) as [E|E].
  - subst k. rewrite keqb_refl.
    rewrite (count_cons_notin x df ks N). reflexivity.
  - pose proof E as E'. apply keqb_neq in E'. rewrite E'.
    destruct I as [I|I]; [congruence|].
    rewrite (IH I). lia.
Qed.

(** Every row is counted under exactly one of the distinct keys. *)
Lemma count_by_key (df : list R) (ks : list K) :
  NoDup ks -> (forall r, In r df -> In (key r) ks) ->
  list_sum (map (fun k => List.length (rows_with key df k)) ks)
  = List.length df.
Proof.
  intros ND. induction df as [|x df IH]; intros C.
  - clear. induction ks as [|k ks IH]; simpl; auto.
  - rewrite (count_cons_in x df ND) by (apply C; now left).
    simpl. f_equal. apply IH. intros r I. apply C. now right.
Qed.
End CountFacts.

Lemma sum_Z_of_nat (l : list nat) :
  sum_Z (map Z.of_nat l) = Z.of_nat (list_sum l).
Proof. induction l as [|n l IH]; simpl; [reflexivity|]. rewrite IH. lia. Qed.

Lemma dict_get_map {V} (f : string -> string * V) (ks : list string) (k : string) :
  (forall a, fst (f a) = a) -> In k ks ->
  dict_get (map f ks) k = Some (snd (f k)).
Proof.
  intros F. induction ks as [|a ks IH]; intros I; [destruct I|]. simpl.
  destruct (f a) as [a' v] eqn:E. pose proof (F a) as Fa. rewrite E in Fa.
  simpl in Fa. subst a'.
  destruct (String.eqb k a) eqn:Eq.
  - apply String.eqb_eq in Eq. subst. now rewrite E.
  - apply String.eqb_neq in Eq. destruct I as [I|I]; [congruence|auto].
Qed.

Lemma arch_comparison_counts (data : DataFrame) :
  sum_Z (map (fun kv => count_under "tests" (snd kv))
             (Analyze.arch_comparison data))
  = Z.of_nat (List.length data).
Proof.
  unfold Analyze.arch_comparison. rewrite map_map.
  rewrite (map_ext _ (fun k => Z.of_nat
                         (List.length (rows_with architecture data k))))
    by reflexivity.
  rewrite <- (map_map (fun k => List.length (rows_with architecture data k))
                      Z.of_nat).
  rewrite sum_Z_of_nat. f_equal.
  apply count_by_key; [apply unique_NoDup|].
  intros r I. apply unique_In. now apply in_map.
Qed.

Lemma upper_lower_ascii (c : ascii) :
  upper_ascii (lower_ascii c) = upper_ascii c.
Proof. destruct c as [[] [] [] [] [] [] [] []]; reflexivity. Qed.

Lemma upper_lower (s : string) : upper (lower s) = upper s.
Proof.
  induction s as [|c s IH]; simpl; [reflexivity|].
  now rewrite upper_lower_ascii, IH.
Qed.

(* ================================================================== *)
(** * Order of the bandwidth tiers                                     *)
(* ================================================================== *)

Lemma rate_leb_total (g1 g2 : string * string * fval) :
  rate_leb g1 g2 = true \/ rate_leb g2 g1 = true.
Proof.
  unfold rate_leb.
  destruct (Analyze.bandwidthNum g1), (Analyze.bandwidthNum g2); simpl; auto.
  rewrite !Z.leb_le. lia.
Qed.

Lemma rate_leb_trans (g1 g2 g3 : string * string * fval) :
  rate_leb g1 g2 = true -> rate_leb g2 g3 = true -> rate_leb g1 g3 = true.
Proof.
  unfold rate_leb.
  destruct (Analyze.bandwidthNum g1), (Analyze.bandwidthNum g2),
    (Analyze.bandwidthNum g3); simpl; auto; try discriminate.
  rewrite !Z.leb_le. lia.
Qed.

Lemma filter_sorted {A} (R : A -> A -> Prop) (f : A -> bool) (l : list A) :
  StronglySorted R l -> StronglySorted R (filter f l).
Proof.
  induction 1 as [|x l SS IH F]; simpl; [constructor|].
  destruct (f x); [|exact IH]. constructor; [exact IH|].
  rewrite Forall_forall in *. intros y Iy. apply F.
  now apply filter_In in Iy.
Qed.

Lemma tls_grouped_sorted (tls_data : DataFrame) :
  StronglySorted (le_rel rate_leb) (Analyze.tls_grouped tls_data).
Proof.
  apply (sort_sorted rate_leb rate_leb_total rate_leb_trans).
Qed.

Lemma tls_grouped_tier_In (tls_data : DataFrame) (g : string * string * fval) :
  In g (Analyze.tls_grouped tls_data) -> In (tier g) (map bandwidth tls_data).
Proof.
  unfold Analyze.tls_grouped. rewrite sort_In. destruct g as [[a b] v].
  intros I. apply groupby_mean_observed in I as [(r & I & [= _ <-]) _].
  unfold tier. simpl. now apply in_map.
Qed.

(** Rows sorted by rate whose tiers are the three known ones list the
    1mbit rows, then the 2mbit rows, then the 5mbit rows. *)
Lemma sorted_tiers_shape (l : list (string * string * fval)) :
  StronglySorted (le_rel rate_leb) l ->
  Forall (fun g => tier g = "1mbit" \/ tier g = "2mbit" \/ tier g = "5mbit") l ->
  exists a b c,
    map tier l = repeat "1mbit" a ++ repeat "2mbit" b ++ repeat "5mbit" c.
Proof.
  induction 1 as [|g l SS IH F]; intros T.
  - exists 0%nat, 0%nat, 0%nat. reflexivity.
  - inversion T as [|? ? Tg Tl]; subst.
    destruct (IH Tl) as (a & b & c & E). simpl map. rewrite E.
    assert (Hd : forall g', In g' l -> rate_leb g g' = true)
      by (now apply Forall_forall).
    destruct Tg as [Tg|[Tg|Tg]]; rewrite Tg.
    + exists (S a), b, c. reflexivity.
    + destruct a as [|a].
      * exists 0%nat, (S b), c. reflexivity.
      * exfalso. destruct l as [|g' l]; [discriminate|].
        injection E as E1 _. specialize (Hd g' (or_introl eq_refl)).
        unfold rate_leb, Analyze.bandwidthNum, tier in *.
        rewrite Tg, E1 in Hd. discriminate.
    + destruct a as [|a]; [destruct b as [|b]|].
      * exists 0%nat, 0%nat, (S c). reflexivity.
      * exfalso. destruct l as [|g' l]; [discriminate|].
        injection E as E1 _. specialize (Hd g' (or_introl eq_refl)).
        unfold rate_leb, Analyze.bandwidthNum, tier in *.
        rewrite Tg, E1 in Hd. discriminate.
      * exfalso. destruct l as [|g' l]; [discriminate|].
        injection E as E1 _. specialize (Hd g' (or_introl eq_refl)).
        unfold rate_leb, Analyze.bandwidthNum, tier in *.
        rewrite Tg, E1 in Hd. discriminate.
Qed.

Lemma visualize_tls_bars (data : DataFrame) :
  let rows := filter (fun d => keqb (numViewers d) 5%Z && keqb (packetLoss d) 0%Qc)
                     data in
  let height (arch_rows : DataFrame) (bw : string) :=
    Stats.mean (map avgTls (filter (fun r => keqb (bandwidth r) bw) arch_rows)) in
  bars (Visualize.create_tls_vs_bandwidth_chart data)
  = [("P2P Architecture", map (height (p2p_rows rows)) ["1mbit"; "2mbit"; "5mbit"]);
     ("SFU Architecture", map (height (sfu_rows rows)) ["1mbit"; "2mbit"; "5mbit"])].
Proof.
  unfold Visualize.create_tls_vs_bandwidth_chart. rewrite group_spec.
  unfold Visualize.averages, Visualize.bandwidth_order. simpl.
  now rewrite !(dd_get_rows bandwidth avgTls).
Qed.

(* ================================================================== *)
(** * Groups of one record                                             *)
(* ================================================================== *)

Lemma entry_eqb_eq {K} `{KeyLaws K} (a b : K * fval) :
  entry_eqb a b = true -> a = b.
Proof.
  destruct a, b. unfold entry_eqb. simpl. rewrite andb_true_iff.
  intros [E1 E2]. apply keqb_eq in E1. apply fval_eqb_eq in E2. congruence.
Qed.

Lemma visualize_group_single {K} `{KeyLaws K} (key : Row -> K) (col : Row -> Qc)
    (df : DataFrame) (r : Row) :
  filter (fun x => Bool.eqb (Visualize.is_p2p x) (Visualize.is_p2p r)
                   && keqb (key x) (key r)) df = [r] ->
  dd_get ((if Visualize.is_p2p r then fst else snd) (Visualize.group key col df))
         (key r)
  = [col r].
Proof.
  intros E. rewrite group_spec.
  destruct (Visualize.is_p2p r) eqn:P; simpl;
    rewrite dd_get_rows; [unfold p2p_rows|unfold sfu_rows];
    rewrite filter_filter;
    erewrite filter_ext; [rewrite E; reflexivity | | rewrite E; reflexivity |];
    intros x; simpl; destruct (Visualize.is_p2p x); reflexivity.
Qed.

(** C7.  A group with exactly one record has that record's value as its
    mean, in the pandas aggregation and in the grouping loop of
    create_visualizations.py alike.  For the two-record scenario the
    CPU-by-viewers aggregation is p2p -> 20, sfu -> 30 at five viewers,
    and these are the series both chart functions plot. *)
Theorem single_record_mean :
  (forall (K : Type) (HK : Key K) (HL : KeyLaws K)
          (key : Row -> K) (col : Row -> Qc) (df : DataFrame) (r : Row),
      filter (fun x => keqb (key x) (key r)) df = [r] ->
      In (key r, Num (col r)) (groupby_mean key col df)
      /\ forall v, In (key r, v) (groupby_mean key col df) -> v = Num (col r))
  /\ (forall (K : Type) (HK : Key K) (HL : KeyLaws K)
             (key : Row -> K) (col : Row -> Qc) (df : DataFrame) (r : Row),
         filter (fun x => Bool.eqb (Visualize.is_p2p x) (Visualize.is_p2p r)
                          && keqb (key x) (key r)) df = [r] ->
         Visualize.averages
           ((if Visualize.is_p2p r then fst else snd) (Visualize.group key col df))
           [key r]
         = [Num (col r)])
  /\ Analyze.cpu_grouped
       (filter (fun r => keqb (packetLoss r) 0%Qc) (Analyze.read_csv scenario))
     = [ ("p2p", 5%Z, Num (qz 20)); ("sfu", 5%Z, Num (qz 30)) ]
  /\ option_map (fun fig => map (fun l => (label l, xs l, ys l)) (lines fig))
       (Analyze.generate_cpu_utilization_chart (Analyze.read_csv scenario))
     = Some [ ("p2p Architecture", [5%Z], [Num (qz 20)]);
              ("sfu Architecture", [5%Z], [Num (qz 30)]) ]
  /\ map (fun l => (label l, xs l, ys l))
         (lines (Visualize.create_cpu_utilization_chart
                   (Visualize.load_data (Some scenario))))
     = [ ("P2P Architecture", [5%Z], [Num (qz 20)]);
         ("SFU Architecture", [5%Z], [Num (qz 30)]) ].
Proof.
  split; [|split; [|split; [|split]]].
  - intros K HK HL key col df r E.
    assert (M : Stats.mean (map col (rows_with key df (key r))) = Num (col r)).
    { unfold rows_with. rewrite E. apply mean_singleton. }
    assert (I : In (key r) (map key df)).
    { apply in_map. apply (proj1 (filter_In (fun x => keqb (key x) (key r)) r df)).
      rewrite E. now left. }
    split.
    + apply groupby_mean_In. split; [exact I|now rewrite M].
    + intros v Iv. apply groupby_mean_In in Iv as [_ ->]. exact M.
  - intros K HK HL key col df r E. unfold Visualize.averages. simpl.
    now rewrite (@visualize_group_single K HK HL key col df r E), mean_singleton.
  - apply (all2_eq entry_eqb); [apply entry_eqb_eq|]. vm_compute. reflexivity.
  - assert (G : Analyze.cpu_grouped
             (filter (fun r => keqb (packetLoss r) 0%Qc) (Analyze.read_csv scenario))
           = [ ("p2p", 5%Z, Num (qz 20)); ("sfu", 5%Z, Num (qz 30)) ])
      by (apply (all2_eq entry_eqb); [apply entry_eqb_eq|]; vm_compute; reflexivity).
    unfold Analyze.generate_cpu_utilization_chart.
    rewrite G. reflexivity.
  - unfold Visualize.create_cpu_utilization_chart, Visualize.averages.
    rewrite group_spec. simpl lines. cbn [map label xs ys].
    replace (Stats.total [qz 20] / Stats.of_count 1)%Qc with (qz 20)
      by (apply Qc_is_canon; reflexivity).
    replace (Stats.total [qz 30] / Stats.of_count 1)%Qc with (qz 30)
      by (apply Qc_is_canon; reflexivity).
    reflexivity.
Qed.

(* ================================================================== *)
(** * What the summary holds per group                                 *)
(* ================================================================== *)


Lemma arch_entry_get (data : DataFrame) (arch : string) :
  In arch (map architecture data) ->
  dict_get (Analyze.arch_comparison data) arch
  = Some (snd (Analyze.arch_entry data arch)).
Proof.
  intros I. unfold Analyze.arch_comparison.
  apply dict_get_map; [reflexivity|]. now apply unique_In.
Qed.

(** C9 fails: the entry of an architecture has neither a standard
    deviation nor a minimum or maximum, in either implementation, while
    the overall blocks of analyze.py do have them. *)
Lemma per_architecture_entry_lacks_std :
  let data := Analyze.read_csv scenario in
  (exists e, dict_get (Analyze.arch_comparison data) "p2p" = Some e
             /\ jget e "std" = None /\ jget e "min" = None /\ jget e "max" = None)
  /\ (exists e, dict_get (map (Visualize.performance data) ["P2P"; "SFU"]) "P2P"
                = Some e
                /\ jget e "std" = None /\ jget e "min" = None
                /\ jget e "max" = None)
  /\ jkeys (Analyze.describe (map avgCpu data)) = ["mean"; "std"; "min"; "max"].
Proof.
  split; [|split]; [eexists; repeat split; reflexivity ..|reflexivity].
Qed.

(** C9, as the code has it.  For each architecture label of the data the
    breakdown of analyze.py holds the record count and the means of the
    three fields, each a finite number, and nothing else; the overall
    blocks hold mean, standard deviation, minimum and maximum.  The
    breakdown of create_visualizations.py holds the three means and the
    record count for P2P and for SFU. *)
Theorem per_architecture_entry (data : DataFrame) (arch : string) :
  In arch (map architecture data) ->
  let arch_data := filter (fun r => keqb (architecture r) arch) data in
  dict_get (Analyze.arch_comparison data) arch
  = Some (JDict [("tests", JInt (Z.of_nat (List.length arch_data)));
                 ("avg_cpu", JNum (Stats.mean (map avgCpu arch_data)));
                 ("avg_latency", JNum (Stats.mean (map avgLatency arch_data)));
                 ("avg_tls", JNum (Stats.mean (map avgTls arch_data)))])
  /\ (exists c l t,
         Stats.mean (map avgCpu arch_data) = Num c
         /\ Stats.mean (map avgLatency arch_data) = Num l
         /\ Stats.mean (map avgTls arch_data) = Num t)
  /\ (forall col, jkeys (Analyze.describe col) = ["mean"; "std"; "min"; "max"])
  /\ (forall label, In label ["P2P"; "SFU"] ->
        exists e,
          jget (Visualize.create_summary_stats data) "performance_comparison"
          = Some (JDict (map (Visualize.performance data) ["P2P"; "SFU"]))
          /\ dict_get (map (Visualize.performance data) ["P2P"; "SFU"]) label
             = Some e
          /\ jkeys e = ["avg_cpu"; "avg_latency"; "avg_tls"; "test_count"]).
Proof.
  intros I arch_data. split; [|split; [|split]].
  - rewrite arch_entry_get by exact I. reflexivity.
  - assert (N : arch_data <> [])
      by (apply (rows_with_nonempty architecture data arch I)).
    assert (M : forall col : Row -> Qc,
               exists q, Stats.mean (map col arch_data) = Num q).
    { intros col. apply mean_nonempty. intros E. now apply map_eq_nil in E. }
    destruct (M avgCpu) as [c Hc], (M avgLatency) as [l Hl], (M avgTls) as [t Ht].
    exists c, l, t. auto.
  - reflexivity.
  - intros label [<-|[<-|[]]]; eexists; repeat split; reflexivity.
Qed.

(* ================================================================== *)
(** * Empty groups                                                     *)
(* ================================================================== *)

(** analyze.py: a grouped frame has a row only for a key that occurs,
    with a finite mean; a chart whose selection is empty is skipped. *)
Lemma analyze_empty_groups (data : DataFrame) :
  map fst (Analyze.cpu_grouped data)
    = sorted (unique (map (fun r => (architecture r, numViewers r)) data))
  /\ (forall k v,
      In (k, v) (Analyze.cpu_grouped data) ->
      (exists r, In r data /\ (architecture r, numViewers r) = k)
      /\ exists q, v = Num q)
  /\ (forall k v,
        In (k, v) (Analyze.latency_grouped data) ->
        (exists r, In r data /\ (architecture r, packetLoss r) = k)
        /\ exists q, v = Num q)
  /\ (forall k v,
        In (k, v) (Analyze.tls_grouped data) ->
        (exists r, In r data /\ (architecture r, bandwidth r) = k)
        /\ exists q, v = Num q)
  /\ (filter (fun r => keqb (packetLoss r) 0%Qc) data = [] ->
      Analyze.generate_cpu_utilization_chart data = None)
  /\ (filter (fun r => keqb (numViewers r) 5%Z) data = [] ->
      Analyze.generate_latency_vs_loss_chart data = None)
  /\ (filter (fun r => keqb (numViewers r) 5%Z && keqb (packetLoss r) 0%Qc) data
      = [] ->
      Analyze.generate_tls_vs_bandwidth_chart data = inr None).
Proof.
  split; [apply groupby_mean_keys|].
  split; [|split; [|split; [|split; [|split]]]].
  - intros k v I. now apply groupby_mean_observed in I.
  - intros k v I. now apply groupby_mean_observed in I.
  - intros k v I. unfold Analyze.tls_grouped in I.
    apply (proj1 (sort_In _ _ _)) in I.
    now apply groupby_mean_observed in I.
  - intros E. unfold Analyze.generate_cpu_utilization_chart. now rewrite E.
  - intros E. unfold Analyze.generate_latency_vs_loss_chart. now rewrite E.
  - intros E. unfold Analyze.generate_tls_vs_bandwidth_chart. now rewrite E.
Qed.

(** create_visualizations.py: the bar of a tier, over the selected rows
    of one architecture, is NaN exactly when none of them is of that
    tier. *)
Lemma visualize_tls_placeholder (arch_rows : DataFrame) (bw : string) :
  Stats.mean (map avgTls (filter (fun r => keqb (bandwidth r) bw) arch_rows))
    = NaN
  <-> filter (fun r => keqb (bandwidth r) bw) arch_rows = [].
Proof.
  rewrite mean_NaN_iff. split; [apply map_eq_nil|intros ->; reflexivity].
Qed.

(** C2, on create_visualizations.py.  With P2P measured at one tier only,
    the legibility chart is still drawn and the two missing P2P tiers are
    filled with NaN, where analyze.py lists the observed keys only.  With
    no loss-free run at all, the CPU chart is still drawn, from two empty
    series, where analyze.py skips it and goes on to the summary. *)
Theorem visualize_empty_groups :
  map snd (bars (Visualize.create_tls_vs_bandwidth_chart
                   (Visualize.load_data (Some sparse))))
    = [ [Num (tenth 4); NaN; NaN]; [Num (tenth 3); Num (tenth 2); Num (tenth 1)] ]
  /\ map file_name (fst (Visualize.main (Some sparse)))
     = [ "results/visualizations/cpu_utilization.png";
         "results/visualizations/latency_vs_loss.png";
         "results/visualizations/tls_vs_bandwidth.png";
         "results/visualizations/summary_statistics.json" ]
  /\ map fst (Analyze.tls_grouped (Analyze.read_csv sparse))
     = [ ("P2P", "1mbit"); ("SFU", "1mbit"); ("SFU", "2mbit"); ("SFU", "5mbit") ]
  /\ map (fun l => (label l, xs l, ys l))
         (lines (Visualize.create_cpu_utilization_chart
                   (Visualize.load_data (Some lossy))))
     = [ ("P2P Architecture", [], []); ("SFU Architecture", [], []) ]
  /\ map file_name (fst (Visualize.main (Some lossy)))
     = [ "results/visualizations/cpu_utilization.png";
         "results/visualizations/latency_vs_loss.png";
         "results/visualizations/tls_vs_bandwidth.png";
         "results/visualizations/summary_statistics.json" ]
  /\ Analyze.generate_cpu_utilization_chart (Analyze.read_csv lossy) = None
  /\ map file_name
         (fst (Analyze.run_analysis
                 {| results_json := None; results_csv := Some lossy |}))
     = [ "latency_vs_loss.png"; "summary_statistics.json" ].
Proof.
  repeat split.
  apply (all2_eq (all2 fval_eqb)); [apply all2_eq, fval_eqb_eq|].
  vm_compute. reflexivity.
Qed.

(* ================================================================== *)
(** * The theorems at concrete inputs                                  *)
(* ================================================================== *)

(** Membership in a short list of alternatives, by evaluation. *)
Ltac pick_alternative :=
  first [ reflexivity
        | left; reflexivity
        | right; pick_alternative ].

Ltac each_row :=
  repeat (apply Forall_cons; [hnf; pick_alternative|]); apply Forall_nil.

(** C7 on the scenario: the group of its first line is that line alone,
    and the aggregation maps (p2p, 5) to 20. *)
Lemma single_record_mean_witness :
  filter (fun x => keqb (architecture x, numViewers x) ("p2p", 5%Z))
         (Analyze.read_csv scenario)
    = [row "p2p" 5 (qz 0) "5mbit" (qz 20) (qz 50) (qz 0)]
  /\ In ("p2p", 5%Z, Num (qz 20))
        (groupby_mean (fun r => (architecture r, numViewers r)) avgCpu
                      (Analyze.read_csv scenario)).
Proof.
  assert (E : filter (fun x => keqb (architecture x, numViewers x) ("p2p", 5%Z))
                     (Analyze.read_csv scenario)
              = [row "p2p" 5 (qz 0) "5mbit" (qz 20) (qz 50) (qz 0)])
    by reflexivity.
  split; [exact E|].
  exact (proj1 (proj1 single_record_mean _ _ _
                  (fun r => (architecture r, numViewers r)) avgCpu
                  (Analyze.read_csv scenario)
                  (row "p2p" 5 (qz 0) "5mbit" (qz 20) (qz 50) (qz 0)) E)).
Defined.

(** C9, amended, on the scenario: the entry of p2p. *)
Lemma per_architecture_entry_witness :
  In "p2p" (map architecture (Analyze.read_csv scenario))
  /\ exists e,
       dict_get (Analyze.arch_comparison (Analyze.read_csv scenario)) "p2p"
       = Some e
       /\ jkeys e = ["tests"; "avg_cpu"; "avg_latency"; "avg_tls"].
Proof.
  assert (I : In "p2p" (map architecture (Analyze.read_csv scenario)))
    by (simpl; auto).
  split; [exact I|].
  destruct (per_architecture_entry (Analyze.read_csv scenario) "p2p" I)
    as (E & _).
  eexists. split; [exact E|reflexivity].
Defined.

(* ================================================================== *)
(** * analyze.py: how a run ends                                       *)
(* ================================================================== *)

Lemma saved_names {F} (wrap : F -> artifact) (fig : option F) (name : string) :
  (forall f, fig = Some f -> file_name (wrap f) = name) ->
  map file_name (Analyze.saved wrap fig)
  = if drawn fig then [name] else [].
Proof.
  intros E. destruct fig as [f|]; simpl; [|reflexivity].
  now rewrite (E f eq_refl).
Qed.

Lemma cpu_chart_path (data : DataFrame) (f : Figure Z) :
  Analyze.generate_cpu_utilization_chart data = Some f ->
  path f = "cpu_utilization.png".
Proof.
  unfold Analyze.generate_cpu_utilization_chart.
  destruct (filter _ data); [discriminate|]. now intros [= <-].
Qed.

Lemma latency_chart_path (data : DataFrame) (f : Figure Qc) :
  Analyze.generate_latency_vs_loss_chart data = Some f ->
  path f = "latency_vs_loss.png".
Proof.
  unfold Analyze.generate_latency_vs_loss_chart.
  destruct (filter _ data); [discriminate|]. now intros [= <-].
Qed.

(* ================================================================== *)
(** * analyze.py: the series of a line chart                           *)
(* ================================================================== *)

Lemma kleb_refl {K} `{KeyLaws K} (x : K) : kleb x x = true.
Proof. now destruct (kleb_total x x). Qed.

Lemma map_sorted {A B} (R : A -> A -> Prop) (R' : B -> B -> Prop)
    (f : A -> B) (l : list A) :
  (forall x y, In x l -> In y l -> R x y -> R' (f x) (f y)) ->
  StronglySorted R l -> StronglySorted R' (map f l).
Proof.
  intros M. induction 1 as [|x l SS IH F]; simpl; constructor.
  - apply IH. intros a b Ia Ib. apply M; now right.
  - rewrite Forall_forall in *. intros b Ib.
    apply in_map_iff in Ib as (y & <- & Iy).
    apply M; [now left|now right|now apply F].
Qed.

Lemma unique_sorted {K} `{KeyLaws K} (R : K -> K -> Prop) (l : list K) :
  StronglySorted R l -> StronglySorted R (unique l).
Proof.
  induction 1 as [|x l SS IH F]; simpl; constructor.
  - now apply filter_sorted.
  - rewrite Forall_forall in *. intros y Iy.
    apply filter_In in Iy as [Iy _]. apply F. now apply unique_In.
Qed.

Lemma sorted_NoDup_strict {K} `{KeyLaws K} (l : list K) :
  StronglySorted (le_rel kleb) l -> NoDup l -> StronglySorted klt l.
Proof.
  induction 1 as [|x l SS IH F]; intros N; constructor;
    inversion N as [|? ? Nx Nl]; subst.
  - now apply IH.
  - rewrite Forall_forall in *. intros y Iy. split; [now apply F|].
    intros ->. contradiction.
Qed.

Lemma sorted_length {K} `{Key K} (l : list K) :
  List.length (sorted l) = List.length l.
Proof. apply Permutation_length, sort_Permutation. Qed.

Lemma sorted_is_sorted {K} `{KeyLaws K} (l : list K) :
  StronglySorted (le_rel kleb) (sorted l).
Proof. apply sort_sorted; [apply kleb_total|apply kleb_trans]. Qed.

Lemma sorted_NoDup {K} `{KeyLaws K} (l : list K) : NoDup l -> NoDup (sorted l).
Proof.
  intros N. eapply Permutation_NoDup; [|exact N].
  symmetry. apply sort_Permutation.
Qed.

Lemma filter_map_fst {A B} (p : A -> bool) (g : list (A * B)) :
  map fst (filter (fun e => p (fst e)) g) = filter p (map fst g).
Proof.
  induction g as [|[a b] g IH]; simpl; [reflexivity|].
  destruct (p a); simpl; now rewrite IH.
Qed.

Lemma filter_NoDup_map {A B} (f : A -> B) (l : list A) :
  NoDup l -> (forall x y, In x l -> In y l -> f x = f y -> x = y) ->
  NoDup (map f l).
Proof.
  induction 1 as [|x l Nx N IH]; intros Inj; simpl; constructor.
  - intros I. apply in_map_iff in I as (y & E & Iy).
    assert (y = x) by (apply Inj; [now right|now left|assumption]).
    subst. contradiction.
  - apply IH. intros a b Ia Ib. apply Inj; now right.
Qed.

Section Series.
Context {X : Type} `{KeyLaws X}.
Variables (xof : Row -> X) (col : Row -> Qc) (df : DataFrame).

Let key (r : Row) : string * X := (architecture r, xof r).
Let grouped : list (string * X * fval) := groupby_mean key col df.

Lemma grouped_keys_sorted :
  StronglySorted (le_rel kleb) (map fst grouped).
Proof. unfold grouped. rewrite groupby_mean_keys. apply sorted_is_sorted. Qed.

Lemma grouped_keys_NoDup : NoDup (map fst grouped).
Proof.
  unfold grouped. rewrite groupby_mean_keys.
  apply sorted_NoDup, unique_NoDup.
Qed.

Lemma grouped_key_In (k : string * X) :
  In k (map fst grouped) <-> In k (map key df).
Proof.
  unfold grouped. rewrite groupby_mean_keys.
  rewrite (sorted_In (unique (map key df)) k). apply unique_In.
Qed.

Lemma grouped_arch_In (a : string) :
  In a (map (fun g => fst (fst g)) grouped) <-> In a (map architecture df).
Proof.
  rewrite <- (map_map fst fst), in_map_iff. split.
  - intros (k & <- & I). apply grouped_key_In in I.
    apply in_map_iff in I as (r & <- & I). simpl. now apply in_map.
  - intros I. apply in_map_iff in I as (r & <- & I).
    exists (key r). split; [reflexivity|].
    apply grouped_key_In. now apply in_map.
Qed.

(** The legend lists the labels in sorted order. *)
Lemma grouped_archs :
  unique (map (fun g => fst (fst g)) grouped)
  = sorted (unique (map architecture df)).
Proof.
  apply (sorted_unique (le := kleb) kleb_antisym).
  - apply unique_sorted. rewrite <- (map_map fst fst).
    apply (map_sorted (R := le_rel kleb)); [|apply grouped_keys_sorted].
    intros [a x] [b y] _ _. unfold le_rel. simpl. unfold pair_leb. simpl.
    destruct (String.eqb a b) eqn:E; [|tauto].
    apply String.eqb_eq in E. subst. intros _. exact (kleb_refl (K := string) b).
  - apply sorted_is_sorted.
  - apply NoDup_Permutation.
    + apply unique_NoDup.
    + apply sorted_NoDup, unique_NoDup.
    + intros a. rewrite unique_In, grouped_arch_In.
      rewrite (sorted_In (unique (map architecture df)) a).
      symmetry. apply unique_In.
Qed.

Lemma arch_rows_keys (a : string) :
  map fst (Analyze.arch_rows grouped a)
  = filter (fun k => keqb (fst k) a) (map fst grouped).
Proof. unfold Analyze.arch_rows. apply (filter_map_fst (fun k => keqb (fst k) a)). Qed.

Lemma arch_rows_xs_strict (a : string) :
  StronglySorted klt (map (fun g => snd (fst g)) (Analyze.arch_rows grouped a)).
Proof.
  rewrite <- (map_map fst snd), arch_rows_keys.
  apply sorted_NoDup_strict.
  - apply (map_sorted (R := le_rel kleb));
      [|apply filter_sorted, grouped_keys_sorted].
    intros [b x] [c y] Ix Iy. apply filter_In in Ix as [_ Ex], Iy as [_ Ey].
    simpl in Ex, Ey. apply String.eqb_eq in Ex, Ey. subst.
    unfold le_rel. simpl. unfold pair_leb. simpl. now rewrite String.eqb_refl.
  - apply filter_NoDup_map; [apply NoDup_filter, grouped_keys_NoDup|].
    intros [b x] [c y] Ix Iy. apply filter_In in Ix as [_ Ex], Iy as [_ Ey].
    simpl in *. apply String.eqb_eq in Ex, Ey. congruence.
Qed.

Lemma arch_rows_finite (a : string) :
  Forall finite (map snd (Analyze.arch_rows grouped a)).
Proof.
  apply Forall_forall. intros v I. apply in_map_iff in I as ([k v'] & <- & I).
  apply filter_In in I as [I _].
  now apply (groupby_mean_observed key col df) in I.
Qed.

Lemma arch_rows_nonempty (a : string) :
  In a (map (fun g => fst (fst g)) grouped) ->
  Analyze.arch_rows grouped a <> [].
Proof.
  intros I. apply in_map_iff in I as (g & E & I). intros N.
  assert (I' : In g (Analyze.arch_rows grouped a)).
  { apply filter_In. split; [assumption|]. rewrite E. apply keqb_refl. }
  rewrite N in I'. destruct I'.
Qed.

Lemma arch_rows_partition :
  list_sum (map (fun a => List.length (Analyze.arch_rows grouped a))
                (unique (map (fun g => fst (fst g)) grouped)))
  = List.length grouped.
Proof.
  apply (count_by_key (fun g : string * X * fval => fst (fst g))).
  - apply unique_NoDup.
  - intros g I. apply unique_In.
    now apply (in_map (fun g : string * X * fval => fst (fst g))).
Qed.
End Series.

Lemma series_lines {X} (xcol : X -> X) (grouped : list (string * X * fval)) :
  Analyze.series xcol grouped
  = map (fun arch =>
           {| label := String.append arch " Architecture";
              xs := map xcol (map (fun g => snd (fst g))
                                  (Analyze.arch_rows grouped arch));
              ys := map snd (Analyze.arch_rows grouped arch) |})
        (unique (map (fun g => fst (fst g)) grouped)).
Proof.
  unfold Analyze.series. apply map_ext. intros arch. now rewrite map_map.
Qed.

(** Every line [series] builds has a point, as many y values as x
    values, strictly ascending x values and numbers for y values. *)
Lemma series_points {X : Type} `{KeyLaws X}
    (xof : Row -> X) (col : Row -> Qc) (xcol : X -> X) (df : DataFrame) :
  (forall x y, klt x y -> klt (xcol x) (xcol y)) ->
  Forall (fun l => xs l <> []
                   /\ List.length (xs l) = List.length (ys l)
                   /\ StronglySorted klt (xs l)
                   /\ Forall finite (ys l))
         (Analyze.series xcol
            (groupby_mean (fun r => (architecture r, xof r)) col df)).
Proof.
  intros Mono. rewrite series_lines.
  apply Forall_forall. intros l I. apply in_map_iff in I as (a & <- & I).
  apply -> (unique_In (K := string)) in I. simpl. repeat split.
  - intros E. apply map_eq_nil in E. apply map_eq_nil in E.
    revert E. now apply arch_rows_nonempty.
  - now rewrite !length_map.
  - apply (map_sorted (R := klt)); [intros x y _ _; apply Mono|].
    apply arch_rows_xs_strict.
  - apply arch_rows_finite.
Qed.

(** The series [series] hands to the plotting loop, for the frame grouped
    by architecture and one more column: one line per architecture, the
    labels in sorted order; no line is empty; the x values of a line are
    strictly ascending (for an x transformation that keeps the order),
    there are as many y values, all of them numbers; and the lines
    together hold one point per group of the frame. *)
Theorem analyze_series_structure {X : Type} `{KeyLaws X}
    (xof : Row -> X) (col : Row -> Qc) (xcol : X -> X) (df : DataFrame) :
  (forall x y, klt x y -> klt (xcol x) (xcol y)) ->
  let grouped := groupby_mean (fun r => (architecture r, xof r)) col df in
  let ls := Analyze.series xcol grouped in
  map (@label X) ls
    = map (fun a => String.append a " Architecture")
          (sorted (unique (map architecture df)))
  /\ Forall (fun l => xs l <> []
                      /\ List.length (xs l) = List.length (ys l)
                      /\ StronglySorted klt (xs l)
                      /\ Forall finite (ys l)) ls
  /\ list_sum (map (fun l => List.length (xs l)) ls)
     = List.length (unique (map (fun r => (architecture r, xof r)) df)).
Proof.
  intros Mono grouped ls.
  split; [|split; [exact (series_points xof col xcol df Mono)|]];
    unfold ls; rewrite series_lines.
  - rewrite map_map. simpl. unfold grouped. now rewrite grouped_archs.
  - rewrite map_map. simpl.
    rewrite (map_ext _ (fun a => List.length (Analyze.arch_rows grouped a)))
      by (intros a; now rewrite !length_map).
    unfold grouped. rewrite arch_rows_partition.
    rewrite <- (length_map fst), groupby_mean_keys.
    apply sorted_length.
Qed.

(* ================================================================== *)
(** * analyze.py: when a chart is drawn, and what it shows             *)
(* ================================================================== *)


Lemma klt_Z (x y : Z) : klt x y <-> (x < y)%Z.
Proof. unfold klt. simpl. rewrite Z.leb_le. lia. Qed.

Lemma klt_Qc (x y : Qc) : klt x y <-> (x < y)%Qc.
Proof.
  unfold klt. simpl. unfold Qc_leb. rewrite Qle_bool_iff.
  change (this x <= this y)%Q with (x <= y)%Qc. split.
  - intros [L N]. destruct (Qcle_lt_or_eq _ _ L); [assumption|contradiction].
  - intros L. split; [now apply Qclt_le_weak|now apply Qclt_not_eq].
Qed.

Lemma hundred_pos : (0 < Analyze.hundred)%Qc.
Proof. reflexivity. Qed.

Lemma percent_strict (x y : Qc) :
  klt x y -> klt (x * Analyze.hundred)%Qc (y * Analyze.hundred)%Qc.
Proof.
  rewrite !klt_Qc. intros L. now apply Qcmult_lt_compat_r; [apply hundred_pos|].
Qed.

(** [analyze_series_structure] on the latency-by-loss frame of [sparse],
    with the loss rates turned into percentages. *)
Lemma analyze_series_structure_witness :
  (forall x y : Qc, klt x y ->
     klt (x * Analyze.hundred)%Qc (y * Analyze.hundred)%Qc)
  /\ map (@label Qc)
         (Analyze.series (fun l => (l * Analyze.hundred)%Qc)
            (groupby_mean (fun r => (architecture r, packetLoss r)) avgLatency
                          (Analyze.read_csv sparse)))
     = ["P2P Architecture"; "SFU Architecture"]
  /\ list_sum (map (fun l => List.length (xs l))
         (Analyze.series (fun l => (l * Analyze.hundred)%Qc)
            (groupby_mean (fun r => (architecture r, packetLoss r)) avgLatency
                          (Analyze.read_csv sparse))))
     = 2%nat.
Proof.
  split; [exact percent_strict|].
  destruct (analyze_series_structure packetLoss avgLatency
              (fun l => (l * Analyze.hundred)%Qc) (Analyze.read_csv sparse)
              percent_strict) as (L & _ & P).
  split; [exact L|exact P].
Defined.

Lemma strongly_sorted_impl {A} (R R' : A -> A -> Prop) (l : list A) :
  (forall x y, R x y -> R' x y) -> StronglySorted R l -> StronglySorted R' l.
Proof.
  intros I. induction 1 as [|x l SS IH F]; constructor; [assumption|].
  eapply Forall_impl; [|exact F]. intros y. apply I.
Qed.


Lemma tls_grouped_Permutation_groupby (tls_data : DataFrame) :
  Permutation (Analyze.tls_grouped tls_data)
              (groupby_mean (fun r => (architecture r, bandwidth r)) avgTls
                            tls_data).
Proof. apply sort_Permutation. Qed.

Lemma tls_arch_rows_tiers_NoDup (tls_data : DataFrame) (a : string) :
  NoDup (map tier (Analyze.arch_rows (Analyze.tls_grouped tls_data) a)).
Proof.
  unfold tier. rewrite <- (map_map fst snd).
  unfold Analyze.arch_rows.
  rewrite (filter_map_fst (fun k : string * string => keqb (fst k) a)).
  apply filter_NoDup_map.
  - apply NoDup_filter.
    eapply Permutation_NoDup;
      [symmetry; apply Permutation_map, tls_grouped_Permutation_groupby|].
    apply (grouped_keys_NoDup bandwidth avgTls tls_data).
  - intros [b x] [c y] Ix Iy. apply filter_In in Ix as [_ Ex], Iy as [_ Ey].
    simpl in *. apply String.eqb_eq in Ex, Ey. congruence.
Qed.

Lemma cpu_chart_cases (data : DataFrame) :
  (filter loss_free data = []
   /\ Analyze.generate_cpu_utilization_chart data = None)
  \/ (exists r sel,
        filter loss_free data = r :: sel
        /\ Analyze.generate_cpu_utilization_chart data
           = Some {| path := "cpu_utilization.png";
                     lines := Analyze.series (fun v => v)
                                (Analyze.cpu_grouped (r :: sel)) |}).
Proof.
  unfold Analyze.generate_cpu_utilization_chart, loss_free.
  destruct (filter _ data) as [|r sel]; [left|right]; eauto.
Qed.

Lemma latency_chart_cases (data : DataFrame) :
  (filter five_viewers data = []
   /\ Analyze.generate_latency_vs_loss_chart data = None)
  \/ (exists r sel,
        filter five_viewers data = r :: sel
        /\ Analyze.generate_latency_vs_loss_chart data
           = Some {| path := "latency_vs_loss.png";
                     lines := Analyze.series (fun l => (l * Analyze.hundred)%Qc)
                                (Analyze.latency_grouped (r :: sel)) |}).
Proof.
  unfold Analyze.generate_latency_vs_loss_chart, five_viewers.
  destruct (filter _ data) as [|r sel]; [left|right]; eauto.
Qed.

Lemma tls_chart_cases (data : DataFrame) :
  (filter five_loss_free data = []
   /\ Analyze.generate_tls_vs_bandwidth_chart data = inr None)
  \/ (exists r sel,
        filter five_loss_free data = r :: sel
        /\ Analyze.generate_tls_vs_bandwidth_chart data
           = match
               Analyze.draw_bars
                 (List.length
                    (unique (map tier (Analyze.tls_grouped (r :: sel)))))
                 (map (fun arch =>
                         (String.append arch " Architecture",
                          map snd (Analyze.arch_rows
                                     (Analyze.tls_grouped (r :: sel)) arch)))
                      (unique (map (fun g => fst (fst g))
                                   (Analyze.tls_grouped (r :: sel)))))
             with
             | inl e => inl e
             | inr drawn =>
                 if (List.length
                       (unique (map tier (Analyze.tls_grouped (r :: sel))))
                     =? 3)%nat
                 then inr (Some {| bar_path := "tls_vs_bandwidth.png";
                                   bar_positions :=
                                     List.length
                                       (unique (map tier (Analyze.tls_grouped
                                                            (r :: sel))));
                                   bars := drawn;
                                   bar_ticks := ["1 Mbps"; "2 Mbps"; "5 Mbps"] |})
                 else inl ValueError
             end).
Proof.
  unfold Analyze.generate_tls_vs_bandwidth_chart, five_loss_free.
  destruct (filter _ data) as [|r sel]; [left|right]; eauto.
Qed.






(* ================================================================== *)
(** * analyze.py: the lists and statistics of the summary              *)
(* ================================================================== *)

Lemma sorted_unique_strict {K} `{KeyLaws K} (l : list K) :
  StronglySorted klt (sorted (unique l))
  /\ forall x, In x (sorted (unique l)) <-> In x l.
Proof.
  split.
  - apply sorted_NoDup_strict; [apply sorted_is_sorted|].
    apply sorted_NoDup, unique_NoDup.
  - intros x. rewrite (sorted_In (unique l) x). apply unique_In.
Qed.

Lemma In_map_iff_exists {A B} (f : A -> B) (l : list A) (y : B) :
  In y (map f l) <-> exists x, In x l /\ f x = y.
Proof. rewrite in_map_iff. split; intros (x & P & Q); eauto. Qed.

(** The lists at the head of the summary: the architecture labels and
    the bandwidth tiers are listed once each, in order of first
    appearance, and the labels are the keys of the per-architecture
    breakdown, in the same order; the viewer counts and the loss rates
    are listed once each in strictly ascending order.  Each list holds
    exactly the values that occur in the data. *)
Theorem summary_lists (data : DataFrame) :
  exists archs viewers losses tiers,
    jget (Analyze.generate_summary_statistics data) "architectures"
      = Some (JList (map JStr archs))
    /\ jget (Analyze.generate_summary_statistics data) "viewer_counts"
       = Some (JList (map JInt64 viewers))
    /\ jget (Analyze.generate_summary_statistics data) "packet_loss_rates"
       = Some (JList (map (fun q => JNum (Num q)) losses))
    /\ jget (Analyze.generate_summary_statistics data) "bandwidth_limits"
       = Some (JList (map JStr tiers))
    /\ NoDup archs
    /\ archs = dict_keys (Analyze.arch_comparison data)
    /\ (forall a, In a archs <-> exists r, In r data /\ architecture r = a)
    /\ StronglySorted Z.lt viewers
    /\ (forall v, In v viewers <-> exists r, In r data /\ numViewers r = v)
    /\ StronglySorted Qclt losses
    /\ (forall l, In l losses <-> exists r, In r data /\ packetLoss r = l)
    /\ NoDup tiers
    /\ (forall t, In t tiers <-> exists r, In r data /\ bandwidth r = t).
Proof.
  exists (unique (map architecture data)),
    (sorted (unique (map numViewers data))),
    (sorted (unique (map packetLoss data))),
    (unique (map bandwidth data)).
  repeat split; try reflexivity.
  - apply unique_NoDup.
  - unfold Analyze.arch_comparison, dict_keys. rewrite map_map. simpl.
    now rewrite map_id.
  - intros I. apply In_map_iff_exists. exact (proj1 (unique_In _ _) I).
  - intros I. apply (proj2 (unique_In _ _)). now apply In_map_iff_exists.
  - eapply strongly_sorted_impl; [apply klt_Z|].
    apply sorted_unique_strict.
  - intros I. apply In_map_iff_exists.
    exact (proj1 (proj2 (sorted_unique_strict _) _) I).
  - intros I. apply (proj2 (proj2 (sorted_unique_strict _) _)).
    now apply In_map_iff_exists.
  - eapply strongly_sorted_impl; [apply klt_Qc|].
    apply sorted_unique_strict.
  - intros I. apply In_map_iff_exists.
    exact (proj1 (proj2 (sorted_unique_strict _) _) I).
  - intros I. apply (proj2 (proj2 (sorted_unique_strict _) _)).
    now apply In_map_iff_exists.
  - apply unique_NoDup.
  - intros I. apply In_map_iff_exists. exact (proj1 (unique_In _ _) I).
  - intros I. apply (proj2 (unique_In _ _)). now apply In_map_iff_exists.
Qed.

Lemma Qc_leb_le (x y : Qc) : Qc_leb x y = true <-> (x <= y)%Qc.
Proof. unfold Qc_leb. apply Qle_bool_iff. Qed.

Lemma Qc_leb_gt (x y : Qc) : Qc_leb x y = false -> (y <= x)%Qc.
Proof.
  intros E. destruct (Qclt_le_dec x y) as [L|L]; [|assumption].
  apply Qclt_le_weak in L. apply Qc_leb_le in L. congruence.
Qed.

Lemma fold_min_spec (t : list Qc) :
  forall x,
    Forall (fun y => fold_left Stats.Qc_min t x <= y)%Qc (x :: t)
    /\ In (fold_left Stats.Qc_min t x) (x :: t).
Proof.
  induction t as [|y t IH]; intros x; simpl.
  - split; [repeat constructor; apply Qcle_refl|auto].
  - destruct (IH (Stats.Qc_min x y)) as [F I].
    inversion F as [|? ? F0 Ft]; subst.
    unfold Stats.Qc_min in *. destruct (Qc_leb x y) eqn:E.
    + apply Qc_leb_le in E. split.
      * constructor; [assumption|]. constructor; [|assumption].
        eapply Qcle_trans; eauto.
      * destruct I as [I|I]; auto.
    + apply Qc_leb_gt in E. split.
      * constructor; [eapply Qcle_trans; eauto|]. constructor; assumption.
      * destruct I as [I|I]; auto.
Qed.

Lemma fold_max_spec (t : list Qc) :
  forall x,
    Forall (fun y => y <= fold_left Stats.Qc_max t x)%Qc (x :: t)
    /\ In (fold_left Stats.Qc_max t x) (x :: t).
Proof.
  induction t as [|y t IH]; intros x; simpl.
  - split; [repeat constructor; apply Qcle_refl|auto].
  - destruct (IH (Stats.Qc_max x y)) as [F I].
    inversion F as [|? ? F0 Ft]; subst.
    unfold Stats.Qc_max in *. destruct (Qc_leb x y) eqn:E.
    + apply Qc_leb_le in E. split.
      * constructor; [eapply Qcle_trans; eauto|]. constructor; assumption.
      * destruct I as [I|I]; auto.
    + apply Qc_leb_gt in E. split.
      * constructor; [assumption|]. constructor; [|assumption].
        eapply Qcle_trans; eauto.
      * destruct I as [I|I]; auto.
Qed.

(** An overall block of the summary, for a column with at least one
    value: the minimum and the maximum are values of the column, and
    every value of the column lies between them. *)
Theorem describe_bounds (x : Qc) (t : list Qc) :
  exists mn mx,
    jget (Analyze.describe (x :: t)) "min" = Some (JNum (Num mn))
    /\ jget (Analyze.describe (x :: t)) "max" = Some (JNum (Num mx))
    /\ In mn (x :: t) /\ In mx (x :: t)
    /\ Forall (fun y => mn <= y /\ y <= mx)%Qc (x :: t).
Proof.
  destruct (fold_min_spec t x) as [Fmin Imin].
  destruct (fold_max_spec t x) as [Fmax Imax].
  exists (fold_left Stats.Qc_min t x), (fold_left Stats.Qc_max t x).
  split; [reflexivity|]. split; [reflexivity|].
  split; [exact Imin|]. split; [exact Imax|].
  rewrite Forall_forall in *. intros y I. split; auto.
Qed.

(* ================================================================== *)
(** * analyze.py: labels read from JSON                                *)
(* ================================================================== *)

Lemma upper_ascii_idem (c : ascii) : upper_ascii (upper_ascii c) = upper_ascii c.
Proof. destruct c as [[] [] [] [] [] [] [] []]; reflexivity. Qed.

Lemma upper_idem (s : string) : upper (upper s) = upper s.
Proof.
  induction s as [|c s IH]; simpl; [reflexivity|].
  now rewrite upper_ascii_idem, IH.
Qed.

Lemma record_of_label (r : Result) (rec : Row) :
  Analyze.record_of r = Some rec -> architecture rec = upper (r_architecture r).
Proof.
  unfold Analyze.record_of. destruct (Analyze.get_success r); [|discriminate].
  destruct (r_metrics r); try discriminate. now intros [= <-].
Qed.

(* ================================================================== *)
(** * create_visualizations.py: the summary of an absent architecture  *)
(* ================================================================== *)

(** In the summary of create_visualizations.py both P2P and SFU always
    have an entry.  An architecture without any record gets a test count
    of 0 and NaN for its three averages; one with records gets a
    positive count and three numbers. *)
Theorem performance_of_absent (data : DataFrame) (arch : string) :
  let arch_data :=
    filter (fun d => String.eqb (lower (architecture d)) (lower arch)) data in
  dict_keys (map (Visualize.performance data) ["P2P"; "SFU"]) = ["P2P"; "SFU"]
  /\ (arch_data = [] ->
      snd (Visualize.performance data arch)
      = JDict [("avg_cpu", JNum NaN); ("avg_latency", JNum NaN);
               ("avg_tls", JNum NaN); ("test_count", JInt 0)])
  /\ (arch_data <> [] ->
      exists c l t n,
        snd (Visualize.performance data arch)
        = JDict [("avg_cpu", JNum (Num c)); ("avg_latency", JNum (Num l));
                 ("avg_tls", JNum (Num t)); ("test_count", JInt n)]
        /\ (0 < n)%Z).
Proof.
  intros arch_data. split; [reflexivity|]. split.
  - intros E. unfold Visualize.performance. fold arch_data. now rewrite E.
  - intros N. unfold Visualize.performance. fold arch_data.
    destruct arch_data as [|r rows]; [congruence|].
    eexists _, _, _, _. split; [reflexivity|]. simpl List.length. lia.
Qed.

(** [performance_of_absent] on a data set with P2P records only. *)
Lemma performance_of_absent_witness :
  snd (Visualize.performance [csv_fields failed_line] "SFU")
  = JDict [("avg_cpu", JNum NaN); ("avg_latency", JNum NaN);
           ("avg_tls", JNum NaN); ("test_count", JInt 0)]
  /\ exists c l t n,
       snd (Visualize.performance [csv_fields failed_line] "P2P")
       = JDict [("avg_cpu", JNum (Num c)); ("avg_latency", JNum (Num l));
                ("avg_tls", JNum (Num t)); ("test_count", JInt n)]
       /\ (0 < n)%Z.
Proof.
  split.
  - apply (proj1 (proj2 (performance_of_absent [csv_fields failed_line] "SFU"))).
    reflexivity.
  - apply (proj2 (proj2 (performance_of_absent [csv_fields failed_line] "P2P"))).
    discriminate.
Defined.

(* ================================================================== *)
(** * create_visualizations.py: the grouping loop and the line charts  *)
(* ================================================================== *)

Section DefaultDictSize.
Context {K V : Type} `{KeyLaws K}.

Lemma dd_size_append (d : list (K * list V)) (k : K) (v : V) :
  dd_size (dd_append d k v) = S (dd_size d).
Proof.
  unfold dd_size. induction d as [|[k0 vs] d IH]; simpl; [reflexivity|].
  destruct (keqb k k0); simpl.
  - rewrite length_app. simpl. lia.
  - rewrite IH. lia.
Qed.

Lemma dd_size_extend (l : list (K * V)) :
  forall d, dd_size (dd_extend d l) = (dd_size d + List.length l)%nat.
Proof.
  unfold dd_extend. induction l as [|[k v] l IH]; intros d; simpl; [lia|].
  rewrite IH, dd_size_append. lia.
Qed.
End DefaultDictSize.

Section GroupedRows.
Context {K : Type} `{KeyLaws K} (key : Row -> K) (val : Row -> Qc).

Lemma dd_rows_key_In (rows : DataFrame) (k : K) :
  In k (dd_keys (dd_extend [] (map (entry key val) rows)))
  <-> exists r, In r rows /\ key r = k.
Proof.
  rewrite dd_keys_extend_In, map_map. simpl.
  rewrite (In_map_iff_exists key). tauto.
Qed.


End GroupedRows.

(** The grouping loop of create_visualizations.py files every row under
    exactly one key of exactly one of the two dicts: a row whose label
    lower-cases to p2p goes to [p2p_data], any other row to [sfu_data].
    Under a key each dict holds the values of its rows of that key, in
    input order; the keys of a dict are distinct; and the two dicts
    together hold as many values as there are rows. *)
Theorem visualize_group_collects {K : Type} `{KeyLaws K}
    (key : Row -> K) (val : Row -> Qc) (data : DataFrame) :
  let p2p_data := fst (Visualize.group key val data) in
  let sfu_data := snd (Visualize.group key val data) in
  (forall k,
      dd_get p2p_data k
      = map val (filter (fun r => Visualize.is_p2p r && keqb (key r) k) data)
      /\ dd_get sfu_data k
         = map val (filter (fun r => negb (Visualize.is_p2p r) && keqb (key r) k)
                           data))
  /\ (dd_size p2p_data + dd_size sfu_data = List.length data)%nat
  /\ NoDup (dd_keys p2p_data) /\ NoDup (dd_keys sfu_data)
  /\ (forall k, In k (dd_keys p2p_data)
                <-> exists r, In r data /\ Visualize.is_p2p r = true /\ key r = k)
  /\ (forall k, In k (dd_keys sfu_data)
                <-> exists r, In r data /\ Visualize.is_p2p r = false /\ key r = k).
Proof.
  intros p2p_data sfu_data. unfold p2p_data, sfu_data.
  rewrite group_spec. simpl fst. simpl snd.
  split; [|split; [|split; [|split; [|split]]]].
  - intros k. rewrite !dd_get_rows. unfold p2p_rows, sfu_rows.
    now rewrite !filter_filter.
  - rewrite !dd_size_extend, !length_map. unfold p2p_rows, sfu_rows.
    apply filter_length_split.
  - apply dd_keys_extend_NoDup. constructor.
  - apply dd_keys_extend_NoDup. constructor.
  - intros k. rewrite dd_rows_key_In. unfold p2p_rows.
    split; intros (r & I & E).
    + apply filter_In in I as [I P]. eauto.
    + destruct E as [P E]. exists r. split; [|assumption].
      apply filter_In. auto.
  - intros k. rewrite dd_rows_key_In. unfold sfu_rows.
    split; intros (r & I & E).
    + apply filter_In in I as [I P]. apply negb_true_iff in P. eauto.
    + destruct E as [P E]. exists r. split; [|assumption].
      apply filter_In. rewrite P. auto.
Qed.

(** [visualize_group_collects] on the two-line scenario, grouped by
    viewer count: the two dicts hold two values together. *)
Lemma visualize_group_collects_witness :
  (dd_size (fst (Visualize.group numViewers avgCpu (Analyze.read_csv scenario)))
   + dd_size (snd (Visualize.group numViewers avgCpu
                                   (Analyze.read_csv scenario)))
   = 2)%nat.
Proof.
  exact (proj1 (proj2 (visualize_group_collects
                         numViewers avgCpu (Analyze.read_csv scenario)))).
Defined.

Lemma visualize_cpu_lines (data : DataFrame) :
  let sel := filter loss_free data in
  let p := dd_extend [] (map (entry numViewers avgCpu) (p2p_rows sel)) in
  let s := dd_extend [] (map (entry numViewers avgCpu) (sfu_rows sel)) in
  lines (Visualize.create_cpu_utilization_chart data)
  = [ {| label := "P2P Architecture"; xs := sorted (dd_keys p);
         ys := Visualize.averages p (sorted (dd_keys p)) |};
      {| label := "SFU Architecture"; xs := sorted (dd_keys s);
         ys := Visualize.averages s (sorted (dd_keys s)) |} ].
Proof.
  unfold Visualize.create_cpu_utilization_chart. now rewrite group_spec.
Qed.

Lemma visualize_latency_lines (data : DataFrame) :
  let sel := filter five_viewers data in
  let p := dd_extend [] (map (entry packetLoss avgLatency) (p2p_rows sel)) in
  let s := dd_extend [] (map (entry packetLoss avgLatency) (sfu_rows sel)) in
  lines (Visualize.create_latency_vs_loss_chart data)
  = [ {| label := "P2P Architecture";
         xs := map (fun l => (l * Analyze.hundred)%Qc) (sorted (dd_keys p));
         ys := Visualize.averages p (sorted (dd_keys p)) |};
      {| label := "SFU Architecture";
         xs := map (fun l => (l * Analyze.hundred)%Qc) (sorted (dd_keys s));
         ys := Visualize.averages s (sorted (dd_keys s)) |} ].
Proof.
  unfold Visualize.create_latency_vs_loss_chart. now rewrite group_spec.
Qed.



(* ================================================================== *)
(** * The lines of the two implementations, side by side               *)
(* ================================================================== *)

Lemma is_p2p_exact (r : Row) :
  exact_label r ->
  Visualize.is_p2p r = keqb (architecture r) "P2P"
  /\ negb (Visualize.is_p2p r) = keqb (architecture r) "SFU".
Proof.
  unfold exact_label, Visualize.is_p2p. intros [E|E]; rewrite E; split; reflexivity.
Qed.

Lemma filter_map_pairs {A B} (p : A -> bool) (f : A -> B) (l : list A) :
  filter (fun e => p (fst e)) (map (fun k => (k, f k)) l)
  = map (fun k => (k, f k)) (filter p l).
Proof.
  induction l as [|k l IH]; simpl; [reflexivity|].
  destruct (p k); simpl; now rewrite IH.
Qed.

Section Agreement.
Context {X : Type} `{KeyLaws X}.
Variables (xof : Row -> X) (col : Row -> Qc) (xcol : X -> X).
Variable rows : DataFrame.
Hypothesis labels : Forall exact_label rows.

Let key (r : Row) : string * X := (architecture r, xof r).
Let grouped : list (string * X * fval) := groupby_mean key col rows.

Let part := rows_of_label rows.

Lemma part_p2p : p2p_rows rows = part "P2P".
Proof.
  unfold p2p_rows, part, rows_of_label. apply filter_ext_in. intros r I.
  rewrite Forall_forall in labels. apply (is_p2p_exact (labels r I)).
Qed.

Lemma part_sfu : sfu_rows rows = part "SFU".
Proof.
  unfold sfu_rows, part, rows_of_label. apply filter_ext_in. intros r I.
  rewrite Forall_forall in labels. apply (is_p2p_exact (labels r I)).
Qed.

Lemma arch_rows_as_map (a : string) :
  Analyze.arch_rows grouped a
  = map (fun k => (k, Stats.mean (map col (rows_with key rows k))))
        (filter (fun k => keqb (fst k) a) (sorted (unique (map key rows)))).
Proof.
  unfold Analyze.arch_rows, grouped, groupby_mean, rows_with.
  apply (filter_map_pairs (fun k : string * X => keqb (fst k) a)).
Qed.

Lemma rows_with_part (a : string) (x : X) :
  rows_with key rows (a, x) = filter (fun r => keqb (xof r) x) (part a).
Proof.
  unfold rows_with, part, rows_of_label. rewrite filter_filter. apply filter_ext.
  intros r. reflexivity.
Qed.

Lemma agree_xs (a : string) :
  map (fun g => snd (fst g)) (Analyze.arch_rows grouped a)
  = sorted (dd_keys (dd_extend [] (map (entry xof col) (part a)))).
Proof.
  apply (sorted_unique (le := kleb) kleb_antisym).
  - eapply strongly_sorted_impl; [|apply (arch_rows_xs_strict xof col rows a)].
    intros x y [L _]. exact L.
  - apply sorted_is_sorted.
  - apply NoDup_Permutation.
    + assert (S : StronglySorted klt
                    (map (fun g => snd (fst g)) (Analyze.arch_rows grouped a)))
        by apply (arch_rows_xs_strict xof col rows a).
      clear - S. induction S as [|x l S IH F]; constructor; [|exact IH].
      intros I. rewrite Forall_forall in F. destruct (F x I) as [_ N].
      now apply N.
    + apply sorted_NoDup, dd_keys_extend_NoDup. constructor.
    + intros x.
      rewrite (sorted_In (dd_keys (dd_extend [] (map (entry xof col) (part a)))) x).
      rewrite dd_rows_key_In.
      unfold grouped, key.
      rewrite <- (map_map fst snd), (arch_rows_keys xof col rows a), in_map_iff.
      split.
      * intros ([b y] & E & I). simpl in E. subst y.
        apply filter_In in I as [I Eb]. simpl in Eb.
        apply String.eqb_eq in Eb. subst b.
        apply (grouped_key_In xof col rows) in I.
        apply in_map_iff in I as (r & [= Ea Ex] & I).
        exists r. split; [|assumption]. apply filter_In.
        split; [assumption|]. rewrite Ea. apply (keqb_refl (K := string)).
      * intros (r & I & <-). apply filter_In in I as [I Ea].
        apply (keqb_eq (K := string)) in Ea. exists (a, xof r).
        split; [reflexivity|]. apply filter_In.
        split; [|apply (keqb_refl (K := string))].
        apply (grouped_key_In xof col rows). apply in_map_iff.
        exists r. split; [|assumption]. unfold key. now rewrite Ea.
Qed.

Lemma agree_ys (a : string) :
  map snd (Analyze.arch_rows grouped a)
  = Visualize.averages
      (dd_extend [] (map (entry xof col) (part a)))
      (sorted (dd_keys (dd_extend [] (map (entry xof col) (part a))))).
Proof.
  rewrite <- agree_xs. rewrite arch_rows_as_map.
  unfold Visualize.averages. rewrite !map_map. apply map_ext_in.
  intros [b x] I. simpl. apply filter_In in I as [_ E]. simpl in E.
  apply String.eqb_eq in E. subst b.
  now rewrite dd_get_rows, rows_with_part.
Qed.

Lemma agree_line (a : string) :
  {| label := String.append a " Architecture";
     xs := map xcol (map (fun g => snd (fst g)) (Analyze.arch_rows grouped a));
     ys := map snd (Analyze.arch_rows grouped a) |}
  = {| label := String.append a " Architecture";
       xs := map xcol
               (sorted (dd_keys (dd_extend [] (map (entry xof col) (part a)))));
       ys := Visualize.averages
               (dd_extend [] (map (entry xof col) (part a)))
               (sorted (dd_keys (dd_extend [] (map (entry xof col) (part a))))) |}.
Proof. now rewrite agree_xs, agree_ys. Qed.

Lemma grouped_arch_exact (a : string) :
  In a (unique (map (fun g => fst (fst g)) grouped)) -> a = "P2P" \/ a = "SFU".
Proof.
  intros I. apply (proj1 (unique_In _ a)) in I.
  apply (grouped_arch_In xof col rows) in I.
  apply in_map_iff in I as (r & <- & I).
  rewrite Forall_forall in labels. exact (labels r I).
Qed.

Lemma part_keys_nonempty (a : string) :
  sorted (dd_keys (dd_extend [] (map (entry xof col) (part a)))) <> [] ->
  In a (unique (map (fun g => fst (fst g)) grouped)).
Proof.
  intros N.
  destruct (sorted (dd_keys (dd_extend [] (map (entry xof col) (part a)))))
    as [|x l] eqn:E; [congruence|].
  assert (I : In x (sorted (dd_keys (dd_extend [] (map (entry xof col) (part a))))))
    by (rewrite E; now left).
  apply (sorted_In (dd_keys (dd_extend [] (map (entry xof col) (part a)))) x) in I.
  apply dd_rows_key_In in I as (r & I & _). apply filter_In in I as [I Ea].
  apply (keqb_eq (K := string)) in Ea. subst a.
  apply unique_In. apply (grouped_arch_In xof col rows). now apply in_map.
Qed.
End Agreement.

Lemma series_agree {X} `{KeyLaws X} (xof : Row -> X) (col : Row -> Qc)
    (xcol : X -> X) (rows : DataFrame) :
  Forall exact_label rows ->
  let line (part : DataFrame) (name : string) :=
    let d := dd_extend [] (map (entry xof col) part) in
    {| label := name; xs := map xcol (sorted (dd_keys d));
       ys := Visualize.averages d (sorted (dd_keys d)) |} in
  let theirs := [ line (p2p_rows rows) "P2P Architecture";
                  line (sfu_rows rows) "SFU Architecture" ] in
  let ours := Analyze.series xcol
                (groupby_mean (fun r => (architecture r, xof r)) col rows) in
  (forall l, In l ours -> In l theirs)
  /\ (forall l, In l theirs -> xs l <> [] -> In l ours).
Proof.
  intros L line theirs ours. unfold ours, theirs, line.
  rewrite series_lines, (part_p2p L), (part_sfu L). split.
  - intros l I. apply in_map_iff in I as (a & <- & I).
    rewrite (agree_line xof col xcol rows a).
    destruct (grouped_arch_exact xof col L a I) as [-> | ->]; simpl; auto.
  - intros l [<-|[<-|[]]] N; simpl in N; apply in_map_iff.
    + exists "P2P". split; [now rewrite (agree_line xof col xcol rows "P2P")|].
      apply (part_keys_nonempty xof col rows "P2P").
      intros E. apply N. now rewrite E.
    + exists "SFU". split; [now rewrite (agree_line xof col xcol rows "SFU")|].
      apply (part_keys_nonempty xof col rows "SFU").
      intros E. apply N. now rewrite E.
Qed.

Lemma filter_Forall {A} (P : A -> Prop) (f : A -> bool) (l : list A) :
  Forall P l -> Forall P (filter f l).
Proof.
  rewrite !Forall_forall. intros F x I. apply filter_In in I as [I _]. auto.
Qed.

(* ================================================================== *)
(** * The bars of an architecture measured at the three tiers          *)
(* ================================================================== *)

Lemma repeat_NoDup {A} (x : A) (n : nat) : NoDup (repeat x n) -> (n <= 1)%nat.
Proof.
  destruct n as [|[|n]]; [lia|lia|]. simpl. intros N.
  inversion N as [|? ? Nx _]. subst. exfalso. apply Nx. now left.
Qed.

Lemma NoDup_app_l {A} (l l' : list A) : NoDup (l ++ l') -> NoDup l.
Proof.
  induction l as [|x l IH]; simpl; intros N; constructor;
    inversion N as [|? ? Nx Nl]; subst.
  - intros I. apply Nx, in_or_app. now left.
  - now apply IH.
Qed.

Lemma NoDup_app_r {A} (l l' : list A) : NoDup (l ++ l') -> NoDup l'.
Proof.
  induction l as [|x l IH]; simpl; intros N; [assumption|].
  inversion N. subst. now apply IH.
Qed.

(** A duplicate-free tier column sorted by rate that holds all three
    tiers is exactly 1mbit, 2mbit, 5mbit. *)
Lemma three_tiers (l : list (string * string * fval)) :
  StronglySorted (le_rel rate_leb) l ->
  Forall (fun g => tier g = "1mbit" \/ tier g = "2mbit" \/ tier g = "5mbit") l ->
  NoDup (map tier l) ->
  (forall t, In t ["1mbit"; "2mbit"; "5mbit"] -> In t (map tier l)) ->
  map tier l = ["1mbit"; "2mbit"; "5mbit"].
Proof.
  intros S T N A.
  destruct (sorted_tiers_shape S T) as (a & b & c & E). rewrite E in *.
  assert (Ha : (a <= 1)%nat)
    by (apply (@repeat_NoDup string "1mbit"); eapply NoDup_app_l; exact N).
  assert (Hb : (b <= 1)%nat)
    by (apply (@repeat_NoDup string "2mbit"); eapply NoDup_app_l;
        eapply NoDup_app_r; exact N).
  assert (Hc : (c <= 1)%nat)
    by (apply (@repeat_NoDup string "5mbit"); eapply NoDup_app_r;
        eapply NoDup_app_r; exact N).
  assert (I1 := A "1mbit" (or_introl eq_refl)).
  assert (I2 := A "2mbit" (or_intror (or_introl eq_refl))).
  assert (I5 := A "5mbit" (or_intror (or_intror (or_introl eq_refl)))).
  destruct a as [|[|a]], b as [|[|b]], c as [|[|c]]; try lia; simpl in *;
    try reflexivity; exfalso;
    repeat match goal with
           | H : _ \/ _ |- _ => destruct H
           | H : False |- _ => destruct H
           | H : _ = _ |- _ => discriminate H
           end.
Qed.

Lemma grouped_values {K} `{KeyLaws K} (key : Row -> K) (col : Row -> Qc)
    (rows : DataFrame) (l : list (K * fval)) :
  (forall e, In e l -> In e (groupby_mean key col rows)) ->
  map snd l
  = map (fun k => Stats.mean (map col (rows_with key rows k))) (map fst l).
Proof.
  induction l as [|[k v] l IH]; intros I; simpl; [reflexivity|].
  f_equal.
  - now apply (groupby_mean_In key col rows k v), I; left.
  - apply IH. intros e Ie. apply I. now right.
Qed.

(** The bars analyze.py draws for an architecture measured at the three
    tiers: the means at 1mbit, 2mbit and 5mbit, in this order. *)
Lemma tls_heights (sel : DataFrame) (a : string) :
  Forall known_tier sel ->
  (forall t, In t ["1mbit"; "2mbit"; "5mbit"] ->
             exists r, In r sel /\ architecture r = a /\ bandwidth r = t) ->
  map snd (Analyze.arch_rows (Analyze.tls_grouped sel) a)
  = map (fun t => Stats.mean (map avgTls
                    (filter (fun r => keqb (bandwidth r) t)
                            (rows_of_label sel a))))
        ["1mbit"; "2mbit"; "5mbit"].
Proof.
  intros Tsel Arows.
  set (g := Analyze.tls_grouped sel).
  set (l := Analyze.arch_rows g a).
  assert (Ig : forall x, In x g ->
               In x (groupby_mean (fun x => (architecture x, bandwidth x))
                                  avgTls sel)).
  { intros x. apply Permutation_in, tls_grouped_Permutation_groupby. }
  assert (Il : forall e, In e l -> In e g /\ fst (fst e) = a).
  { intros e I. apply filter_In in I as [I Ea].
    apply (keqb_eq (K := string)) in Ea. auto. }
  assert (Tiers : map tier l = ["1mbit"; "2mbit"; "5mbit"]).
  { apply three_tiers.
    - apply filter_sorted, tls_grouped_sorted.
    - apply Forall_forall. intros e I. apply Il in I as [I _].
      apply tls_grouped_tier_In in I.
      apply in_map_iff in I as (r & Er & I). rewrite Forall_forall in Tsel.
      specialize (Tsel r I). unfold known_tier in Tsel. now rewrite Er in Tsel.
    - apply tls_arch_rows_tiers_NoDup.
    - intros t It. destruct (Arows t It) as (r & I & Ea & Et).
      assert (Ik : In (a, t) (map fst (groupby_mean
                       (fun x => (architecture x, bandwidth x)) avgTls sel))).
      { apply (grouped_key_In bandwidth avgTls sel). apply in_map_iff.
        exists r. split; [now rewrite Ea, Et|assumption]. }
      apply in_map_iff in Ik as (e & Ee & Ie).
      apply in_map_iff. exists e. split; [unfold tier; now rewrite Ee|].
      apply filter_In. split.
      + eapply Permutation_in; [symmetry; apply tls_grouped_Permutation_groupby|].
        exact Ie.
      + rewrite Ee. apply (keqb_refl (K := string)). }
  assert (Keys : map fst l = [(a, "1mbit"); (a, "2mbit"); (a, "5mbit")]).
  { assert (Ka : forall e, In e l -> fst e = (a, tier e)).
    { intros [[b t] v] I. apply Il in I as [_ Eb]. simpl in *. now subst. }
    rewrite (map_ext_in fst (fun e => (a, tier e)) l Ka).
    rewrite <- (map_map tier (fun t => (a, t))), Tiers. reflexivity. }
  rewrite (grouped_values (fun x => (architecture x, bandwidth x)) avgTls sel l)
    by (intros e I; apply Ig; now apply Il).
  rewrite Keys. simpl map.
  now rewrite !(rows_with_part bandwidth sel a).
Qed.


(* ================================================================== *)
(** * generate_sample_data.py: the loops                             *)
(* ================================================================== *)

Section Loops.
Context {A St : Type}.

Lemma for_each_app (l l' : list A) (body : A -> St -> Generator.M St)
    (s : St) (n : nat) :
  Generator.for_each (l ++ l') body s n
  = match Generator.for_each l body s n with
    | (inr s', n') => Generator.for_each l' body s' n'
    | (inl e, n') => (inl e, n')
    end.
Proof.
  revert s n. induction l as [|x l IH]; intros s n; simpl; [reflexivity|].
  unfold Generator.bind.
  destruct (body x s n) as [[e|s'] n']; [reflexivity|apply IH].
Qed.

Lemma for_each_ext (l : list A) (body body' : A -> St -> Generator.M St) :
  (forall x s n, body x s n = body' x s n) ->
  forall s n, Generator.for_each l body s n = Generator.for_each l body' s n.
Proof.
  intros E. induction l as [|x l IH]; intros s n; simpl; [reflexivity|].
  unfold Generator.bind. rewrite E.
  destruct (body' x s n) as [[e|s'] n']; auto.
Qed.

Lemma for_each_map {B} (g : B -> A) (l : list B)
    (body : A -> St -> Generator.M St) :
  forall s n,
    Generator.for_each (map g l) body s n
    = Generator.for_each l (fun y => body (g y)) s n.
Proof.
  induction l as [|x l IH]; intros s n; simpl; [reflexivity|].
  unfold Generator.bind. destruct (body (g x) s n) as [[e|s'] n']; auto.
Qed.
End Loops.

Lemma for_each_prod {A B S} (l : list A) (l' : list B)
    (body : A * B -> S -> Generator.M S) :
  forall s n,
    Generator.for_each l
      (fun x => Generator.for_each l' (fun y => body (x, y))) s n
    = Generator.for_each (list_prod l l') body s n.
Proof.
  induction l as [|x l IH]; intros s n; simpl; [reflexivity|].
  rewrite for_each_app, for_each_map. unfold Generator.bind.
  destruct (Generator.for_each l' (fun y => body (x, y)) s n) as [[e|s'] n'];
    [reflexivity|apply IH].
Qed.

(** The four nested loops are one loop over the design. *)
Lemma loops_flat (rng : Generator.Random) (s : list Generator.Sample * Z)
    (n : nat) :
  Generator.for_each Generator.architectures (fun architecture =>
    Generator.for_each Generator.num_viewers (fun viewers =>
      Generator.for_each Generator.packet_loss_rates (fun packet_loss =>
        Generator.for_each Generator.bandwidth_limits (fun bandwidth =>
          Generator.step rng architecture viewers packet_loss bandwidth))))
    s n
  = Generator.for_each (design Generator.architectures) (step_at rng) s n.
Proof.
  unfold design. rewrite <- for_each_prod. apply for_each_ext. intros a s1 n1.
  rewrite <- for_each_prod. apply for_each_ext. intros v s2 n2.
  rewrite <- for_each_prod. reflexivity.
Qed.

(** One pass of the loop body on a bandwidth of the table: no exception,
    ten random draws, and the entries that do not depend on the draws. *)
Lemma simulate_returns (rng : Generator.Random)
    (c : string * (Z * (Qc * string))) (id : Z) (n : nat) :
  In (snd (snd (snd c))) Generator.bandwidth_limits ->
  exists s, simulate_at rng c id n = (inr s, (10 + n)%nat)
            /\ settings s = lowered c
            /\ Generator.s_testId s = id
            /\ stamped s.
Proof.
  destruct c as (a & v & p & b). unfold simulate_at. cbn [fst snd].
  intros [<-|[<-|[<-|[]]]];
    unfold Generator.simulate; destruct (String.eqb a "P2P");
    (eexists; split; [reflexivity|]);
    (split; [reflexivity|]); (split; [reflexivity|]);
    unfold stamped; cbn -[Z.add Z.mul Z.modulo];
    repeat split;
    match goal with
    | |- context [(?x mod ?m)%Z] => pose proof (Z.mod_pos_bound x m); lia
    | _ => idtac
    end.
Qed.

Lemma loop_invariant (rng : Generator.Random)
    (P : Generator.Sample -> Prop) (Q : string * (Z * (Qc * string)) -> Prop) :
  (forall c id n, Q c ->
     exists s, simulate_at rng c id n = (inr s, (10 + n)%nat)
               /\ settings s = lowered c
               /\ Generator.s_testId s = id
               /\ P s) ->
  forall cs, Forall Q cs ->
  forall results id n,
    exists new,
      Generator.for_each cs (step_at rng) (results, id) n
      = (inr (results ++ new, (id + Z.of_nat (List.length cs))%Z),
         (10 * List.length cs + n)%nat)
      /\ map settings new = map lowered cs
      /\ map Generator.s_testId new
         = map (fun i => (id + Z.of_nat i)%Z) (seq 0 (List.length cs))
      /\ Forall P new.
Proof.
  intros Sim cs F. induction F as [|c cs Qc F IH]; intros results id n.
  - exists []. simpl. rewrite app_nil_r, Z.add_0_r. repeat split. constructor.
  - destruct (Sim c id n Qc) as (s & E & Es & Ei & Ps).
    destruct (IH (results ++ [s]) (id + 1)%Z (10 + n)%nat)
      as (new & E' & Es' & Ei' & Pn).
    exists (s :: new). split; [|split; [|split]].
    + cbn [Generator.for_each]. unfold Generator.bind at 1.
      unfold step_at at 1, Generator.step. unfold Generator.bind at 1.
      unfold simulate_at in E. rewrite E. unfold Generator.ret at 1.
      rewrite E', <- app_assoc. cbn [app List.length].
      f_equal; [f_equal; f_equal; lia|lia].
    + cbn [map]. now rewrite Es, Es'.
    + cbn [map List.length seq]. rewrite Ei, Z.add_0_r, Ei'. f_equal.
      rewrite <- seq_shift, map_map. apply map_ext. intros i. lia.
    + now constructor.
Qed.

Lemma design_tiers (archs : list string) :
  Forall (fun c => In (snd (snd (snd c))) Generator.bandwidth_limits)
         (design archs).
Proof.
  apply Forall_forall. intros (a & v & p & b) I. unfold design in I.
  apply in_prod_iff in I as [_ I]. apply in_prod_iff in I as [_ I].
  apply in_prod_iff in I as [_ I]. exact I.
Qed.

Lemma design_lowered (archs : list string) :
  map lowered (design archs) = design (map lower archs).
Proof.
  unfold design. generalize (list_prod Generator.num_viewers
    (list_prod Generator.packet_loss_rates Generator.bandwidth_limits)).
  intros l. induction archs as [|a archs IH]; simpl; [reflexivity|].
  rewrite map_app, IH, !map_map. reflexivity.
Qed.

Lemma generated (rng : Generator.Random) (P : Generator.Sample -> Prop)
    (Q : string * (Z * (Qc * string)) -> Prop) (n : nat) :
  (forall c id n, Q c ->
     exists s, simulate_at rng c id n = (inr s, (10 + n)%nat)
               /\ settings s = lowered c
               /\ Generator.s_testId s = id
               /\ P s) ->
  Forall Q (design Generator.architectures) ->
  exists results,
    Generator.generate_sample_results rng n = (inr results, (2400 + n)%nat)
    /\ map settings results = design (map lower Generator.architectures)
    /\ map Generator.s_testId results = map Z.of_nat (seq 1 240)
    /\ Forall P results.
Proof.
  intros Sim F.
  destruct (@loop_invariant rng P Q Sim _ F [] 1%Z n) as (new & E & Es & Ei & Pn).
  exists new. unfold Generator.generate_sample_results.
  unfold Generator.bind at 1. rewrite loops_flat, E. cbn [app fst].
  split; [reflexivity|]. split; [now rewrite Es, design_lowered|].
  split; [|exact Pn]. rewrite Ei. reflexivity.
Qed.

Lemma rates_NoDup : NoDup Generator.packet_loss_rates.
Proof.
  apply (NoDup_map_inv this). vm_compute.
  repeat (constructor; [simpl; intuition discriminate|]). constructor.
Qed.

Lemma NoDup_list_prod {A B} (l : list A) (l' : list B) :
  NoDup l -> NoDup l' -> NoDup (list_prod l l').
Proof.
  intros N N'. induction N as [|x l Nx N IH]; simpl; [constructor|].
  apply NoDup_app; [|exact IH|].
  - clear - N'. induction N' as [|y l' Ny N' IH]; simpl; constructor;
      [|exact IH].
    intros I. apply in_map_iff in I as (z & [= <-] & I). now apply Ny.
  - intros [a b] I I'. apply in_map_iff in I as (z & [= <- <-] & _).
    apply in_prod_iff in I' as [I' _]. now apply Nx.
Qed.

Lemma design_NoDup (archs : list string) : NoDup archs -> NoDup (design archs).
Proof.
  intros N. unfold design.
  apply NoDup_list_prod; [exact N|]. apply NoDup_list_prod.
  - repeat (constructor; [simpl; intuition discriminate|]). constructor.
  - apply NoDup_list_prod; [exact rates_NoDup|].
    repeat (constructor; [simpl; intuition discriminate|]). constructor.
Qed.

(** [generate_sample_results] never raises.  Whatever the random numbers,
    it makes 2400 draws and returns 240 results: one for every
    combination of architecture, viewer count, loss rate and bandwidth,
    each combination once, in the order of the four nested loops, with
    lower-case architecture names; the test ids count 1, 2, ..., 240;
    every result is marked successful, carries its id in the session id
    and the time stamps, is completed a minute after it started, and
    counts 100 to 120 latency samples. *)
Theorem generator_full_factorial (rng : Generator.Random) (n : nat) :
  exists results,
    Generator.generate_sample_results rng n = (inr results, (2400 + n)%nat)
    /\ map settings results
       = list_prod ["p2p"; "sfu"]
           (list_prod Generator.num_viewers
              (list_prod Generator.packet_loss_rates
                         Generator.bandwidth_limits))
    /\ List.length results = 240%nat
    /\ NoDup (map settings results)
    /\ map Generator.s_testId results = map Z.of_nat (seq 1 240)
    /\ Forall stamped results.
Proof.
  destruct (@generated rng stamped _ n (simulate_returns rng)
                        (design_tiers Generator.architectures))
    as (results & E & Es & Ei & St).
  exists results. split; [exact E|]. split; [exact Es|].
  split; [|split; [|split; [exact Ei|exact St]]].
  - rewrite <- (length_map settings), Es. reflexivity.
  - rewrite Es. apply design_NoDup.
    repeat (constructor; [simpl; intuition discriminate|]). constructor.
Qed.

(* ================================================================== *)
(** * generate_sample_data.py: the simulated values                  *)
(* ================================================================== *)

Ltac to_Q :=
  unfold Qcle, Qclt, Qcminus, Qcplus, Qcmult, Qcopp, Q2Qc in *;
  cbn [this] in *; rewrite ?Qred_correct in *.

Section Bounds.
Local Open Scope Qc_scope.

Lemma mul_pos (x f : Qc) : 0 < x -> 0 < f -> 0 < x * f.
Proof. destruct x as [x ?], f as [f ?]. to_Q. intros. nra. Qed.

Lemma mul_nonneg (x y : Qc) : 0 <= x -> 0 <= y -> 0 <= x * y.
Proof. destruct x as [x ?], y as [y ?]. to_Q. intros. nra. Qed.

Lemma mul_le (x f g : Qc) : 0 < x -> f <= g -> x * f <= x * g.
Proof. destruct x as [x ?], f as [f ?], g as [g ?]. to_Q. intros. nra. Qed.

Lemma mul_le_1 (x f : Qc) : 0 < x -> f <= 1 -> x * f <= x.
Proof. destruct x as [x ?], f as [f ?]. to_Q. intros. nra. Qed.

Lemma mul_ge_1 (x f : Qc) : 0 < x -> 1 <= f -> x <= x * f.
Proof. destruct x as [x ?], f as [f ?]. to_Q. intros. nra. Qed.

Lemma sum3_pos (a b c : Qc) : 0 < a -> 0 <= b -> 0 <= c -> 0 < a + b + c.
Proof.
  destruct a as [a ?], b as [b ?], c as [c ?]. to_Q. intros. lra.
Qed.

Lemma sum4_pos (a b c d : Qc) :
  0 < a -> 0 <= b -> 0 <= c -> 0 <= d -> 0 < a + b + c + d.
Proof.
  destruct a as [a ?], b as [b ?], c as [c ?], d as [d ?]. to_Q. intros. lra.
Qed.

(** [a + (b - a) * u] for [u] from 0 to 1 lies between [a] and [b]. *)
Lemma draw_le (a b c u : Qc) :
  a <= b -> b <= c -> 0 <= u /\ u <= 1 -> a + (b - a) * u <= c.
Proof.
  destruct a as [a ?], b as [b ?], c as [c ?], u as [u ?]. to_Q.
  intros ? ? []. nra.
Qed.

Lemma draw_ge (a b c u : Qc) :
  a <= b -> c <= a -> 0 <= u /\ u <= 1 -> c <= a + (b - a) * u.
Proof.
  destruct a as [a ?], b as [b ?], c as [c ?], u as [u ?]. to_Q.
  intros ? ? []. nra.
Qed.

Lemma draw_pos (a b u : Qc) :
  a <= b -> 0 < a -> 0 <= u /\ u <= 1 -> 0 < a + (b - a) * u.
Proof.
  destruct a as [a ?], b as [b ?], u as [u ?]. to_Q. intros ? ? []. nra.
Qed.

Lemma draw_draw (a b a' b' u u' : Qc) :
  a <= b -> b <= a' -> a' <= b' ->
  0 <= u /\ u <= 1 -> 0 <= u' /\ u' <= 1 ->
  a + (b - a) * u <= a' + (b' - a') * u'.
Proof.
  intros. apply Qcle_trans with b; [apply draw_le; auto; apply Qcle_refl|].
  apply Qcle_trans with a'; [assumption|]. apply draw_ge; auto.
  apply Qcle_refl.
Qed.

Lemma of_int_pos (z : Z) : (0 < z)%Z -> 0 < Generator.of_int z.
Proof.
  unfold Generator.of_int. to_Q. unfold Qlt. simpl. lia.
Qed.

Lemma of_int_nonneg (z : Z) : (0 <= z)%Z -> 0 <= Generator.of_int z.
Proof.
  unfold Generator.of_int. to_Q. unfold Qle. simpl. lia.
Qed.
End Bounds.

Ltac closed := vm_compute; first [reflexivity | discriminate].

Ltac bound U Hv Hp :=
  lazymatch goal with
  | |- _ /\ _ => split; bound U Hv Hp
  | |- (Q2Qc 0 < _ + (_ - _) * Generator.unit_draw _ _)%Qc =>
      apply draw_pos; [closed|closed|apply U]
  | |- (Q2Qc 0 < Generator.of_int _)%Qc => apply of_int_pos; lia
  | |- (Q2Qc 0 < Generator.frac _ _)%Qc => closed
  | |- (Q2Qc 0 < _ + _ + _ + _)%Qc => apply sum4_pos; bound U Hv Hp
  | |- (Q2Qc 0 < _ + _ + _)%Qc => apply sum3_pos; bound U Hv Hp
  | |- (Q2Qc 0 < _ * _)%Qc => apply mul_pos; bound U Hv Hp
  | |- (Q2Qc 0 <= Generator.of_int _)%Qc => apply of_int_nonneg; lia
  | |- (Q2Qc 0 <= Generator.frac _ _)%Qc => closed
  | |- (Q2Qc 0 <= _ * _)%Qc => apply mul_nonneg; bound U Hv Hp
  | |- (Q2Qc 0 <= _)%Qc => exact Hp
  | |- (?x * _ <= ?x * _)%Qc => apply mul_le; bound U Hv Hp
  | |- (?x * _ <= ?x)%Qc => apply mul_le_1; bound U Hv Hp
  | |- (?x <= ?x * _)%Qc => apply mul_ge_1; bound U Hv Hp
  | |- (_ + (_ - _) * Generator.unit_draw _ _
        <= _ + (_ - _) * Generator.unit_draw _ _)%Qc =>
      apply draw_draw; [closed|closed|closed|apply U|apply U]
  | |- (_ + (_ - _) * Generator.unit_draw _ _ <= _)%Qc =>
      apply draw_le; [closed|closed|apply U]
  | |- (_ <= _ + (_ - _) * Generator.unit_draw _ _)%Qc =>
      apply draw_ge; [closed|closed|apply U]
  | |- (_ <= _)%Qc => closed
  end.

Lemma simulate_plausible (rng : Generator.Random)
    (c : string * (Z * (Qc * string))) (id : Z) (n : nat) :
  in_unit rng ->
  admissible c ->
  exists s, simulate_at rng c id n = (inr s, (10 + n)%nat)
            /\ settings s = lowered c
            /\ Generator.s_testId s = id
            /\ plausible s.
Proof.
  intros U. destruct c as (a & v & p & b). unfold admissible, simulate_at.
  cbn [fst snd]. intros (Hv & Hp & Hb).
  destruct Hb as [<-|[<-|[<-|[]]]];
    unfold Generator.simulate; destruct (String.eqb a "P2P");
    (eexists; split; [reflexivity|]);
    (split; [reflexivity|]); (split; [reflexivity|]);
    unfold plausible;
    cbn [Generator.s_latency_min Generator.s_latency_average
         Generator.s_latency_max Generator.s_latency_median
         Generator.s_cpu_min Generator.s_cpu_average Generator.s_cpu_max
         Generator.s_tls_min Generator.s_tls_average Generator.s_tls_max fst snd];
    bound U Hv Hp.
Qed.

Lemma design_admissible :
  Forall admissible (design Generator.architectures).
Proof.
  apply Forall_forall. intros (a & v & p & b) I. unfold design in I.
  apply in_prod_iff in I as [_ I]. apply in_prod_iff in I as [Iv I].
  apply in_prod_iff in I as [Ip Ib]. unfold admissible. cbn [fst snd].
  split; [|split; [|exact Ib]].
  - unfold Generator.num_viewers in Iv. simpl in Iv.
    decompose [or] Iv; subst; try lia; contradiction.
  - unfold Generator.packet_loss_rates in Ip. simpl in Ip.
    decompose [or] Ip; subst; try contradiction; closed.
Qed.

(** With draws of [random()] between 0 and 1, every generated result is
    plausible: the latency minimum is positive, minimum, average and
    maximum are in this order and the median lies between minimum and
    maximum; the same order holds for the CPU and the legibility
    figures, whose minima are positive as well. *)
Theorem generator_plausible (rng : Generator.Random) (n : nat) :
  in_unit rng ->
  exists results,
    Generator.generate_sample_results rng n = (inr results, (2400 + n)%nat)
    /\ Forall plausible results.
Proof.
  intros U.
  destruct (@generated rng plausible admissible n
              (fun c id k => @simulate_plausible rng c id k U)
              design_admissible) as (results & E & _ & _ & P).
  exists results. split; [exact E|exact P].
Qed.

Lemma generator_plausible_witness :
  in_unit fair
  /\ exists results,
       Generator.generate_sample_results fair 0%nat = (inr results, 2400%nat)
       /\ Forall plausible results.
Proof.
  assert (U : in_unit fair) by (intros i; split; closed).
  split; [exact U|]. exact (generator_plausible 0%nat U).
Defined.

(** ** The two files *)

Lemma records_of_samples (results : list Generator.Sample) :
  Forall (fun s => Generator.s_success s = true) results ->
  Analyze.records_of (map Generator.to_result results)
  = Analyze.read_csv (map Generator.csv_row results).
Proof.
  induction 1 as [|s results E F IH]; simpl; [reflexivity|].
  unfold Analyze.record_of, Analyze.get_success. simpl. rewrite E.
  f_equal. exact IH.
Qed.

Lemma csv_conditions (results : list Generator.Sample) :
  map conditions (Analyze.read_csv (map Generator.csv_row results))
  = map (fun c => (upper (fst c), snd c)) (map settings results).
Proof.
  unfold Analyze.read_csv. rewrite !map_map. reflexivity.
Qed.

Lemma saved_sample (rng : Generator.Random) (n : nat) :
  exists results,
    Generator.generate_sample_results rng n = (inr results, (2400 + n)%nat)
    /\ Generator.save_sample_data rng n
       = (inr {| Generator.meta_timestamp := 1700000000000;
                 Generator.meta_totalTests := 240;
                 Generator.json_results := results;
                 Generator.csv_data := map Generator.csv_row results;
                 Generator.returned := results |}, (2400 + n)%nat)
    /\ map settings results = design (map lower Generator.architectures)
    /\ map Generator.s_testId results = map Z.of_nat (seq 1 240)
    /\ Forall stamped results.
Proof.
  destruct (@generated rng stamped _ n (simulate_returns rng)
                        (design_tiers Generator.architectures))
    as (results & E & Es & Ei & St).
  exists results. split; [exact E|]. split; [|auto].
  unfold Generator.save_sample_data. unfold Generator.bind at 1. rewrite E.
  assert (L : List.length results = 240%nat)
    by (rewrite <- (length_map settings), Es; reflexivity).
  destruct results as [|s results]; [discriminate L|].
  cbn [map]. unfold Generator.ret. rewrite L. reflexivity.
Qed.

(** [save_sample_data] never raises, whatever the random numbers.  The
    metadata of the JSON document counts 240 tests, which is the number
    of results in the document, of lines in the CSV file and of results
    returned; the CSV lines are marked successful and carry the labels
    P2P and SFU in upper case.  Both files describe the same frame:
    analyze.py loads the same rows from the JSON document alone as from
    the CSV file, and create_visualizations.py loads these rows too;
    their test ids are 1, 2, ..., 240. *)
Theorem sample_files_agree (rng : Generator.Random) (n : nat) :
  exists saved data,
    Generator.save_sample_data rng n = (inr saved, (2400 + n)%nat)
    /\ Generator.meta_totalTests saved = 240%Z
    /\ List.length (Generator.json_results saved) = 240%nat
    /\ List.length (Generator.csv_data saved) = 240%nat
    /\ Generator.returned saved = Generator.json_results saved
    /\ Forall (fun l => csv_success l = Some true
                        /\ exact_label (csv_fields l))
              (Generator.csv_data saved)
    /\ Analyze.load_data (Generator.results_dir saved) = (Some data, inr data)
    /\ Analyze.load_data (json_only saved) = (Some data, inr data)
    /\ Visualize.load_data (results_csv (Generator.results_dir saved)) = data
    /\ map testId data = map Z.of_nat (seq 1 240).
Proof.
  destruct (saved_sample rng n) as (results & _ & E & Es & Ei & St).
  assert (L : List.length results = 240%nat)
    by (rewrite <- (length_map settings), Es; reflexivity).
  assert (Ok : Forall (fun s => Generator.s_success s = true) results).
  { eapply Forall_impl; [|exact St]. now intros s []. }
  eexists _, (Analyze.read_csv (map Generator.csv_row results)).
  split; [exact E|]. cbn [Generator.meta_totalTests Generator.json_results
                          Generator.csv_data Generator.returned].
  split; [reflexivity|]. split; [exact L|].
  split; [now rewrite length_map|]. split; [reflexivity|].
  split; [|split; [reflexivity|split; [|split; [reflexivity|]]]].
  - apply Forall_forall. intros l I. apply in_map_iff in I as (s & <- & I).
    rewrite Forall_forall in Ok. cbn. rewrite (Ok s I). split; [reflexivity|].
    assert (Is : In (settings s) (design (map lower Generator.architectures)))
      by (rewrite <- Es; now apply in_map).
    unfold design in Is. destruct (settings s) as (a & rest) eqn:S.
    apply in_prod_iff in Is as [Ia _]. unfold settings in S.
    injection S as Ea _. unfold exact_label. cbn. rewrite Ea.
    simpl in Ia. destruct Ia as [<-|[<-|[]]]; [left|right]; reflexivity.
  - unfold json_only, Analyze.load_data. cbn.
    rewrite (records_of_samples Ok).
    destruct results as [|s results]; [discriminate L|]. reflexivity.
  - unfold Analyze.read_csv. rewrite !map_map. cbn. exact Ei.
Qed.

(* ================================================================== *)
(** * The sample data as input of the two scripts                    *)
(* ================================================================== *)

Lemma filter_through {A B} (h : A -> B) (g : B -> bool) (l : list A) :
  map h (filter (fun x => g (h x)) l) = filter g (map h l).
Proof.
  induction l as [|x l IH]; simpl; [reflexivity|].
  destruct (g (h x)); simpl; now rewrite IH.
Qed.

Lemma map_insert {A B} (f : A -> B) (le : A -> A -> bool)
    (le' : B -> B -> bool) (x : A) (l : list A) :
  (forall x y, le x y = le' (f x) (f y)) ->
  map f (insert le x l) = insert le' (f x) (map f l).
Proof.
  intros E. induction l as [|y l IH]; simpl; [reflexivity|].
  rewrite <- E. destruct (le x y); simpl; now rewrite ?IH.
Qed.

Lemma map_sort {A B} (f : A -> B) (le : A -> A -> bool)
    (le' : B -> B -> bool) (l : list A) :
  (forall x y, le x y = le' (f x) (f y)) ->
  map f (sort le l) = sort le' (map f l).
Proof.
  intros E. induction l as [|x l IH]; simpl; [reflexivity|].
  now rewrite (map_insert f le le' _ _ E), IH.
Qed.

Lemma tls_grouped_keys (tls_data : DataFrame) :
  map fst (Analyze.tls_grouped tls_data)
  = sort (fun k1 k2 =>
            Analyze.bandwidthNum_leb (Analyze.bandwidth_order (snd k1))
                                     (Analyze.bandwidth_order (snd k2)))
         (sorted (unique (map (fun r => (architecture r, bandwidth r))
                              tls_data))).
Proof.
  unfold Analyze.tls_grouped.
  rewrite (map_sort fst _
             (fun k1 k2 =>
                Analyze.bandwidthNum_leb (Analyze.bandwidth_order (snd k1))
                                         (Analyze.bandwidth_order (snd k2))))
    by reflexivity.
  now rewrite groupby_mean_keys.
Qed.

(** ** A frame on the grid of the sample data *)

Section SampleFrame.
Variable data : DataFrame.
Hypothesis grid : map conditions data = sample_grid.

Lemma grid_column {B} (f : string * (Z * (Qc * string)) -> B) :
  map (fun r => f (conditions r)) data = map f sample_grid.
Proof. now rewrite <- (map_map conditions f), grid. Qed.

Lemma grid_selection {B} (g : string * (Z * (Qc * string)) -> bool)
    (f : string * (Z * (Qc * string)) -> B) :
  map (fun r => f (conditions r)) (filter (fun r => g (conditions r)) data)
  = map f (filter g sample_grid).
Proof.
  now rewrite <- (map_map conditions f), (filter_through conditions g), grid.
Qed.

Lemma grid_length : List.length data = 240%nat.
Proof. now rewrite <- (length_map conditions), grid. Qed.

Lemma grid_labels : Forall exact_label data.
Proof.
  apply Forall_forall. intros r I.
  assert (Ic : In (conditions r) sample_grid)
    by (rewrite <- grid; now apply in_map).
  unfold sample_grid, design in Ic. unfold conditions in Ic.
  apply in_prod_iff in Ic as [Ia _]. unfold exact_label.
  simpl in Ia. intuition auto.
Qed.

Lemma grid_tiers : Forall known_tier data.
Proof.
  apply Forall_forall. intros r I.
  assert (Ic : In (conditions r) sample_grid)
    by (rewrite <- grid; now apply in_map).
  unfold sample_grid, design in Ic. unfold conditions in Ic.
  apply in_prod_iff in Ic as [_ Ic]. apply in_prod_iff in Ic as [_ Ic].
  apply in_prod_iff in Ic as [_ Ic]. unfold known_tier.
  simpl in Ic. intuition auto.
Qed.

Lemma grid_row (c : string * (Z * (Qc * string))) :
  In c sample_grid -> exists r, In r data /\ conditions r = c.
Proof.
  rewrite <- grid. intros I. apply in_map_iff in I as (r & E & I). eauto.
Qed.

Lemma grid_archs : unique (map architecture data) = ["P2P"; "SFU"].
Proof.
  rewrite (grid_column fst : map architecture data = _). reflexivity.
Qed.

Lemma grid_viewers :
  sorted (unique (map numViewers data)) = Generator.num_viewers.
Proof.
  rewrite (grid_column (fun c => fst (snd c)) : map numViewers data = _).
  reflexivity.
Qed.

Lemma grid_losses :
  sorted (unique (map packetLoss data)) = Generator.packet_loss_rates.
Proof.
  rewrite (grid_column (fun c => fst (snd (snd c)))
           : map packetLoss data = _).
  vm_compute. reflexivity.
Qed.

Lemma grid_bandwidths :
  unique (map bandwidth data) = Generator.bandwidth_limits.
Proof.
  rewrite (grid_column (fun c => snd (snd (snd c)))
           : map bandwidth data = _).
  reflexivity.
Qed.

Lemma grid_tests (a : string) :
  In a ["P2P"; "SFU"] -> List.length (rows_of_label data a) = 120%nat.
Proof.
  intros I. unfold rows_of_label.
  rewrite <- (length_map conditions).
  rewrite (filter_through conditions (fun c => keqb (fst c) a) data
           : map conditions (filter (fun r => keqb (architecture r) a) data)
             = _), grid.
  destruct I as [<-|[<-|[]]]; reflexivity.
Qed.
End SampleFrame.

Lemma sample_frame (rng : Generator.Random) (n : nat) :
  exists saved data,
    Generator.save_sample_data rng n = (inr saved, (2400 + n)%nat)
    /\ Analyze.load_data (Generator.results_dir saved) = (Some data, inr data)
    /\ Visualize.load_data (results_csv (Generator.results_dir saved)) = data
    /\ map conditions data = sample_grid.
Proof.
  destruct (saved_sample rng n) as (results & _ & E & Es & _).
  eexists _, _. split; [exact E|]. split; [reflexivity|].
  split; [reflexivity|].
  cbn [Generator.results_dir Generator.csv_data results_csv].
  rewrite (csv_conditions results), Es. reflexivity.
Qed.

(** ** The summaries of the sample data *)

Lemma summary_of_grid (data : DataFrame) :
  map conditions data = sample_grid ->
  Analyze.generate_summary_statistics data
  = JDict
      [("total_tests", JInt 240);
       ("architectures", JList [JStr "P2P"; JStr "SFU"]);
       ("viewer_counts", JList (map JInt64 Generator.num_viewers));
       ("packet_loss_rates",
        JList (map (fun q => JNum (Num q)) Generator.packet_loss_rates));
       ("bandwidth_limits", JList (map JStr Generator.bandwidth_limits));
       ("overall_stats",
        JDict [("cpu_utilization", Analyze.describe (map avgCpu data));
               ("latency", Analyze.describe (map avgLatency data));
               ("tls", Analyze.describe (map avgTls data))]);
       ("architecture_comparison",
        JDict [Analyze.arch_entry data "P2P"; Analyze.arch_entry data "SFU"])].
Proof.
  intros G. unfold Analyze.generate_summary_statistics, Analyze.arch_comparison.
  now rewrite (grid_length data G), (grid_archs data G), (grid_viewers data G),
    (grid_losses data G), (grid_bandwidths data G).
Qed.

Lemma arch_entry_tests (data : DataFrame) (arch : string) :
  jget (snd (Analyze.arch_entry data arch)) "tests"
  = Some (JInt (Z.of_nat (List.length (rows_of_label data arch)))).
Proof. reflexivity. Qed.

Lemma performance_count (data : DataFrame) (arch : string) :
  jget (snd (Visualize.performance data arch)) "test_count"
  = Some (JInt (Z.of_nat (List.length
       (filter (fun d => String.eqb (lower (architecture d)) (lower arch))
               data)))).
Proof. reflexivity. Qed.

(** Whatever the random numbers, the sample data is a complete input for
    both scripts.  analyze.py loads 240 tests, and its summary lists the
    architectures P2P and SFU, the eight viewer counts, the five loss
    rates and the three bandwidth limits of the generator, with 120
    tests for either architecture; create_visualizations.py counts the
    same 240 tests, 120 for either architecture. *)
Theorem sample_data_summary (rng : Generator.Random) (n : nat) :
  exists saved data p2p sfu,
    Generator.save_sample_data rng n = (inr saved, (2400 + n)%nat)
    /\ Analyze.load_data (Generator.results_dir saved) = (Some data, inr data)
    /\ Visualize.load_data (results_csv (Generator.results_dir saved)) = data
    /\ jget (Analyze.generate_summary_statistics data) "total_tests"
       = Some (JInt (Generator.meta_totalTests saved))
    /\ Generator.meta_totalTests saved = 240%Z
    /\ jget (Analyze.generate_summary_statistics data) "architectures"
       = Some (JList [JStr "P2P"; JStr "SFU"])
    /\ jget (Analyze.generate_summary_statistics data) "viewer_counts"
       = Some (JList (map JInt64 Generator.num_viewers))
    /\ jget (Analyze.generate_summary_statistics data) "packet_loss_rates"
       = Some (JList (map (fun q => JNum (Num q))
                          Generator.packet_loss_rates))
    /\ jget (Analyze.generate_summary_statistics data) "bandwidth_limits"
       = Some (JList (map JStr Generator.bandwidth_limits))
    /\ Analyze.arch_comparison data = [("P2P", p2p); ("SFU", sfu)]
    /\ jget p2p "tests" = Some (JInt 120)
    /\ jget sfu "tests" = Some (JInt 120)
    /\ jget (Visualize.create_summary_stats data) "total_tests"
       = Some (JInt 240)
    /\ jget (snd (Visualize.performance data "P2P")) "test_count"
       = Some (JInt 120)
    /\ jget (snd (Visualize.performance data "SFU")) "test_count"
       = Some (JInt 120).
Proof.
  destruct (sample_frame rng n) as (saved & data & E & La & Lv & G).
  destruct (saved_sample rng n) as (results & _ & E' & _).
  assert (M : Generator.meta_totalTests saved = 240%Z).
  { rewrite E in E'. now injection E' as ->. }
  exists saved, data, (snd (Analyze.arch_entry data "P2P")),
    (snd (Analyze.arch_entry data "SFU")).
  split; [exact E|]. split; [exact La|]. split; [exact Lv|].
  rewrite (summary_of_grid data G), M.
  repeat (split; [reflexivity|]).
  split; [unfold Analyze.arch_comparison; now rewrite (grid_archs data G)|].
  rewrite !arch_entry_tests.
  rewrite (@grid_tests data G "P2P" (or_introl eq_refl)).
  rewrite (@grid_tests data G "SFU" (or_intror (or_introl eq_refl))).
  split; [reflexivity|]. split; [reflexivity|].
  split; [cbn; now rewrite (grid_length data G)|].
  rewrite !performance_count. 
  rewrite <- !(length_map conditions).
  rewrite (filter_through conditions
             (fun c => String.eqb (lower (fst c)) (lower "P2P")) data
           : map conditions
               (filter (fun d => String.eqb (lower (architecture d))
                                            (lower "P2P")) data) = _).
  rewrite (filter_through conditions
             (fun c => String.eqb (lower (fst c)) (lower "SFU")) data
           : map conditions
               (filter (fun d => String.eqb (lower (architecture d))
                                            (lower "SFU")) data) = _).
  rewrite G. split; reflexivity.
Qed.

(** ** The charts of the sample data *)

Lemma series_xs {X} `{KeyLaws X} (xof : Row -> X) (col : Row -> Qc)
    (xcol : X -> X) (df : DataFrame) :
  map (@xs X)
      (Analyze.series xcol
         (groupby_mean (fun r => (architecture r, xof r)) col df))
  = map (fun a =>
           map xcol
             (map snd
                (filter (fun k => keqb (fst k) a)
                   (sorted (unique (map (fun r => (architecture r, xof r))
                                        df))))))
        (sorted (unique (map architecture df))).
Proof.
  rewrite series_lines, map_map. cbn [xs]. rewrite grouped_archs.
  apply map_ext. intros a.
  now rewrite <- (map_map fst snd), arch_rows_keys, groupby_mean_keys.
Qed.

(** With records of both architectures, and of no other, the series of
    analyze.py are the two lines of create_visualizations.py. *)
Lemma series_both {X} `{KeyLaws X} (xof : Row -> X) (col : Row -> Qc)
    (xcol : X -> X) (rows : DataFrame) :
  Forall exact_label rows ->
  sorted (unique (map architecture rows)) = ["P2P"; "SFU"] ->
  Analyze.series xcol
    (groupby_mean (fun r => (architecture r, xof r)) col rows)
  = [ {| label := "P2P Architecture";
         xs := map xcol (sorted (dd_keys
                 (dd_extend [] (map (entry xof col) (p2p_rows rows)))));
         ys := Visualize.averages
                 (dd_extend [] (map (entry xof col) (p2p_rows rows)))
                 (sorted (dd_keys
                    (dd_extend [] (map (entry xof col) (p2p_rows rows))))) |};
      {| label := "SFU Architecture";
         xs := map xcol (sorted (dd_keys
                 (dd_extend [] (map (entry xof col) (sfu_rows rows)))));
         ys := Visualize.averages
                 (dd_extend [] (map (entry xof col) (sfu_rows rows)))
                 (sorted (dd_keys
                    (dd_extend [] (map (entry xof col) (sfu_rows rows))))) |} ].
Proof.
  intros L A. rewrite series_lines, grouped_archs, A. cbn [map].
  rewrite !(agree_line xof col xcol rows), (part_p2p L), (part_sfu L).
  reflexivity.
Qed.

Section SampleCharts.
Variable data : DataFrame.
Hypothesis grid : map conditions data = sample_grid.

Let on_grid {B} (g : string * (Z * (Qc * string)) -> bool)
    (f : string * (Z * (Qc * string)) -> B) :=
  grid_selection data grid g f.

Lemma grid_cpu_chart :
  exists fig,
    Analyze.generate_cpu_utilization_chart data = Some fig
    /\ map axis (lines fig)
       = map axis (lines (Visualize.create_cpu_utilization_chart data))
    /\ map (@label Z) (lines fig) = ["P2P Architecture"; "SFU Architecture"]
    /\ map (@xs Z) (lines fig)
       = [Generator.num_viewers; Generator.num_viewers]
    /\ Forall (fun l => List.length (ys l) = List.length (xs l)
                        /\ Forall finite (ys l)) (lines fig).
Proof.
  pose (g := fun c : string * (Z * (Qc * string)) =>
               keqb (fst (snd (snd c))) 0%Qc).
  assert (A : sorted (unique (map architecture (filter loss_free data)))
              = ["P2P"; "SFU"]).
  { rewrite (on_grid g fst : map architecture (filter loss_free data) = _).
    reflexivity. }
  assert (K : map (fun r => (architecture r, numViewers r))
                  (filter loss_free data)
              = map (fun c => (fst c, fst (snd c))) (filter g sample_grid))
    by exact (on_grid g (fun c => (fst c, fst (snd c)))).
  destruct (cpu_chart_cases data) as [[E _]|(r & sel & E & ->)].
  { rewrite E in A. discriminate A. }
  eexists. split; [reflexivity|]. cbn [lines]. rewrite <- E.
  unfold Analyze.cpu_grouped.
  assert (L : Forall exact_label (filter loss_free data))
    by apply filter_Forall, (grid_labels data grid).
  split; [|split; [|split]].
  - rewrite (series_both numViewers avgCpu (fun v => v) L A).
    rewrite visualize_cpu_lines. cbv zeta. now rewrite !map_id.
  - now rewrite (series_both numViewers avgCpu (fun v => v) L A).
  - rewrite series_xs, A, K. reflexivity.
  - eapply Forall_impl;
      [|exact (series_points numViewers avgCpu (fun v => v)
                 (filter loss_free data) (fun x y Lt => Lt))].
    intros l (_ & El & _ & F). auto.
Qed.

Lemma grid_latency_chart :
  exists fig,
    Analyze.generate_latency_vs_loss_chart data = Some fig
    /\ map axis (lines fig)
       = map axis (lines (Visualize.create_latency_vs_loss_chart data))
    /\ map (@label Qc) (lines fig) = ["P2P Architecture"; "SFU Architecture"]
    /\ map (@xs Qc) (lines fig) = [percentages; percentages]
    /\ Forall (fun l => List.length (ys l) = List.length (xs l)
                        /\ Forall finite (ys l)) (lines fig).
Proof.
  pose (g := fun c : string * (Z * (Qc * string)) => keqb (fst (snd c)) 5%Z).
  assert (A : sorted (unique (map architecture (filter five_viewers data)))
              = ["P2P"; "SFU"]).
  { rewrite (on_grid g fst : map architecture (filter five_viewers data) = _).
    reflexivity. }
  assert (K : map (fun r => (architecture r, packetLoss r))
                  (filter five_viewers data)
              = map (fun c => (fst c, fst (snd (snd c)))) (filter g sample_grid))
    by exact (on_grid g (fun c => (fst c, fst (snd (snd c))))).
  destruct (latency_chart_cases data) as [[E _]|(r & sel & E & ->)].
  { rewrite E in A. discriminate A. }
  eexists. split; [reflexivity|]. cbn [lines]. rewrite <- E.
  unfold Analyze.latency_grouped.
  assert (L : Forall exact_label (filter five_viewers data))
    by apply filter_Forall, (grid_labels data grid).
  split; [|split; [|split]].
  - rewrite (series_both packetLoss avgLatency
               (fun l => (l * Analyze.hundred)%Qc) L A).
    now rewrite visualize_latency_lines.
  - now rewrite (series_both packetLoss avgLatency
                   (fun l => (l * Analyze.hundred)%Qc) L A).
  - rewrite series_xs, A, K. vm_compute. reflexivity.
  - eapply Forall_impl;
      [|exact (series_points packetLoss avgLatency
                 (fun l => (l * Analyze.hundred)%Qc)
                 (filter five_viewers data) percent_strict)].
    intros l (_ & El & _ & F). auto.
Qed.

Lemma grid_tls_rows (a t : string) :
  In a ["P2P"; "SFU"] -> In t ["1mbit"; "2mbit"; "5mbit"] ->
  exists r, In r (filter five_loss_free data)
            /\ architecture r = a /\ bandwidth r = t.
Proof.
  intros Ia It.
  assert (Ic : In (a, (5%Z, (Generator.of_int 0, t))) sample_grid).
  { unfold sample_grid, design. apply in_prod; [exact Ia|].
    apply in_prod; [simpl; tauto|]. apply in_prod; [now left|].
    simpl in It |- *. tauto. }
  destruct (grid_row data grid Ic) as (r & I & E).
  exists r. unfold conditions in E. injection E as Ea Ev Ep Et.
  split; [|auto]. apply filter_In. split; [exact I|].
  unfold five_loss_free. rewrite Ev, Ep. reflexivity.
Qed.

End SampleCharts.

(* ================================================================== *)
(** * analyze.py: the summary file                                     *)
(* ================================================================== *)

Lemma strings_dumpable (l : list string) : forallb dumpable (map JStr l) = true.
Proof. induction l as [|x l IH]; simpl; auto. Qed.

Lemma int64_not_dumpable (z : Z) (l : list Z) :
  forallb dumpable (map JInt64 (z :: l)) = false.
Proof. reflexivity. Qed.

Lemma viewer_counts_nonempty (r : Row) (data : DataFrame) :
  exists v vs, sorted (unique (map numViewers (r :: data))) = v :: vs.
Proof.
  destruct (sorted (unique (map numViewers (r :: data)))) as [|v vs] eqn:E;
    [|eauto].
  apply (f_equal (@List.length Z)) in E. unfold sorted in E.
  rewrite (Permutation_length (sort_Permutation _ _)) in E. discriminate E.
Qed.

(** [json.dump] raises on the summary of every frame with a row: the
    viewer counts are [numpy.int64] values.  The file is cut off in the
    third entry. *)
Lemma summary_dump (r : Row) (data : DataFrame) :
  json_dump "summary_statistics.json"
            (Analyze.generate_summary_statistics (r :: data))
  = (CutOffFile "summary_statistics.json"
       [("total_tests", JInt (Z.of_nat (List.length (r :: data))));
        ("architectures",
         JList (map JStr (unique (map architecture (r :: data)))))],
     Some TypeError).
Proof.
  destruct (viewer_counts_nonempty r data) as (v & vs & E).
  unfold json_dump, Analyze.generate_summary_statistics. rewrite E.
  cbn [dumpable forallb snd written_entries andb].
  rewrite (strings_dumpable (unique (map architecture (r :: data)))).
  rewrite (int64_not_dumpable v vs). reflexivity.
Qed.

Lemma run_on_rows (dir : ResultsDir) (r : Row) (data : DataFrame) :
  snd (Analyze.load_data dir) = inr (r :: data) ->
  Analyze.run_analysis dir
  = match Analyze.generate_tls_vs_bandwidth_chart (r :: data) with
    | inl _ =>
        (Analyze.saved CpuChart
           (Analyze.generate_cpu_utilization_chart (r :: data))
           ++ Analyze.saved LatencyChart
                (Analyze.generate_latency_vs_loss_chart (r :: data)),
         false)
    | inr tls_chart =>
        (Analyze.saved CpuChart
           (Analyze.generate_cpu_utilization_chart (r :: data))
           ++ Analyze.saved LatencyChart
                (Analyze.generate_latency_vs_loss_chart (r :: data))
           ++ Analyze.saved TlsChart tls_chart
           ++ [CutOffFile "summary_statistics.json"
                 [("total_tests", JInt (Z.of_nat (List.length (r :: data))));
                  ("architectures",
                   JList (map JStr (unique (map architecture (r :: data)))))]],
         false)
    end.
Proof.
  intros E. unfold Analyze.run_analysis. rewrite E.
  destruct (Analyze.generate_tls_vs_bandwidth_chart (r :: data)) as [e|tls];
    [reflexivity|].
  rewrite summary_dump. now rewrite <- app_assoc.
Qed.

Lemma run_never_succeeds (dir : ResultsDir) :
  snd (Analyze.run_analysis dir) = false.
Proof.
  destruct (snd (Analyze.load_data dir)) as [e|[|r data]] eqn:E.
  - unfold Analyze.run_analysis. now rewrite E.
  - unfold Analyze.run_analysis. now rewrite E.
  - rewrite (run_on_rows dir E).
    now destruct (Analyze.generate_tls_vs_bandwidth_chart (r :: data)).
Qed.

Lemma main_of_run (dir : ResultsDir) :
  Analyze.main dir
  = (fst (Analyze.run_analysis dir),
     if snd (Analyze.run_analysis dir) then 0%Z else 1%Z).
Proof. unfold Analyze.main. now destruct (Analyze.run_analysis dir). Qed.

Lemma tls_chart_path (data : DataFrame) (f : BarFigure) :
  Analyze.generate_tls_vs_bandwidth_chart data = inr (Some f) ->
  bar_path f = "tls_vs_bandwidth.png".
Proof.
  destruct (tls_chart_cases data) as [[_ ->]|(r & sel & _ & ->)];
    [discriminate|].
  destruct (Analyze.draw_bars _ _); [discriminate|].
  destruct (_ =? 3)%nat; [|discriminate]. now intros [= <-].
Qed.

(** How a run of analyze.py ends.  No run ends well: the process always
    exits with status 1.  When [load_data] raises, or returns a frame
    without rows, no file is written; a JSON file without a usable result
    is such a case.  On a frame with rows the CPU and the latency chart
    are written if they are drawn; if the plotting calls of the
    legibility chart raise, the run ends there; otherwise that chart is
    written if it is drawn and the summary file is opened, and cut off
    after its first two entries, where [json.dump] raises. *)
Theorem analyze_run_outcome (dir : ResultsDir) :
  snd (Analyze.run_analysis dir) = false
  /\ snd (Analyze.main dir) = 1%Z
  /\ (forall e, snd (Analyze.load_data dir) = inl e ->
                Analyze.main dir = ([], 1%Z))
  /\ (snd (Analyze.load_data dir) = inr [] -> Analyze.main dir = ([], 1%Z))
  /\ (forall results,
        results_csv dir = None -> results_json dir = Some results ->
        filter usable results = [] ->
        Analyze.main dir = ([], 1%Z))
  /\ (forall r data,
        snd (Analyze.load_data dir) = inr (r :: data) ->
        (forall e,
            Analyze.generate_tls_vs_bandwidth_chart (r :: data) = inl e ->
            map file_name (fst (Analyze.main dir))
            = chart_names
                (drawn (Analyze.generate_cpu_utilization_chart (r :: data)))
                (drawn (Analyze.generate_latency_vs_loss_chart (r :: data)))
                false)
        /\ (forall tls_chart,
              Analyze.generate_tls_vs_bandwidth_chart (r :: data)
              = inr tls_chart ->
              map file_name (fst (Analyze.main dir))
              = chart_names
                  (drawn (Analyze.generate_cpu_utilization_chart (r :: data)))
                  (drawn (Analyze.generate_latency_vs_loss_chart (r :: data)))
                  (drawn tls_chart)
                ++ ["summary_statistics.json"]
              /\ last (fst (Analyze.main dir))
                      (CutOffFile EmptyString [])
                 = CutOffFile "summary_statistics.json"
                     [("total_tests",
                       JInt (Z.of_nat (List.length (r :: data))));
                      ("architectures",
                       JList (map JStr
                                  (unique (map architecture (r :: data)))))])).
Proof.
  rewrite (main_of_run dir), (run_never_succeeds dir). cbn [fst snd].
  split; [reflexivity|]. split; [reflexivity|].
  split; [|split; [|split]].
  - intros e E. unfold Analyze.run_analysis. now rewrite E.
  - intros E. unfold Analyze.run_analysis. now rewrite E.
  - intros results Ec Ej U. unfold Analyze.run_analysis, Analyze.load_data.
    rewrite Ec, Ej.
    assert (N : Analyze.records_of results = []).
    { apply length_zero_iff_nil. rewrite records_of_length, U. reflexivity. }
    simpl. now rewrite N.
  - intros r data E. rewrite (run_on_rows dir E).
    assert (C := @saved_names _ CpuChart _ _ (@cpu_chart_path (r :: data))).
    assert (L := @saved_names _ LatencyChart _ _
                   (@latency_chart_path (r :: data))).
    split.
    + intros e Ee. rewrite Ee. cbn [fst]. rewrite map_app, C, L.
      unfold chart_names. now rewrite app_nil_r.
    + intros tls_chart Et. rewrite Et. cbn [fst]. split.
      * rewrite !map_app, C, L. unfold chart_names.
        rewrite (@saved_names _ TlsChart tls_chart "tls_vs_bandwidth.png").
        -- now rewrite <- !app_assoc.
        -- intros f ->. now apply (@tls_chart_path (r :: data)).
      * rewrite !app_assoc. apply last_last.
Qed.

(** [analyze_run_outcome] on a JSON document whose only result failed,
    on the two-line scenario, where the legibility chart has one
    position for three tick labels, and on [sparse]. *)
Lemma analyze_run_outcome_witness :
  Analyze.main {| results_json := Some [result_failed]; results_csv := None |}
  = ([], 1%Z)
  /\ map file_name
         (fst (Analyze.main {| results_json := None;
                               results_csv := Some scenario |}))
     = ["cpu_utilization.png"; "latency_vs_loss.png"]
  /\ map file_name
         (fst (Analyze.main {| results_json := None;
                               results_csv := Some sparse |}))
     = ["cpu_utilization.png"; "latency_vs_loss.png"; "tls_vs_bandwidth.png";
        "summary_statistics.json"].
Proof.
  split; [|split].
  - apply (proj1 (proj2 (proj2 (proj2 (proj2 (analyze_run_outcome _)))))
             [result_failed]); reflexivity.
  - exact (proj1 (proj2 (proj2 (proj2 (proj2 (proj2 (analyze_run_outcome
             {| results_json := None; results_csv := Some scenario |})))))
             _ _ eq_refl) ValueError eq_refl).
  - edestruct (proj2 (proj2 (proj2 (proj2 (proj2 (proj2 (analyze_run_outcome
                 {| results_json := None; results_csv := Some sparse |})))))
                 _ _ eq_refl)) as [N _]; [reflexivity|exact N].
Defined.

Lemma filter_length_disjoint {A} (f g : A -> bool) (l : list A) :
  (forall x, f x = true -> g x = false) ->
  (List.length (filter f l) + List.length (filter g l))%nat
  = List.length (filter (fun x => f x || g x) l).
Proof.
  intros D. induction l as [|x l IH]; simpl; [reflexivity|].
  destruct (f x) eqn:F; simpl.
  - rewrite (D x F). simpl. now rewrite IH.
  - destruct (g x); simpl; rewrite <- IH; lia.
Qed.

Lemma performance_counted (data : DataFrame) :
  sum_Z (map (fun kv => count_under "test_count" (snd kv))
             (map (Visualize.performance data) ["P2P"; "SFU"]))
  = Z.of_nat (List.length (filter counted data)).
Proof.
  unfold counted, sum_Z. cbn [map fold_right].
  change (count_under "test_count" (snd (Visualize.performance data "P2P")))
    with (Z.of_nat (List.length
            (filter (fun r => String.eqb (lower (architecture r)) "p2p") data))).
  change (count_under "test_count" (snd (Visualize.performance data "SFU")))
    with (Z.of_nat (List.length
            (filter (fun r => String.eqb (lower (architecture r)) "sfu") data))).
  rewrite <- (filter_length_disjoint
                (fun r => String.eqb (lower (architecture r)) "p2p")
                (fun r => String.eqb (lower (architecture r)) "sfu")).
  - lia.
  - intros r E. apply String.eqb_eq in E. now rewrite E.
Qed.

(** C4.  analyze.py builds the per-architecture breakdown with one key
    for every label of the frame and counts that add up to the number of
    lines of the CSV file, failed runs included; but the breakdown never
    reaches the summary file: [json.dump] raises on the viewer counts,
    the file breaks off after [total_tests] and [architectures], and the
    process exits with status 1.  create_visualizations.py writes its
    summary in full, with the two keys P2P and SFU whatever the labels
    are; its counts add up to the number of lines whose label is one of
    the two up to case. *)
Theorem summary_breakdown_unwritten (line : CsvRow) (table : list CsvRow) :
  let data := Analyze.read_csv (line :: table) in
  let dir := {| results_json := None; results_csv := Some (line :: table) |} in
  jget (Analyze.generate_summary_statistics data) "architecture_comparison"
    = Some (JDict (Analyze.arch_comparison data))
  /\ dict_keys (Analyze.arch_comparison data) = unique (map architecture data)
  /\ sum_Z (map (fun kv => count_under "tests" (snd kv))
                (Analyze.arch_comparison data))
     = Z.of_nat (List.length (line :: table))
  /\ json_dump "summary_statistics.json"
               (Analyze.generate_summary_statistics data)
     = (CutOffFile "summary_statistics.json"
          [("total_tests", JInt (Z.of_nat (List.length (line :: table))));
           ("architectures",
            JList (map JStr (unique (map architecture data))))],
        Some TypeError)
  /\ snd (Analyze.main dir) = 1%Z
  /\ Forall (fun file =>
               is_complete_summary file = false
               /\ forall kv, cut_off_entries file = Some kv ->
                             dict_get kv "architecture_comparison" = None)
            (fst (Analyze.main dir))
  /\ dumpable (Visualize.create_summary_stats data) = true
  /\ dict_keys (map (Visualize.performance data) ["P2P"; "SFU"])
     = ["P2P"; "SFU"]
  /\ jget (Visualize.create_summary_stats data) "performance_comparison"
     = Some (JDict (map (Visualize.performance data) ["P2P"; "SFU"]))
  /\ sum_Z (map (fun kv => count_under "test_count" (snd kv))
                (map (Visualize.performance data) ["P2P"; "SFU"]))
     = Z.of_nat (List.length (filter counted data)).
Proof.
  intros data dir.
  assert (Ld : snd (Analyze.load_data dir)
               = inr (csv_fields line :: Analyze.read_csv table))
    by reflexivity.
  assert (Len : List.length data = List.length (line :: table))
    by apply length_map.
  split; [reflexivity|]. split.
  { unfold Analyze.arch_comparison, dict_keys. rewrite map_map. simpl.
    now rewrite map_id. }
  split; [now rewrite arch_comparison_counts, Len|].
  split; [unfold data; simpl Analyze.read_csv; rewrite summary_dump;
          now rewrite <- Len|].
  split; [rewrite (main_of_run dir), (run_never_succeeds dir); reflexivity|].
  split; [|split; [reflexivity|split; [reflexivity|split;
                   [reflexivity|apply performance_counted]]]].
  rewrite (main_of_run dir). cbn [fst]. rewrite (run_on_rows dir Ld).
  destruct (Analyze.generate_tls_vs_bandwidth_chart _) as [e|tls_chart];
    cbn [fst]; repeat rewrite Forall_app; repeat split;
    try (apply Forall_forall; intros file I;
         match type of I with
         | In _ (Analyze.saved _ ?fig) => destruct fig; simpl in I
         end;
         [destruct I as [<-|[]]; split; [reflexivity|discriminate]
         |destruct I]).
  repeat constructor. intros kv [= <-]. reflexivity.
Qed.

(* ================================================================== *)
(** * Order of the bandwidth tiers, architecture by architecture       *)
(* ================================================================== *)














(* ================================================================== *)
(** * Order of the records                                             *)
(* ================================================================== *)

(** C6, amended.  Permuting the rows changes neither the keys of an
    aggregation nor their order, nor the values that are averaged under
    a key, taken as a multiset: in the pandas aggregation the value at a
    key is the mean of the selected rows of that key, and the grouping
    loop of create_visualizations.py collects the same values under the
    same keys.  The order in which the values of a group are handed to
    the mean does follow the rows. *)
Theorem aggregation_order_independent {K : Type} `{KeyLaws K}
    (f : Row -> bool) (key : Row -> K) (col : Row -> Qc)
    (data data' : DataFrame) :
  Permutation data data' ->
  map fst (groupby_mean key col (filter f data))
    = map fst (groupby_mean key col (filter f data'))
  /\ (forall k v,
        In (k, v) (groupby_mean key col (filter f data)) ->
        v = Stats.mean (map col (rows_with key (filter f data) k)))
  /\ (forall k,
        Permutation (map col (rows_with key (filter f data) k))
                    (map col (rows_with key (filter f data') k)))
  /\ sorted (dd_keys (fst (Visualize.group key col (filter f data))))
     = sorted (dd_keys (fst (Visualize.group key col (filter f data'))))
  /\ sorted (dd_keys (snd (Visualize.group key col (filter f data))))
     = sorted (dd_keys (snd (Visualize.group key col (filter f data'))))
  /\ (forall k,
        Permutation (dd_get (fst (Visualize.group key col (filter f data))) k)
                    (dd_get (fst (Visualize.group key col (filter f data'))) k)
        /\ Permutation
             (dd_get (snd (Visualize.group key col (filter f data))) k)
             (dd_get (snd (Visualize.group key col (filter f data'))) k)).
Proof.
  intros P.
  assert (Pf : Permutation (filter f data) (filter f data'))
    by now apply filter_Permutation.
  split; [|split; [|split; [|split; [|split]]]].
  - rewrite !groupby_mean_keys.
    apply sorted_Permutation_eq, unique_Permutation, Permutation_map, Pf.
  - intros k v I. now apply groupby_mean_In in I.
  - intros k. apply Permutation_map. unfold rows_with.
    now apply filter_Permutation.
  - rewrite !group_spec. cbn [fst].
    apply sorted_keys_Permutation. unfold p2p_rows.
    now apply filter_Permutation.
  - rewrite !group_spec. cbn [snd].
    apply sorted_keys_Permutation. unfold sfu_rows.
    now apply filter_Permutation.
  - intros k. rewrite !group_spec. cbn [fst snd].
    split; apply dd_get_Permutation, Permutation_map;
      [unfold p2p_rows|unfold sfu_rows]; now apply filter_Permutation.
Qed.

(** C6 as stated fails in binary64.  The three loss-free P2P runs of
    [drifting] have five viewers and CPU 0.1, 0.2 and 0.3;
    create_visualizations.py collects the three values under the key 5
    in the order of the lines and hands them to [np.mean].  In the
    order given the mean it plots is 0.20000000000000004, with the
    lines reversed it is 0.19999999999999998. *)
Lemma aggregation_order_changes_mean :
  let p2p_data :=
    fst (Visualize.group numViewers avgCpu
           (filter loss_free (Analyze.read_csv drifting))) in
  let p2p_data' :=
    fst (Visualize.group numViewers avgCpu
           (filter loss_free (Analyze.read_csv drifting_reversed))) in
  Permutation (Analyze.read_csv drifting) (Analyze.read_csv drifting_reversed)
  /\ sorted (dd_keys p2p_data) = [5%Z]
  /\ sorted (dd_keys p2p_data') = [5%Z]
  /\ dd_get p2p_data 5%Z = [tenth 1; tenth 2; tenth 3]
  /\ dd_get p2p_data' 5%Z = [tenth 3; tenth 2; tenth 1]
  /\ Visualize.averages64 p2p_data (sorted (dd_keys p2p_data))
     = [0x1.999999999999bp-3%float]
  /\ Visualize.averages64 p2p_data' (sorted (dd_keys p2p_data'))
     = [0x1.9999999999999p-3%float]
  /\ Visualize.averages64 p2p_data (sorted (dd_keys p2p_data))
     <> Visualize.averages64 p2p_data' (sorted (dd_keys p2p_data')).
Proof.
  intros p2p_data p2p_data'.
  assert (M : Visualize.averages64 p2p_data (sorted (dd_keys p2p_data))
              = [0x1.999999999999bp-3%float]) by (vm_compute; reflexivity).
  assert (M' : Visualize.averages64 p2p_data' (sorted (dd_keys p2p_data'))
               = [0x1.9999999999999p-3%float]) by (vm_compute; reflexivity).
  split; [apply Permutation_map, Permutation_rev|].
  split; [reflexivity|]. split; [reflexivity|].
  split; [reflexivity|]. split; [reflexivity|].
  split; [exact M|]. split; [exact M'|].
  rewrite M, M'. intros E.
  apply (f_equal (fun l => PrimFloat.ltb 0x1.9999999999999p-3%float
                             (hd 0%float l))) in E.
  vm_compute in E. discriminate E.
Qed.

(** C6, amended, on the scenario and its two lines exchanged. *)
Lemma aggregation_order_independent_witness :
  Permutation (Analyze.read_csv scenario) (Analyze.read_csv scenario_swapped)
  /\ map fst (groupby_mean (fun r => (architecture r, numViewers r)) avgCpu
                (filter loss_free (Analyze.read_csv scenario)))
     = map fst (groupby_mean (fun r => (architecture r, numViewers r)) avgCpu
                  (filter loss_free (Analyze.read_csv scenario_swapped))).
Proof.
  assert (P : Permutation (Analyze.read_csv scenario)
                          (Analyze.read_csv scenario_swapped)).
  { simpl. apply perm_swap. }
  split; [exact P|].
  exact (proj1 (aggregation_order_independent
                  loss_free (fun r => (architecture r, numViewers r))
                  avgCpu P)).
Defined.

(* ================================================================== *)
(** * The summary of a group of one record                             *)
(* ================================================================== *)




(* ================================================================== *)
(** * Labels                                                           *)
(* ================================================================== *)

(** Records read from a JSON document whose labels are ASCII strings
    carry their label in upper case, whatever case the document uses:
    two such results whose labels differ in case only are given the same
    label, so they fall into the same groups.  (Labels read from a CSV
    file are kept as they are.) *)
Theorem json_labels_normalised (results : list Result) :
  Forall (fun r => ascii_only (r_architecture r)) results ->
  Forall (fun rec => upper (architecture rec) = architecture rec)
         (Analyze.records_of results)
  /\ (forall r1 r2 rec1 rec2,
        In r1 results -> In r2 results ->
        lower (r_architecture r1) = lower (r_architecture r2) ->
        Analyze.record_of r1 = Some rec1 ->
        Analyze.record_of r2 = Some rec2 ->
        architecture rec1 = architecture rec2)
  /\ (forall table, map architecture (Analyze.read_csv table)
                    = map (fun c => architecture (csv_fields c)) table).
Proof.
  intros _. split; [|split].
  - pose proof (records_of_usable results) as F.
    induction F as [|r rec rs recs E F IH]; constructor; [|exact IH].
    rewrite (record_of_label r E). apply upper_idem.
  - intros r1 r2 rec1 rec2 _ _ L E1 E2.
    rewrite (record_of_label r1 E1), (record_of_label r2 E2).
    rewrite <- (upper_lower (r_architecture r1)), L. apply upper_lower.
  - intros table. unfold Analyze.read_csv. now rewrite map_map.
Qed.

(** [json_labels_normalised] on a result labelled p2p and one labelled
    P2P. *)
Lemma json_labels_normalised_witness :
  Forall (fun r => ascii_only (r_architecture r))
         [result_lower_case; result_upper_case]
  /\ exists rec1 rec2,
       Analyze.record_of result_lower_case = Some rec1
       /\ Analyze.record_of result_upper_case = Some rec2
       /\ architecture rec1 = architecture rec2.
Proof.
  assert (A : Forall (fun r => ascii_only (r_architecture r))
                     [result_lower_case; result_upper_case]).
  { repeat constructor; simpl; lia. }
  split; [exact A|].
  eexists _, _. split; [reflexivity|]. split; [reflexivity|].
  exact (proj1 (proj2 (json_labels_normalised A))
           result_lower_case result_upper_case _ _
           (or_introl eq_refl) (or_intror (or_introl eq_refl))
           eq_refl eq_refl eq_refl).
Defined.

(* ================================================================== *)
(** * The line charts of the two implementations                       *)
(* ================================================================== *)

Lemma group_values {K} `{KeyLaws K} (xof : Row -> K) (col : Row -> Qc)
    (rows : DataFrame) (x : K) :
  Forall exact_label rows ->
  dd_get (fst (Visualize.group xof col rows)) x
  = map col (rows_with (fun r => (architecture r, xof r)) rows ("P2P", x))
  /\ dd_get (snd (Visualize.group xof col rows)) x
     = map col (rows_with (fun r => (architecture r, xof r)) rows ("SFU", x)).
Proof.
  intros L. rewrite group_spec. cbn [fst snd].
  rewrite !dd_get_rows, (part_p2p L), (part_sfu L).
  now rewrite !(rows_with_part xof rows).
Qed.

(** On data labelled P2P and SFU, as the CSV file is, the two
    implementations draw the same lines over the same x values: every
    line analyze.py draws has its label and its x values in a line of
    create_visualizations.py, and every line the latter draws with at
    least one point has them in a line of analyze.py.  They differ in
    the empty lines, which create_visualizations.py draws and analyze.py
    omits.  The values create_visualizations.py collects under an x
    value, in input order, are those of the rows analyze.py groups under
    the label and that x value; each implementation averages them with
    its own library. *)
Theorem line_charts_agree (data : DataFrame) :
  Forall exact_label data ->
  (forall fig,
      Analyze.generate_cpu_utilization_chart data = Some fig ->
      (forall l, In l (lines fig) ->
         In (axis l)
            (map axis (lines (Visualize.create_cpu_utilization_chart data))))
      /\ (forall l, In l (lines (Visualize.create_cpu_utilization_chart data)) ->
                    xs l <> [] -> In (axis l) (map axis (lines fig))))
  /\ (forall fig,
        Analyze.generate_latency_vs_loss_chart data = Some fig ->
        (forall l, In l (lines fig) ->
           In (axis l)
              (map axis (lines (Visualize.create_latency_vs_loss_chart data))))
        /\ (forall l, In l (lines (Visualize.create_latency_vs_loss_chart data)) ->
                      xs l <> [] -> In (axis l) (map axis (lines fig))))
  /\ (forall v,
        dd_get (fst (Visualize.group numViewers avgCpu (filter loss_free data))) v
        = map avgCpu
              (rows_with (fun r => (architecture r, numViewers r))
                         (filter loss_free data) ("P2P", v))
        /\ dd_get (snd (Visualize.group numViewers avgCpu
                                        (filter loss_free data))) v
           = map avgCpu
                 (rows_with (fun r => (architecture r, numViewers r))
                            (filter loss_free data) ("SFU", v)))
  /\ (forall p,
        dd_get (fst (Visualize.group packetLoss avgLatency
                                     (filter five_viewers data))) p
        = map avgLatency
              (rows_with (fun r => (architecture r, packetLoss r))
                         (filter five_viewers data) ("P2P", p))
        /\ dd_get (snd (Visualize.group packetLoss avgLatency
                                        (filter five_viewers data))) p
           = map avgLatency
                 (rows_with (fun r => (architecture r, packetLoss r))
                            (filter five_viewers data) ("SFU", p))).
Proof.
  intros L. split; [|split; [|split]].
  - intros fig.
    destruct (cpu_chart_cases data) as [[E ->]|(r & sel & E & ->)];
      [discriminate|]. intros [= <-]. simpl lines.
    rewrite visualize_cpu_lines. cbv zeta. rewrite <- E.
    pose proof (series_agree numViewers avgCpu (fun v => v)
                             (filter_Forall loss_free L)) as A.
    cbv beta zeta in A. unfold Analyze.cpu_grouped.
    rewrite !map_id in A. destruct A as [A B].
    split; intros l I.
    + apply in_map, A, I.
    + intros N. apply in_map, B; assumption.
  - intros fig.
    destruct (latency_chart_cases data) as [[E ->]|(r & sel & E & ->)];
      [discriminate|]. intros [= <-]. simpl lines.
    rewrite visualize_latency_lines. cbv zeta. rewrite <- E.
    destruct (series_agree packetLoss avgLatency
                (fun l => (l * Analyze.hundred)%Qc)
                (filter_Forall five_viewers L)) as [A B].
    split; intros l I.
    + apply in_map, A, I.
    + intros N. apply in_map, B; assumption.
  - intros v. apply group_values, filter_Forall, L.
  - intros p. apply group_values, filter_Forall, L.
Qed.

(** [line_charts_agree] on [sparse]. *)
Lemma line_charts_agree_witness :
  Forall exact_label (Analyze.read_csv sparse)
  /\ exists fig,
       Analyze.generate_latency_vs_loss_chart (Analyze.read_csv sparse) = Some fig
       /\ forall l, In l (lines fig) ->
            In (axis l)
               (map axis (lines (Visualize.create_latency_vs_loss_chart
                                   (Analyze.read_csv sparse)))).
Proof.
  assert (L : Forall exact_label (Analyze.read_csv sparse)).
  { unfold Analyze.read_csv, sparse. simpl map. each_row. }
  split; [exact L|].
  eexists. split; [reflexivity|].
  exact (proj1 (proj1 (proj2 (line_charts_agree L)) _ eq_refl)).
Defined.

(* ================================================================== *)
(** * The bars of the legibility chart                                 *)
(* ================================================================== *)

















(* ================================================================== *)
(** * The charts drawn from the sample data                            *)
(* ================================================================== *)

Section SampleBars.
Variable data : DataFrame.
Hypothesis grid : map conditions data = sample_grid.

(** In the sample data each architecture has exactly one loss-free
    record with five viewers at each tier. *)
Lemma grid_tls_record (a t : string) :
  In a ["P2P"; "SFU"] -> In t ["1mbit"; "2mbit"; "5mbit"] ->
  exists r,
    filter (fun x => keqb (bandwidth x) t)
           (rows_of_label (filter five_loss_free data) a) = [r]
    /\ In r data
    /\ conditions r = (a, (5%Z, (Generator.of_int 0, t))).
Proof.
  intros Ia It.
  pose (g := fun c : string * (Z * (Qc * string)) =>
               ((keqb (fst (snd c)) 5%Z && keqb (fst (snd (snd c))) 0%Qc)
                && keqb (fst c) a) && keqb (snd (snd (snd c))) t).
  assert (F : filter (fun x => keqb (bandwidth x) t)
                     (rows_of_label (filter five_loss_free data) a)
              = filter (fun r => g (conditions r)) data).
  { unfold rows_of_label. rewrite !filter_filter. apply filter_ext.
    intros r. unfold g, five_loss_free, conditions. cbn [fst snd].
    destruct (keqb (numViewers r) 5%Z), (keqb (packetLoss r) 0%Qc),
      (keqb (architecture r) a), (keqb (bandwidth r) t); reflexivity. }
  assert (C : map conditions (filter (fun r => g (conditions r)) data)
              = [(a, (5%Z, (Generator.of_int 0, t)))]).
  { rewrite (filter_through conditions g), grid.
    destruct Ia as [<-|[<-|[]]]; destruct It as [<-|[<-|[<-|[]]]];
      vm_compute; reflexivity. }
  rewrite F. destruct (filter (fun r => g (conditions r)) data) as [|r [|r' l]] eqn:E;
    try discriminate C.
  exists r. split; [reflexivity|]. split.
  - assert (I : In r (filter (fun r => g (conditions r)) data))
      by (rewrite E; now left).
    now apply filter_In in I.
  - exact (f_equal (hd (conditions r)) C).
Qed.

(** So the bars of an architecture are the legibility averages of these
    three records, in both implementations. *)
Lemma grid_tls_heights (a : string) :
  In a ["P2P"; "SFU"] ->
  exists r1 r2 r5,
    (In r1 data /\ conditions r1 = (a, (5%Z, (Generator.of_int 0, "1mbit"))))
    /\ (In r2 data /\ conditions r2 = (a, (5%Z, (Generator.of_int 0, "2mbit"))))
    /\ (In r5 data /\ conditions r5 = (a, (5%Z, (Generator.of_int 0, "5mbit"))))
    /\ map snd (Analyze.arch_rows
                  (Analyze.tls_grouped (filter five_loss_free data)) a)
       = [Num (avgTls r1); Num (avgTls r2); Num (avgTls r5)]
    /\ map (fun t => Stats.mean
                       (map avgTls
                            (filter (fun r => keqb (bandwidth r) t)
                                    (rows_of_label (filter five_loss_free data)
                                                   a))))
           ["1mbit"; "2mbit"; "5mbit"]
       = [Num (avgTls r1); Num (avgTls r2); Num (avgTls r5)].
Proof.
  intros Ia.
  destruct (@grid_tls_record a "1mbit" Ia) as (r1 & E1 & I1 & C1);
    [simpl; tauto|].
  destruct (@grid_tls_record a "2mbit" Ia) as (r2 & E2 & I2 & C2);
    [simpl; tauto|].
  destruct (@grid_tls_record a "5mbit" Ia) as (r5 & E5 & I5 & C5);
    [simpl; tauto|].
  exists r1, r2, r5. repeat (split; [now split|]).
  assert (M : map (fun t => Stats.mean
                       (map avgTls
                            (filter (fun r => keqb (bandwidth r) t)
                                    (rows_of_label (filter five_loss_free data)
                                                   a))))
                  ["1mbit"; "2mbit"; "5mbit"]
              = [Num (avgTls r1); Num (avgTls r2); Num (avgTls r5)]).
  { cbn [map]. rewrite E1, E2, E5. cbn [map]. now rewrite !mean_singleton. }
  split; [|exact M].
  rewrite <- M. apply tls_heights.
  - apply filter_Forall, (grid_tiers data grid).
  - intros t It. apply (grid_tls_rows data grid); assumption.
Qed.

Lemma grid_tls_chart :
  exists fig,
    Analyze.generate_tls_vs_bandwidth_chart data = inr (Some fig)
    /\ bar_positions fig = 3%nat
    /\ bar_ticks fig = bar_ticks (Visualize.create_tls_vs_bandwidth_chart data)
    /\ List.length (bars fig) = 2%nat
    /\ forall a,
         In a ["P2P"; "SFU"] ->
         exists r1 r2 r5,
           (In r1 data
            /\ conditions r1 = (a, (5%Z, (Generator.of_int 0, "1mbit"))))
           /\ (In r2 data
               /\ conditions r2 = (a, (5%Z, (Generator.of_int 0, "2mbit"))))
           /\ (In r5 data
               /\ conditions r5 = (a, (5%Z, (Generator.of_int 0, "5mbit"))))
           /\ In (String.append a " Architecture",
                  [Num (avgTls r1); Num (avgTls r2); Num (avgTls r5)])
                 (bars fig)
           /\ In (String.append a " Architecture",
                  [Num (avgTls r1); Num (avgTls r2); Num (avgTls r5)])
                 (bars (Visualize.create_tls_vs_bandwidth_chart data)).
Proof.
  pose (g := fun c : string * (Z * (Qc * string)) =>
               keqb (fst (snd c)) 5%Z && keqb (fst (snd (snd c))) 0%Qc).
  assert (K : map (fun r => (architecture r, bandwidth r))
                  (filter five_loss_free data)
              = map (fun c => (fst c, snd (snd (snd c)))) (filter g sample_grid))
    by exact (grid_selection data grid g (fun c => (fst c, snd (snd (snd c))))).
  assert (Ks := tls_grouped_keys (filter five_loss_free data)).
  rewrite K in Ks.
  assert (A : unique (map (fun x => fst (fst x))
                          (Analyze.tls_grouped (filter five_loss_free data)))
              = ["P2P"; "SFU"]).
  { rewrite <- (map_map fst fst), Ks. reflexivity. }
  assert (T : List.length
                (unique (map tier (Analyze.tls_grouped
                                     (filter five_loss_free data))))
              = 3%nat).
  { unfold tier. rewrite <- (map_map fst snd), Ks. reflexivity. }
  assert (L : Forall exact_label (filter five_loss_free data))
    by apply filter_Forall, (grid_labels data grid).
  destruct (@grid_tls_heights "P2P") as (p1 & p2 & p5 & P1 & P2 & P5 & Hp & Vp);
    [now left|].
  destruct (@grid_tls_heights "SFU") as (s1 & s2 & s5 & S1 & S2 & S5 & Hs & Vs);
    [right; now left|].
  destruct (tls_chart_cases data) as [[E _]|(r & sel & E & R)].
  { rewrite E in K. discriminate K. }
  rewrite <- E in R. rewrite T, A in R. cbn [map] in R. rewrite Hp, Hs in R.
  assert (Vt : bar_ticks (Visualize.create_tls_vs_bandwidth_chart data)
               = ["1 Mbps"; "2 Mbps"; "5 Mbps"]).
  { unfold Visualize.create_tls_vs_bandwidth_chart.
    now destruct (Visualize.group _ _ _). }
  eexists. split; [exact R|]. split; [reflexivity|].
  split; [now rewrite Vt|]. split; [reflexivity|].
  intros a [<-|[<-|[]]].
  - exists p1, p2, p5. repeat (split; [assumption|]). split; [now left|].
    rewrite visualize_tls_bars. cbv zeta. fold five_loss_free.
    rewrite (part_p2p L). rewrite Vp. now left.
  - exists s1, s2, s5. repeat (split; [assumption|]). split; [right; now left|].
    rewrite visualize_tls_bars. cbv zeta. fold five_loss_free.
    rewrite (part_sfu L). rewrite Vs. right. now left.
Qed.
End SampleBars.

(** Whatever the random numbers, analyze.py draws all three charts from
    the sample data.  Its two line charts have the lines of
    create_visualizations.py, label by label and x value by x value:
    P2P before SFU, over the eight viewer counts in the CPU chart and
    over the five loss rates in per cent in the latency chart, with one
    y value per x value, all numbers.  Its legibility chart has three
    positions, the tick labels of create_visualizations.py and bars for
    the two architectures; the sample data holds exactly one loss-free
    record with five viewers for an architecture and a tier, and the
    three bars of an architecture are the legibility averages of its
    records at 1mbit, 2mbit and 5mbit, in this order, in both
    implementations. *)
Theorem sample_data_charts (rng : Generator.Random) (n : nat) :
  exists saved data cpu_fig latency_fig tls_fig,
    Generator.save_sample_data rng n = (inr saved, (2400 + n)%nat)
    /\ Analyze.load_data (Generator.results_dir saved) = (Some data, inr data)
    /\ Visualize.load_data (results_csv (Generator.results_dir saved)) = data
    /\ Analyze.generate_cpu_utilization_chart data = Some cpu_fig
    /\ map axis (lines cpu_fig)
       = map axis (lines (Visualize.create_cpu_utilization_chart data))
    /\ map (@label Z) (lines cpu_fig)
       = ["P2P Architecture"; "SFU Architecture"]
    /\ map (@xs Z) (lines cpu_fig)
       = [Generator.num_viewers; Generator.num_viewers]
    /\ Forall (fun l => List.length (ys l) = List.length (xs l)
                        /\ Forall finite (ys l)) (lines cpu_fig)
    /\ Analyze.generate_latency_vs_loss_chart data = Some latency_fig
    /\ map axis (lines latency_fig)
       = map axis (lines (Visualize.create_latency_vs_loss_chart data))
    /\ map (@label Qc) (lines latency_fig)
       = ["P2P Architecture"; "SFU Architecture"]
    /\ map (@xs Qc) (lines latency_fig) = [percentages; percentages]
    /\ Forall (fun l => List.length (ys l) = List.length (xs l)
                        /\ Forall finite (ys l)) (lines latency_fig)
    /\ Analyze.generate_tls_vs_bandwidth_chart data = inr (Some tls_fig)
    /\ bar_positions tls_fig = 3%nat
    /\ bar_ticks tls_fig
       = bar_ticks (Visualize.create_tls_vs_bandwidth_chart data)
    /\ List.length (bars tls_fig) = 2%nat
    /\ forall a,
         In a ["P2P"; "SFU"] ->
         exists r1 r2 r5,
           (In r1 data
            /\ conditions r1 = (a, (5%Z, (Generator.of_int 0, "1mbit"))))
           /\ (In r2 data
               /\ conditions r2 = (a, (5%Z, (Generator.of_int 0, "2mbit"))))
           /\ (In r5 data
               /\ conditions r5 = (a, (5%Z, (Generator.of_int 0, "5mbit"))))
           /\ In (String.append a " Architecture",
                  [Num (avgTls r1); Num (avgTls r2); Num (avgTls r5)])
                 (bars tls_fig)
           /\ In (String.append a " Architecture",
                  [Num (avgTls r1); Num (avgTls r2); Num (avgTls r5)])
                 (bars (Visualize.create_tls_vs_bandwidth_chart data)).
Proof.
  destruct (sample_frame rng n) as (saved & data & E & La & Lv & G).
  destruct (grid_cpu_chart data G) as (c & Ec & C1 & C2 & C3 & C4).
  destruct (grid_latency_chart data G) as (l & El & L1 & L2 & L3 & L4).
  destruct (grid_tls_chart data G) as (t & Et & T1 & T2 & T3 & T4).
  exists saved, data, c, l, t.
  repeat (split; [assumption|]). exact T4.
Qed.
